(** * rendering.py: the Pygame dashboard of the adaptive e-learning / AAC platform

    A shallow embedding of [src/rendering.py] (class [ELearningVisualizer])
    and the properties of its drawing code.

    - Python floats are IEEE-754 binary64 values: they are Rocq's primitive
      floats, compared and multiplied by the kernel as CPython does.
    - Python ints are [Z].
    - The state snapshot [env_state] is a dict read only through
      [env_state.get(key, default)]: it is a record of optional fields, an
      absent key being [None], a present one holding a value of the type the
      environment supplies.
    - The window surface is the list of drawing commands issued since the
      last [screen.fill], in drawing order; [pygame.display.flip] presents
      it.  An int handed to Pygame as a coordinate or a size is converted as
      Pygame converts it: through a C long (64 bits, as on Linux and macOS)
      to a C int, so that an int outside the range of a C long raises
      TypeError and one inside is reduced to 32 bits.  The pixels and the
      clipping are not modelled.
    - [str] of an int, which the f-strings use, follows CPython's limit of
      4300 digits (Python 3.11 and later, and the security releases of 3.7
      to 3.10).
    - A Python exception is a [Raise] result; the visualizer keeps whatever
      was assigned to its fields before the exception.
    - The window is taken to be open: [__init__] is what the constructor
      leaves when [pygame.display.set_mode] accepts the size. *)

From Stdlib Require Import ZArith QArith Qround Qpower List String Ascii Bool Lia Floats
  DecimalString.
Import ListNotations.

#[local] Set Warnings "-inexact-float".
#[local] Open Scope string_scope.
#[local] Open Scope Z_scope.

(** ** Python values and builtins *)

Module Py.

Inductive exn : Type :=
| ValueError      (* int(nan); str of an int of more than 4300 digits *)
| OverflowError   (* int(inf), float(huge int) *)
| IndexError      (* list index out of range *)
| TypeError.      (* an int that Pygame cannot convert to a C long *)

Inductive result (A : Type) : Type :=
| Return (a : A)
| Raise (e : exn).
Arguments Return {A} a.
Arguments Raise {A} e.

(** [x > y], [x >= y] on floats; [x < y] and [x <= y] are [PrimFloat.ltb]
    and [PrimFloat.leb].  Every comparison with a NaN is false. *)
Definition gtb (x y : float) : bool := PrimFloat.ltb y x.
Definition geb (x y : float) : bool := PrimFloat.leb y x.

(** [float(n)] for an int [n], as used by [n * x] with [x] a float: the
    nearest binary64 value, ties to even; OverflowError beyond the range. *)
Definition float_of_int (n : Z) : result float :=
  let f := SF2Prim (binary_normalize prec emax n 0 false) in
  if PrimFloat.is_infinity f then Raise OverflowError else Return f.

(** [int(x)] for a float [x]: truncation toward zero of the exact value
    [(-1)^s * m * 2^e]; NaN and the infinities raise. *)
Definition int_of_float (x : float) : result Z :=
  match Prim2SF x with
  | S754_nan => Raise ValueError
  | S754_infinity _ => Raise OverflowError
  | S754_zero _ => Return 0
  | S754_finite s m e =>
      let magnitude := Z.shiftl (Z.pos m) e in
      Return (if s then - magnitude else magnitude)
  end.

(** The decimal digits of an int [n], after a minus sign when [n < 0]. *)
Definition decimal (n : Z) : string := NilZero.string_of_int (Z.to_int n).

(** [sys.get_int_max_str_digits()], CPython's default. *)
Definition max_str_digits : Z := 4300.

(** An int of at most [max_str_digits] digits, the sign not counted. *)
Definition within_str_digits (n : Z) : bool :=
  Z.of_nat (String.length (decimal (Z.abs n))) <=? max_str_digits.

(** [str(n)] for an int [n], which is also what [f"{n}"] gives: the decimal
    digits, or ValueError for an int of more than [max_str_digits] digits. *)
Definition str (n : Z) : result string :=
  if within_str_digits n then Return (decimal n) else Raise ValueError.

(** The last [d] decimal digits of [n], zero-padded. *)
Fixpoint digits (d : nat) (n : Z) : string :=
  match d with
  | O => ""
  | S d' => digits d' (n / 10) ++ decimal (n mod 10)
  end.

(** [round(m * 2^e * 10^d)] for [m > 0], to the nearest integer, ties to
    even: the digits CPython's correctly rounded [%.<d>f] prints. *)
Definition scaled_round (m : positive) (e : Z) (d : nat) : Z :=
  let num := Z.pos m * 10 ^ Z.of_nat d in
  if 0 <=? e then num * 2 ^ e
  else
    let den := 2 ^ (- e) in
    let q := num / den in
    let r := num mod den in
    match 2 * r ?= den with
    | Lt => q
    | Gt => q + 1
    | Eq => if Z.even q then q else q + 1
    end.

Definition fixed (n : Z) (d : nat) : string :=
  decimal (n / 10 ^ Z.of_nat d) ++
  match d with O => "" | _ => "." ++ digits d n end.

(** [format(x, ".<d>f")], and [format(x, "+.<d>f")] when [plus] is set. *)
Definition format_float (plus : bool) (d : nat) (x : float) : string :=
  let sign (s : bool) := if s then "-" else if plus then "+" else "" in
  match Prim2SF x with
  | S754_nan => sign false ++ "nan"
  | S754_infinity s => sign s ++ "inf"
  | S754_zero s => sign s ++ fixed 0 d
  | S754_finite s m e => sign s ++ fixed (scaled_round m e d) d
  end.

(** [l[i]] for a list and an int index: a negative index counts from the
    end, an index out of range raises IndexError. *)
Definition getitem {A : Type} (l : list A) (i : Z) : result A :=
  let n := Z.of_nat (List.length l) in
  let j := if i <? 0 then i + n else i in
  if (0 <=? j) && (j <? n) then
    match nth_error l (Z.to_nat j) with
    | Some a => Return a
    | None => Raise IndexError
    end
  else Raise IndexError.

(** [enumerate(l)] *)
Definition enumerate {A : Type} (l : list A) : list (Z * A) :=
  combine (map Z.of_nat (seq 0 (List.length l))) l.

(** [range(n)] *)
Definition range (n : Z) : list Z := map Z.of_nat (seq 0 (Z.to_nat n)).

(** [d.get(key, default)] on an optional field. *)
Definition get {A : Type} (field : option A) (default : A) : A :=
  match field with
  | Some v => v
  | None => default
  end.

End Py.
Import Py.

(** ** Pygame: colours, rectangles, text surfaces, drawing commands, events *)

Module Pygame.

Definition Color : Type := Z * Z * Z.

(** An int handed to Pygame as a coordinate or a size ([pg_IntFromObj]):
    [PyLong_AsLong] fails outside the range of a C long, and Pygame then
    raises TypeError; the C long is stored in a C int, which keeps its low
    32 bits. *)
Definition in_c_long (n : Z) : bool := (- 2 ^ 63 <=? n) && (n <? 2 ^ 63).

Definition c_int (n : Z) : Z := (n + 2 ^ 31) mod 2 ^ 32 - 2 ^ 31.

(** A rectangle as Pygame holds it: four C ints. *)
Inductive rect : Type := Rect (x y w h : Z).

(** [pygame.Rect(x, y, w, h)] for ints [x], [y], [w] and [h]. *)
Definition new_Rect (x y w h : Z) : result rect :=
  if in_c_long x && in_c_long y && in_c_long w && in_c_long h
  then Return (Rect (c_int x) (c_int y) (c_int w) (c_int h))
  else Raise TypeError.

(** [pygame.font.Font(None, size)] *)
Inductive font : Type := Font (size : Z).

(** [font.render(text, antialias, color)] *)
Inductive Surface : Type := Text (f : font) (text : string) (antialias : bool) (color : Color).

(** Where a text surface is blitted: at a top-left corner [(x, y)], or at
    the rectangle [surface.get_rect(center=(x, y))]. *)
Inductive dest : Type :=
| topleft (x y : Z)
| center (x y : Z).

(** The destination [(x, y)] of [screen.blit(source, (x, y))]. *)
Definition position (x y : Z) : result dest :=
  if in_c_long x && in_c_long y
  then Return (topleft (c_int x) (c_int y))
  else Raise TypeError.

(** [surface.get_rect(center=(x, y))] *)
Definition get_rect_center (x y : Z) : result dest :=
  if in_c_long x && in_c_long y
  then Return (center (c_int x) (c_int y))
  else Raise TypeError.

(** What is drawn on the window surface.  [width] and [border_radius] of
    [pygame.draw.rect] are [None] when the call leaves them out. *)
Inductive command : Type :=
| fill (c : Color)
| draw_rect (c : Color) (r : rect) (width : option Z) (border_radius : option Z)
| blit (source : Surface) (d : dest).

(** The events of [pygame.event.get()]. *)
Inductive Event : Type :=
| QUIT
| KEYDOWN (key : Z)
| KEYUP (key : Z)
| MOUSEMOTION
| OTHEREVENT (type : Z).

Definition K_ESCAPE : Z := 27.
Definition K_q : Z := 113.

(** Drawing code: a result, or the exception raised, together with the
    commands issued until then. *)
Definition Draw (A : Type) : Type := result A * list command.

Definition ret {A : Type} (a : A) : Draw A := (Return a, []).

Definition bind {A B : Type} (m : Draw A) (k : A -> Draw B) : Draw B :=
  match m with
  | (Raise e, out) => (Raise e, out)
  | (Return a, out) => let (r, out') := k a in (r, (out ++ out')%list)
  end.

Definition lift {A : Type} (r : result A) : Draw A := (r, []).

Definition emit (c : command) : Draw unit := (Return tt, [c]).

(** [screen.blit(source, d)], the destination [d] being computed first. *)
Definition screen_blit (source : Surface) (d : result dest) : Draw unit :=
  bind (lift d) (fun d => emit (blit source d)).

(** [for x in l: body(x)] *)
Fixpoint for_each {A : Type} (l : list A) (body : A -> Draw unit) : Draw unit :=
  match l with
  | [] => ret tt
  | x :: rest => bind (body x) (fun _ => for_each rest body)
  end.

(** [for x in l: v = body(x, v)], for a loop that updates a local [v]. *)
Fixpoint for_each_with {A V : Type} (l : list A) (v : V) (body : A -> V -> Draw V) : Draw V :=
  match l with
  | [] => ret v
  | x :: rest => bind (body x v) (fun v' => for_each_with rest v' body)
  end.

End Pygame.
Import Pygame.

Declare Scope draw_scope.
Delimit Scope draw_scope with draw.
Notation "x <- m ;; k" := (bind m (fun x => k))
  (at level 61, m at next level, right associativity) : draw_scope.
Notation "' p <- m ;; k" := (bind m (fun p => k))
  (at level 61, p pattern, m at next level, right associativity) : draw_scope.
Notation "m ;; k" := (bind m (fun _ => k))
  (at level 61, right associativity) : draw_scope.
#[local] Open Scope draw_scope.

(** ** class ELearningVisualizer *)

(** The keys of the [COLORS] dict. *)
Inductive color_key : Type :=
| background | panel | button | button_hover | button_active
| text | text_secondary | accent | success | warning | error
| engagement_high | engagement_med | engagement_low.

Definition COLORS (key : color_key) : Color :=
  match key with
  | background => (30, 30, 40)
  | panel => (50, 50, 60)
  | button => (70, 130, 180)
  | button_hover => (100, 160, 210)
  | button_active => (50, 200, 100)
  | text => (255, 255, 255)
  | text_secondary => (200, 200, 200)
  | accent => (255, 165, 0)
  | success => (76, 175, 80)
  | warning => (255, 193, 7)
  | error => (244, 67, 54)
  | engagement_high => (76, 175, 80)
  | engagement_med => (255, 193, 7)
  | engagement_low => (244, 67, 54)
  end.

(** The state snapshot handed to [render]: the keys the code reads, each
    absent ([None]) or present with a value of the type the caller supplies
    (floats, ints, and an array of floats). *)
Record EnvState : Type := {
  lesson_difficulty : option float;
  student_accuracy : option float;
  engagement_level : option float;
  hints_requested : option Z;
  time_on_lesson : option Z;
  interface_efficiency : option float;
  aac_button_usage : option (list float);
  step : option Z
}.

Record ELearningVisualizer : Type := {
  width : Z;
  height : Z;
  (** the window surface: the commands drawn since the last [fill] *)
  screen : list command;
  (** what the window shows: the surface as of the last [pygame.display.flip] *)
  display : list command;
  font_large : font;
  font_medium : font;
  font_small : font;
  font_tiny : font;
  fps : Z;
  aac_symbols : list string;
  button_positions : list (Z * Z * Z * Z);
  frame_count : Z;
  last_action : option Z;
  action_display_timer : Z
}.

Definition set_screen (v : list command) (self : ELearningVisualizer) : ELearningVisualizer :=
  {| width := width self; height := height self; screen := v; display := display self;
     font_large := font_large self; font_medium := font_medium self;
     font_small := font_small self; font_tiny := font_tiny self; fps := fps self;
     aac_symbols := aac_symbols self; button_positions := button_positions self;
     frame_count := frame_count self; last_action := last_action self;
     action_display_timer := action_display_timer self |}.

Definition set_display (v : list command) (self : ELearningVisualizer) : ELearningVisualizer :=
  {| width := width self; height := height self; screen := screen self; display := v;
     font_large := font_large self; font_medium := font_medium self;
     font_small := font_small self; font_tiny := font_tiny self; fps := fps self;
     aac_symbols := aac_symbols self; button_positions := button_positions self;
     frame_count := frame_count self; last_action := last_action self;
     action_display_timer := action_display_timer self |}.

Definition set_frame_count (v : Z) (self : ELearningVisualizer) : ELearningVisualizer :=
  {| width := width self; height := height self; screen := screen self; display := display self;
     font_large := font_large self; font_medium := font_medium self;
     font_small := font_small self; font_tiny := font_tiny self; fps := fps self;
     aac_symbols := aac_symbols self; button_positions := button_positions self;
     frame_count := v; last_action := last_action self;
     action_display_timer := action_display_timer self |}.

Definition set_last_action (v : option Z) (self : ELearningVisualizer) : ELearningVisualizer :=
  {| width := width self; height := height self; screen := screen self; display := display self;
     font_large := font_large self; font_medium := font_medium self;
     font_small := font_small self; font_tiny := font_tiny self; fps := fps self;
     aac_symbols := aac_symbols self; button_positions := button_positions self;
     frame_count := frame_count self; last_action := v;
     action_display_timer := action_display_timer self |}.

Definition set_action_display_timer (v : Z) (self : ELearningVisualizer) : ELearningVisualizer :=
  {| width := width self; height := height self; screen := screen self; display := display self;
     font_large := font_large self; font_medium := font_medium self;
     font_small := font_small self; font_tiny := font_tiny self; fps := fps self;
     aac_symbols := aac_symbols self; button_positions := button_positions self;
     frame_count := frame_count self; last_action := last_action self;
     action_display_timer := v |}.

(** [_initialize_button_positions]: a 2 x 3 grid of 180 x 120 buttons. *)
Definition _initialize_button_positions : list (Z * Z * Z * Z) :=
  let button_width := 180 in
  let button_height := 120 in
  let margin := 20 in
  let start_x := 50 in
  let start_y := 500 in
  map (fun i =>
         let row := i / 3 in
         let col := i mod 3 in
         let x := start_x + col * (button_width + margin) in
         let y := start_y + row * (button_height + margin) in
         (x, y, button_width, button_height))
      (range 6).

(** [__init__(width, height)]; the defaults are 1200 and 800.  The window is
    taken to open: [pygame.display.set_mode((width, height))] succeeds. *)
Definition __init__ (width height : Z) : ELearningVisualizer :=
  {| width := width;
     height := height;
     screen := [];
     display := [];
     font_large := Font 48;
     font_medium := Font 36;
     font_small := Font 28;
     font_tiny := Font 20;
     fps := 4;
     aac_symbols := ["I want"; "Help"; "Yes"; "No"; "More"; "Stop"];
     button_positions := _initialize_button_positions;
     frame_count := 0;
     last_action := None;
     action_display_timer := 0 |}.

(** [_draw_header] *)
Definition _draw_header (self : ELearningVisualizer) : Draw unit :=
  header_rect <- lift (new_Rect 0 0 (width self) 80) ;;
  emit (draw_rect (COLORS panel) header_rect None None) ;;
  (* Title *)
  let title :=
    Text (font_large self) "Adaptive E-Learning & AAC Platform" true (COLORS accent) in
  title_rect <- lift (get_rect_center (width self / 2) 30) ;;
  emit (blit title title_rect) ;;
  (* Subtitle *)
  let subtitle :=
    Text (font_small self) "For Children with Physical Disabilities" true
         (COLORS text_secondary) in
  subtitle_rect <- lift (get_rect_center (width self / 2) 60) ;;
  emit (blit subtitle subtitle_rect).

(** The two expressions of [_draw_lesson_panel] that depend on the
    difficulty: [diff_text] and [diff_color]. *)
Definition diff_text (difficulty : float) : string :=
  if PrimFloat.ltb difficulty 0.4 then "Easy"
  else if PrimFloat.ltb difficulty 0.7 then "Medium"
  else "Hard".

Definition diff_color (difficulty : float) : Color :=
  if PrimFloat.leb 0.4 difficulty && PrimFloat.leb difficulty 0.7
  then COLORS success
  else COLORS warning.

(** [_draw_lesson_panel] *)
Definition _draw_lesson_panel (self : ELearningVisualizer) (env_state : EnvState) : Draw unit :=
  panel_rect <- lift (new_Rect 50 100 600 350) ;;
  emit (draw_rect (COLORS panel) panel_rect None (Some 10)) ;;
  (* Panel title *)
  let title := Text (font_medium self) "Current Lesson" true (COLORS accent) in
  screen_blit title (position 70 120) ;;
  (* Difficulty indicator *)
  let difficulty := get (lesson_difficulty env_state) 0.5%float in
  let difficulty_label :=
    Text (font_small self)
         ("Difficulty: " ++ diff_text difficulty ++ " (" ++ format_float false 2 difficulty ++ ")")
         true (diff_color difficulty) in
  screen_blit difficulty_label (position 70 160) ;;
  (* Lesson content (simulated) *)
  let lesson_items :=
    ["Topic: Colors and Shapes"; "Activity: Match the shape"; "Progress: 60% Complete"] in
  let y_offset := 200 in
  _ <- for_each_with lesson_items y_offset (fun item y_offset =>
         screen_blit (Text (font_small self) item true (COLORS text)) (position 90 y_offset) ;;
         ret (y_offset + 40)) ;;
  (* Hint indicator *)
  let hints := get (hints_requested env_state) 0 in
  hints_str <- lift (str hints) ;;
  let hint_text :=
    Text (font_small self) ("Hints Used: " ++ hints_str) true (COLORS text_secondary) in
  screen_blit hint_text (position 70 380) ;;
  (* Time on lesson *)
  let time_lesson := get (time_on_lesson env_state) 0 in
  time_str <- lift (str time_lesson) ;;
  let time_text :=
    Text (font_small self) ("Time: " ++ time_str ++ " steps") true
         (COLORS text_secondary) in
  screen_blit time_text (position 350 380).

(** The colour a button gets from its usage frequency, the [if] / [elif] /
    [else] of the loop of [_draw_aac_panel]. *)
Definition button_color (usage : float) : Color :=
  if gtb usage 0.25 then COLORS button_active
  else if gtb usage 0.15 then COLORS button_hover
  else COLORS button.

(** [_draw_aac_panel]; the default usage is [np.array([0.17] * 6)]. *)
Definition _draw_aac_panel (self : ELearningVisualizer) (env_state : EnvState) : Draw unit :=
  panel_rect <- lift (new_Rect 50 470 600 280) ;;
  emit (draw_rect (COLORS panel) panel_rect None (Some 10)) ;;
  (* Panel title *)
  let title := Text (font_medium self) "AAC Communication" true (COLORS accent) in
  screen_blit title (position 70 485) ;;
  (* AAC buttons *)
  let button_usage := get (aac_button_usage env_state) (repeat 0.17%float 6) in
  for_each (enumerate (combine (aac_symbols self) button_usage))
    (fun '(i, (symbol, usage)) =>
       '(x, y, w, h) <- lift (getitem (button_positions self) i) ;;
       (* More frequently used buttons are highlighted *)
       let button_color := button_color usage in
       (* Draw button *)
       button_rect <- lift (new_Rect x y w h) ;;
       emit (draw_rect button_color button_rect None (Some 8)) ;;
       emit (draw_rect (COLORS text) button_rect (Some 2) (Some 8)) ;;
       (* Draw symbol text *)
       let symbol_text := Text (font_medium self) symbol true (COLORS text) in
       text_rect <- lift (get_rect_center (x + w / 2) (y + h / 2 - 10)) ;;
       emit (blit symbol_text text_rect) ;;
       (* Draw usage percentage *)
       let usage_text :=
         Text (font_tiny self) (format_float false 1 (usage * 100) ++ "%") true
              (COLORS text_secondary) in
       usage_rect <- lift (get_rect_center (x + w / 2) (y + h - 20)) ;;
       emit (blit usage_text usage_rect)).

(** [_draw_metric_bar]: [filled_width = int(width * value)], with [width] an
    int and [value] a float; [pygame.Rect] then takes the int it is given. *)
Definition _draw_metric_bar (self : ELearningVisualizer) (label : string) (value : float)
    (x y width height : Z) (color : Color) : Draw unit :=
  (* Label *)
  let label_text := Text (font_small self) label true (COLORS text) in
  screen_blit label_text (position x (y - 25)) ;;
  (* Background bar *)
  bg_rect <- lift (new_Rect x y width height) ;;
  emit (draw_rect (60, 60, 70) bg_rect None (Some 5)) ;;
  (* Filled bar *)
  width_f <- lift (float_of_int width) ;;
  filled_width <- lift (int_of_float (width_f * value)) ;;
  filled_rect <- lift (new_Rect x y filled_width height) ;;
  emit (draw_rect color filled_rect None (Some 5)) ;;
  (* Border *)
  emit (draw_rect (COLORS text) bg_rect (Some 2) (Some 5)) ;;
  (* Value text *)
  let value_text :=
    Text (font_small self) (format_float false 1 (value * 100) ++ "%") true (COLORS text) in
  value_rect <- lift (get_rect_center (x + width + 40) (y + height / 2)) ;;
  emit (blit value_text value_rect).

(** The colour of the engagement bar, [engagement_color] of
    [_draw_metrics_panel]. *)
Definition engagement_color (engagement : float) : Color :=
  if gtb engagement 0.7 then COLORS engagement_high
  else if gtb engagement 0.4 then COLORS engagement_med
  else COLORS engagement_low.

(** The colour of the "Last Reward" text. *)
Definition reward_color (reward : float) : Color :=
  if gtb reward 0 then COLORS success else COLORS error.

(** [_draw_metrics_panel] *)
Definition _draw_metrics_panel (self : ELearningVisualizer) (env_state : EnvState)
    (reward total_reward : option float) : Draw unit :=
  panel_rect <- lift (new_Rect 680 100 470 350) ;;
  emit (draw_rect (COLORS panel) panel_rect None (Some 10)) ;;
  (* Panel title *)
  let title := Text (font_medium self) "Performance Metrics" true (COLORS accent) in
  screen_blit title (position 700 120) ;;
  (* Student accuracy *)
  let accuracy := get (student_accuracy env_state) 0.7%float in
  _draw_metric_bar self "Student Accuracy" accuracy 700 170 400 30 (COLORS success) ;;
  (* Engagement level *)
  let engagement := get (engagement_level env_state) 0.8%float in
  _draw_metric_bar self "Engagement" engagement 700 220 400 30 (engagement_color engagement) ;;
  (* Interface efficiency *)
  let interface_eff := get (interface_efficiency env_state) 0.5%float in
  _draw_metric_bar self "Interface Efficiency" interface_eff 700 270 400 30 (COLORS button) ;;
  (* Reward information *)
  match reward with
  | Some reward =>
      let reward_text :=
        Text (font_small self) ("Last Reward: " ++ format_float true 1 reward) true
             (reward_color reward) in
      screen_blit reward_text (position 700 330)
  | None => ret tt
  end ;;
  match total_reward with
  | Some total_reward =>
      let total_text :=
        Text (font_small self) ("Episode Reward: " ++ format_float false 1 total_reward) true
             (COLORS text) in
      screen_blit total_text (position 700 370)
  | None => ret tt
  end ;;
  (* Current step *)
  let step := get (step env_state) 0 in
  step_str <- lift (str step) ;;
  let step_text :=
    Text (font_small self) ("Step: " ++ step_str ++ "/200") true (COLORS text_secondary) in
  screen_blit step_text (position 700 410).

Definition action_names : list string :=
  [ "Keep current layout";
    "Optimize AAC buttons";
    "Increase difficulty";
    "Decrease difficulty";
    "Provide hint";
    "Predict next word";
    "Adjust button sizes" ].

(** The test [action is not None and 0 <= action < len(action_names)]: the
    index the callout branch may use, or [None] for the [else] branch. *)
Definition checked_action (action : option Z) : option Z :=
  match action with
  | Some action =>
      if (0 <=? action) && (action <? Z.of_nat (List.length action_names))
      then Some action
      else None
  | None => None
  end.

(** [_draw_agent_info_panel] *)
Definition _draw_agent_info_panel (self : ELearningVisualizer) (action episode : option Z)
    : Draw unit :=
  panel_rect <- lift (new_Rect 680 470 470 280) ;;
  emit (draw_rect (COLORS panel) panel_rect None (Some 10)) ;;
  (* Panel title *)
  let title := Text (font_medium self) "Agent Actions" true (COLORS accent) in
  screen_blit title (position 700 485) ;;
  (* Episode number *)
  match episode with
  | Some episode =>
      episode_str <- lift (str episode) ;;
      let ep_text :=
        Text (font_small self) ("Episode: " ++ episode_str) true (COLORS text_secondary) in
      screen_blit ep_text (position 700 530)
  | None => ret tt
  end ;;
  match checked_action action with
  | Some action =>
      (* Highlight current action *)
      action_rect <- lift (new_Rect 700 570 420 80) ;;
      emit (draw_rect (COLORS button) action_rect None (Some 5)) ;;
      let action_label := Text (font_small self) "Current Action:" true (COLORS accent) in
      screen_blit action_label (position 720 585) ;;
      name <- lift (getitem action_names action) ;;
      let action_text := Text (font_medium self) name true (COLORS text) in
      text_rect <- lift (get_rect_center 910 620) ;;
      emit (blit action_text text_rect)
  | None =>
      (* Show all possible actions *)
      let info_text :=
        Text (font_small self) "Waiting for agent action..." true (COLORS text_secondary) in
      screen_blit info_text (position 720 585)
  end ;;
  (* Controls hint *)
  let controls_text :=
    Text (font_tiny self) "Press ESC or Q to quit" true (COLORS text_secondary) in
  screen_blit controls_text (position 700 710).

(** The event loop at the end of [render]: [False] at the first window-close
    event or key press of Escape or Q, [True] when the events run out. *)
Fixpoint handle_events (events : list Event) : bool :=
  match events with
  | [] => true
  | event :: rest =>
      match event with
      | QUIT => false
      | KEYDOWN key =>
          if (key =? K_ESCAPE) || (key =? K_q) then false else handle_events rest
      | _ => handle_events rest
      end
  end.

(** The block "Update action display" of [render]: a supplied action is
    recorded and restarts the countdown, then a positive countdown loses one. *)
Definition update_action_display (self : ELearningVisualizer) (action : option Z)
    : ELearningVisualizer :=
  let self :=
    match action with
    | Some action =>
        let self := set_last_action (Some action) self in
        set_action_display_timer (2 * fps self) self  (* Display for 2 seconds *)
    | None => self
    end in
  if action_display_timer self >? 0
  then set_action_display_timer (action_display_timer self - 1) self
  else self.

(** [render(env_state, action, reward, episode, total_reward)], with the
    events that [pygame.event.get()] returns during the call.  The result is
    the visualizer after the call and the value returned or exception raised. *)
Definition render (self : ELearningVisualizer) (env_state : EnvState)
    (action : option Z) (reward : option float) (episode : option Z)
    (total_reward : option float) (events : list Event)
    : ELearningVisualizer * result bool :=
  let self := set_screen [fill (COLORS background)] self in
  (* Update action display *)
  let self := update_action_display self action in
  (* Draw main panels, then the header *)
  let '(drawn, commands) :=
    _draw_lesson_panel self env_state ;;
    _draw_aac_panel self env_state ;;
    _draw_metrics_panel self env_state reward total_reward ;;
    _draw_agent_info_panel self
      (if action_display_timer self >? 0 then last_action self else None) episode ;;
    _draw_header self in
  let self := set_screen (screen self ++ commands)%list self in
  match drawn with
  | Raise e => (self, Raise e)
  | Return _ =>
      (* Update display; [self.clock.tick(self.fps)] only waits *)
      let self := set_display (screen self) self in
      let self := set_frame_count (frame_count self + 1) self in
      (* Handle events *)
      (self, Return (handle_events events))
  end.

(** One call of [render] by the caller's loop, and a sequence of calls. *)
Record Call : Type := {
  call_env_state : EnvState;
  call_action : option Z;
  call_reward : option float;
  call_episode : option Z;
  call_total_reward : option float;
  call_events : list Event
}.

Definition render_call (self : ELearningVisualizer) (c : Call)
    : ELearningVisualizer * result bool :=
  render self (call_env_state c) (call_action c) (call_reward c) (call_episode c)
         (call_total_reward c) (call_events c).

Definition after_calls (self : ELearningVisualizer) (calls : list Call) : ELearningVisualizer :=
  fold_left (fun self c => fst (render_call self c)) calls self.

(** The snapshot with no key at all, and the two of the module's self-test. *)
Definition empty_state : EnvState :=
  {| lesson_difficulty := None; student_accuracy := None; engagement_level := None;
     hints_requested := None; time_on_lesson := None; interface_efficiency := None;
     aac_button_usage := None; step := None |}.

Definition test_state_1 : EnvState :=
  {| lesson_difficulty := Some 0.5%float;
     student_accuracy := Some 0.7%float;
     engagement_level := Some 0.8%float;
     hints_requested := Some 2;
     time_on_lesson := Some 15;
     interface_efficiency := Some 0.6%float;
     aac_button_usage := Some [0.25; 0.15; 0.20; 0.10; 0.20; 0.10]%float;
     step := Some 15 |}.

Definition test_state_2 : EnvState :=
  {| lesson_difficulty := Some 0.6%float;
     student_accuracy := Some 0.75%float;
     engagement_level := Some 0.85%float;
     hints_requested := Some 2;
     time_on_lesson := Some 20;
     interface_efficiency := Some 0.7%float;
     aac_button_usage := Some [0.30; 0.15; 0.15; 0.10; 0.20; 0.10]%float;
     step := Some 20 |}.

(** ** What a frame shows *)

Definition dest_eqb (d d' : dest) : bool :=
  match d, d' with
  | topleft x y, topleft x' y' => (y =? y') && (x =? x')
  | center x y, center x' y' => (y =? y') && (x =? x')
  | _, _ => false
  end.

(** The text surfaces blitted at [d], in drawing order. *)
Definition drawn_at (d : dest) (frame : list command) : list command :=
  filter (fun c => match c with blit _ d' => dest_eqb d d' | _ => false end) frame.

(** The rectangles drawn with their top-left corner at [(x, y)]. *)
Definition rects_at (x y : Z) (frame : list command) : list command :=
  filter (fun c =>
            match c with
            | draw_rect _ (Rect x' y' _ _) _ _ => (y =? y') && (x =? x')
            | _ => false
            end) frame.

(** The agent panel's "current action" callout for the action called
    [name]: the highlighted box, its caption and the name, and nothing else
    in their places. *)
Definition callout_drawn (self : ELearningVisualizer) (name : string) (frame : list command)
    : Prop :=
  rects_at 700 570 frame = [draw_rect (COLORS button) (Rect 700 570 420 80) None (Some 5)] /\
  drawn_at (topleft 720 585) frame =
    [blit (Text (font_small self) "Current Action:" true (COLORS accent)) (topleft 720 585)] /\
  drawn_at (center 910 620) frame =
    [blit (Text (font_medium self) name true (COLORS text)) (center 910 620)].

(** The agent panel's waiting placeholder, and no callout. *)
Definition placeholder_drawn (self : ELearningVisualizer) (frame : list command) : Prop :=
  rects_at 700 570 frame = [] /\
  drawn_at (topleft 720 585) frame =
    [blit (Text (font_small self) "Waiting for agent action..." true (COLORS text_secondary))
          (topleft 720 585)] /\
  drawn_at (center 910 620) frame = [].

(** A float that is neither a NaN nor an infinity. *)
Definition finite (x : float) : bool :=
  match Prim2SF x with
  | S754_nan | S754_infinity _ => false
  | _ => true
  end.

(** A metric value whose bar on the 400-pixel track can be drawn: 400 times
    the value is a finite float, and its integer part fits a C long. *)
Definition bar_drawable (value : float) : bool :=
  match int_of_float (400 * value) with
  | Return filled_width => in_c_long filled_width
  | Raise _ => false
  end.

(** The episode, when there is one, can be written out. *)
Definition episode_printable (episode : option Z) : bool :=
  match episode with
  | Some episode => within_str_digits episode
  | None => true
  end.

(** The ints that a call of [render] writes out have at most 4300 digits:
    the hints, the time and the step of the snapshot (or their defaults),
    and the episode when there is one. *)
Definition texts_printable (env_state : EnvState) (episode : option Z) : bool :=
  within_str_digits (get (hints_requested env_state) 0) &&
  within_str_digits (get (time_on_lesson env_state) 0) &&
  within_str_digits (get (step env_state) 0) &&
  episode_printable episode.

(** The three metric values of a snapshot (or their defaults) give bars
    that can be drawn. *)
Definition bars_drawable (env_state : EnvState) : bool :=
  bar_drawable (get (student_accuracy env_state) 0.7%float) &&
  bar_drawable (get (engagement_level env_state) 0.8%float) &&
  bar_drawable (get (interface_efficiency env_state) 0.5%float).

(** What a call of [render] needs in a window [width] pixels wide: ints
    that can be written out, bars that can be drawn, and a width that fits a
    C long. *)
Definition drawable (width : Z) (env_state : EnvState) (episode : option Z) : bool :=
  texts_printable env_state episode && bars_drawable env_state && in_c_long width.

(** The events that end the caller's loop. *)
Definition exit_requested (event : Event) : bool :=
  match event with
  | QUIT => true
  | KEYDOWN key => (key =? K_ESCAPE) || (key =? K_q)
  | _ => false
  end.

(** A visualizer set up as [__init__] leaves it: frame rate, symbols and
    button grid. *)
Definition configured (self : ELearningVisualizer) : Prop :=
  fps self = 4 /\
  aac_symbols self = ["I want"; "Help"; "Yes"; "No"; "More"; "Stop"] /\
  button_positions self = _initialize_button_positions.

(** The commands of the header. *)
Definition header_commands (self : ELearningVisualizer) : list command :=
  [ draw_rect (COLORS panel) (Rect 0 0 (c_int (width self)) 80) None None;
    blit (Text (font_large self) "Adaptive E-Learning & AAC Platform" true (COLORS accent))
         (center (c_int (width self / 2)) 30);
    blit (Text (font_small self) "For Children with Physical Disabilities" true
               (COLORS text_secondary))
         (center (c_int (width self / 2)) 60) ].

(** The commands of the lesson panel. *)
Definition lesson_panel_commands (self : ELearningVisualizer) (env_state : EnvState)
    : list command :=
  let difficulty := get (lesson_difficulty env_state) 0.5%float in
  [ draw_rect (COLORS panel) (Rect 50 100 600 350) None (Some 10);
    blit (Text (font_medium self) "Current Lesson" true (COLORS accent)) (topleft 70 120);
    blit (Text (font_small self)
               ("Difficulty: " ++ diff_text difficulty ++ " (" ++
                format_float false 2 difficulty ++ ")")
               true (diff_color difficulty))
         (topleft 70 160);
    blit (Text (font_small self) "Topic: Colors and Shapes" true (COLORS text)) (topleft 90 200);
    blit (Text (font_small self) "Activity: Match the shape" true (COLORS text)) (topleft 90 240);
    blit (Text (font_small self) "Progress: 60% Complete" true (COLORS text)) (topleft 90 280);
    blit (Text (font_small self) ("Hints Used: " ++ decimal (get (hints_requested env_state) 0))
               true (COLORS text_secondary))
         (topleft 70 380);
    blit (Text (font_small self)
               ("Time: " ++ decimal (get (time_on_lesson env_state) 0) ++ " steps")
               true (COLORS text_secondary))
         (topleft 350 380) ].

(** The commands of a metric bar of the metrics panel whose filled part is
    [filled_width] pixels wide. *)
Definition metric_bar_commands (self : ELearningVisualizer) (label : string) (value : float)
    (y : Z) (color : Color) (filled_width : Z) : list command :=
  [ blit (Text (font_small self) label true (COLORS text)) (topleft 700 (y - 25));
    draw_rect (60, 60, 70) (Rect 700 y 400 30) None (Some 5);
    draw_rect color (Rect 700 y filled_width 30) None (Some 5);
    draw_rect (COLORS text) (Rect 700 y 400 30) (Some 2) (Some 5);
    blit (Text (font_small self) (format_float false 1 (value * 100) ++ "%") true (COLORS text))
         (center 1140 (y + 15)) ].

(** The commands of the metrics panel when the three bars are filled
    [w1], [w2] and [w3] pixels wide. *)
Definition metrics_panel_commands (self : ELearningVisualizer) (env_state : EnvState)
    (reward total_reward : option float) (w1 w2 w3 : Z) : list command :=
  let accuracy := get (student_accuracy env_state) 0.7%float in
  let engagement := get (engagement_level env_state) 0.8%float in
  let interface_eff := get (interface_efficiency env_state) 0.5%float in
  ([ draw_rect (COLORS panel) (Rect 680 100 470 350) None (Some 10);
     blit (Text (font_medium self) "Performance Metrics" true (COLORS accent)) (topleft 700 120) ]
   ++ metric_bar_commands self "Student Accuracy" accuracy 170 (COLORS success) w1
   ++ metric_bar_commands self "Engagement" engagement 220 (engagement_color engagement) w2
   ++ metric_bar_commands self "Interface Efficiency" interface_eff 270 (COLORS button) w3
   ++ match reward with
      | Some reward =>
          [ blit (Text (font_small self) ("Last Reward: " ++ format_float true 1 reward) true
                       (reward_color reward))
                 (topleft 700 330) ]
      | None => []
      end
   ++ match total_reward with
      | Some total_reward =>
          [ blit (Text (font_small self)
                       ("Episode Reward: " ++ format_float false 1 total_reward) true
                       (COLORS text))
                 (topleft 700 370) ]
      | None => []
      end
   ++ [ blit (Text (font_small self) ("Step: " ++ decimal (get (step env_state) 0) ++ "/200") true
                   (COLORS text_secondary))
             (topleft 700 410) ])%list.

(** The commands of the agent panel: the callout for the action called
    [name] when [shown] is [Some name], the waiting placeholder otherwise. *)
Definition agent_info_commands (self : ELearningVisualizer) (shown : option string)
    (episode : option Z) : list command :=
  ([ draw_rect (COLORS panel) (Rect 680 470 470 280) None (Some 10);
     blit (Text (font_medium self) "Agent Actions" true (COLORS accent)) (topleft 700 485) ]
   ++ match episode with
      | Some episode =>
          [ blit (Text (font_small self) ("Episode: " ++ decimal episode) true
                       (COLORS text_secondary))
                 (topleft 700 530) ]
      | None => []
      end
   ++ match shown with
      | Some name =>
          [ draw_rect (COLORS button) (Rect 700 570 420 80) None (Some 5);
            blit (Text (font_small self) "Current Action:" true (COLORS accent))
                 (topleft 720 585);
            blit (Text (font_medium self) name true (COLORS text)) (center 910 620) ]
      | None =>
          [ blit (Text (font_small self) "Waiting for agent action..." true
                       (COLORS text_secondary))
                 (topleft 720 585) ]
      end
   ++ [ blit (Text (font_tiny self) "Press ESC or Q to quit" true (COLORS text_secondary))
             (topleft 700 710) ])%list.

(** The commands of one AAC button. *)
Definition button_commands (self : ELearningVisualizer) (position : Z * Z * Z * Z)
    (symbol : string) (usage : float) : list command :=
  let '(x, y, w, h) := position in
  [ draw_rect (button_color usage) (Rect x y w h) None (Some 8);
    draw_rect (COLORS text) (Rect x y w h) (Some 2) (Some 8);
    blit (Text (font_medium self) symbol true (COLORS text))
         (center (x + w / 2) (y + h / 2 - 10));
    blit (Text (font_tiny self) (format_float false 1 (usage * 100) ++ "%") true
               (COLORS text_secondary))
         (center (x + w / 2) (y + h - 20)) ].

(** The commands of the AAC panel for the usage values [button_usage]: one
    button per symbol that has a usage value. *)
Definition aac_panel_commands (self : ELearningVisualizer) (button_usage : list float)
    : list command :=
  ([ draw_rect (COLORS panel) (Rect 50 470 600 280) None (Some 10);
     blit (Text (font_medium self) "AAC Communication" true (COLORS accent)) (topleft 70 485) ]
   ++ flat_map (fun '(position, (symbol, usage)) => button_commands self position symbol usage)
        (combine (button_positions self) (combine (aac_symbols self) button_usage)))%list.

(** The name the agent panel shows for the action it is given, if any. *)
Definition shown_name (action : option Z) : option string :=
  match checked_action action with
  | Some a => nth_error action_names (Z.to_nat a)
  | None => None
  end.

(** The action that [render] hands to the agent panel. *)
Definition visible_action (self : ELearningVisualizer) : option Z :=
  if action_display_timer self >? 0 then last_action self else None.

(** A whole frame: the cleared background, the four panels and the header,
    for bars filled [w1], [w2] and [w3] pixels wide. *)
Definition frame_commands (self : ELearningVisualizer) (env_state : EnvState)
    (reward : option float) (episode : option Z) (total_reward : option float)
    (w1 w2 w3 : Z) : list command :=
  (fill (COLORS background)
   :: lesson_panel_commands self env_state
   ++ aac_panel_commands self (get (aac_button_usage env_state) (repeat 0.17%float 6))
   ++ metrics_panel_commands self env_state reward total_reward w1 w2 w3
   ++ agent_info_commands self (shown_name (visible_action self)) episode
   ++ header_commands self)%list.

(** A snapshot whose accuracy is a finite float too large for its bar. *)
Definition overflowing_state : EnvState :=
  {| lesson_difficulty := None; student_accuracy := Some 1e306%float;
     engagement_level := None; hints_requested := None; time_on_lesson := None;
     interface_efficiency := None; aac_button_usage := None; step := None |}.

(** A snapshot with one key set. *)
Definition with_engagement (v : float) (s : EnvState) : EnvState :=
  {| lesson_difficulty := lesson_difficulty s; student_accuracy := student_accuracy s;
     engagement_level := Some v; hints_requested := hints_requested s;
     time_on_lesson := time_on_lesson s; interface_efficiency := interface_efficiency s;
     aac_button_usage := aac_button_usage s; step := step s |}.

Definition with_difficulty (v : float) (s : EnvState) : EnvState :=
  {| lesson_difficulty := Some v; student_accuracy := student_accuracy s;
     engagement_level := engagement_level s; hints_requested := hints_requested s;
     time_on_lesson := time_on_lesson s; interface_efficiency := interface_efficiency s;
     aac_button_usage := aac_button_usage s; step := step s |}.

(** The rational number a finite float stands for, [(-1)^s * m * 2^e]. *)
Definition exact_value (x : float) : option Q :=
  match Prim2SF x with
  | S754_zero _ => Some 0%Q
  | S754_finite s m e => Some ((if s then - 1 else 1) * inject_Z (Z.pos m) * 2 ^ e)%Q
  | S754_nan | S754_infinity _ => None
  end.

(** Truncation of a rational toward zero. *)
Definition truncate (q : Q) : Z := if Qle_bool 0 q then Qfloor q else Qceiling q.

(** Two calls on the empty snapshot: one that supplies the action [a], and
    one that supplies nothing. *)
Definition action_call (a : Z) : Call :=
  {| call_env_state := empty_state; call_action := Some a; call_reward := None;
     call_episode := None; call_total_reward := None; call_events := [] |}.

Definition idle_call : Call :=
  {| call_env_state := empty_state; call_action := None; call_reward := None;
     call_episode := None; call_total_reward := None; call_events := [] |}.

(** ** Further notions used by the properties *)

(** Whether a result is a value returned, not an exception raised. *)
Definition is_Return {A : Type} (r : result A) : bool :=
  match r with
  | Return _ => true
  | Raise _ => false
  end.

(** Whether a call of [render] on [self] returns, with [True] or [False]. *)
Definition returns (self : ELearningVisualizer) (c : Call) : bool :=
  is_Return (snd (render_call self c)).

(** What a sequence of calls gives, call by call: the value returned or the
    exception raised. *)
Fixpoint results (self : ELearningVisualizer) (calls : list Call) : list (result bool) :=
  match calls with
  | [] => []
  | c :: rest => snd (render_call self c) :: results (fst (render_call self c)) rest
  end.

(** Every call of a sequence returns. *)
Definition all_return (self : ELearningVisualizer) (calls : list Call) : bool :=
  forallb is_Return (results self calls).

(** The action most recently supplied by a sequence of calls. *)
Definition last_supplied (calls : list Call) : option Z :=
  fold_left (fun last c => match call_action c with Some a => Some a | None => last end)
            calls None.

(** A snapshot with the key [aac_button_usage] set. *)
Definition with_usage (v : list float) (s : EnvState) : EnvState :=
  {| lesson_difficulty := lesson_difficulty s; student_accuracy := student_accuracy s;
     engagement_level := engagement_level s; hints_requested := hints_requested s;
     time_on_lesson := time_on_lesson s; interface_efficiency := interface_efficiency s;
     aac_button_usage := Some v; step := step s |}.

(** Two rectangles [(x, y, w, h)] with at least [margin] pixels between
    them, side by side or one above the other. *)
Definition apart (margin : Z) (r1 r2 : Z * Z * Z * Z) : Prop :=
  let '(x1, y1, w1, h1) := r1 in
  let '(x2, y2, w2, h2) := r2 in
  x1 + w1 + margin <= x2 \/ x2 + w2 + margin <= x1 \/
  y1 + h1 + margin <= y2 \/ y2 + h2 + margin <= y1.

(** The module's self-test ([if __name__ == "__main__"]).  The rewards drawn
    by [np.random.uniform] and the events that arrive during each frame are
    the environment's: [reward_of i] and [events_of i] for frame [i].
    [pygame.time.wait] and [close] do not touch the visualizer. *)
Definition test_states : list EnvState := [test_state_1; test_state_2].

Fixpoint test_loop (states : list (Z * EnvState)) (reward_of : Z -> float)
    (events_of : Z -> list Event) (episode : Z) (visualizer : ELearningVisualizer)
    (total_reward : float) : ELearningVisualizer * result unit :=
  match states with
  | [] => (visualizer, Return tt)
  | (i, state) :: rest =>
      let action := i mod 7 in
      let reward := reward_of i in
      let total_reward := (total_reward + reward)%float in
      match render visualizer state (Some action) (Some reward) (Some episode)
                   (Some total_reward) (events_of i) with
      | (visualizer, Raise e) => (visualizer, Raise e)
      | (visualizer, Return running) =>
          if negb running then (visualizer, Return tt)
          else test_loop rest reward_of events_of episode visualizer total_reward
      end
  end.

Definition main (reward_of : Z -> float) (events_of : Z -> list Event)
    : ELearningVisualizer * result unit :=
  let visualizer := __init__ 1200 800 in
  let episode := 1 in
  let total_reward := 0%float in
  test_loop (enumerate test_states) reward_of events_of episode visualizer total_reward.

(** A call that supplies action 3 with a snapshot that cannot be drawn. *)
Definition overflowing_call : Call :=
  {| call_env_state := overflowing_state; call_action := Some 3; call_reward := None;
     call_episode := None; call_total_reward := None; call_events := [] |}.

(** A float between 0 and 1, both included. *)
Definition in_unit_interval (x : float) : bool :=
  PrimFloat.leb 0 x && PrimFloat.leb x 1.

(** The three metric values of a snapshot (or their defaults) lie between 0
    and 1. *)
Definition metrics_in_range (env_state : EnvState) : bool :=
  in_unit_interval (get (student_accuracy env_state) 0.7%float) &&
  in_unit_interval (get (engagement_level env_state) 0.8%float) &&
  in_unit_interval (get (interface_efficiency env_state) 0.5%float).

(** An int that fits a C int: Pygame keeps it as it is. *)
Definition fits_c_int (n : Z) : Prop := - 2 ^ 31 <= n < 2 ^ 31.

(** The places of a metric bar fit a C int: a bar whose corner and sizes
    are not negative and stay below [2^31]. *)
Definition bar_geometry (x y width height : Z) : Prop :=
  0 <= x /\ 25 <= y /\ 0 <= width /\ 0 <= height /\
  x + width + 40 < 2 ^ 31 /\ y + height < 2 ^ 31.

(** A snapshot with the key [student_accuracy], or the key [step], set. *)
Definition with_accuracy (v : float) (s : EnvState) : EnvState :=
  {| lesson_difficulty := lesson_difficulty s; student_accuracy := Some v;
     engagement_level := engagement_level s; hints_requested := hints_requested s;
     time_on_lesson := time_on_lesson s; interface_efficiency := interface_efficiency s;
     aac_button_usage := aac_button_usage s; step := step s |}.

Definition with_step (n : Z) (s : EnvState) : EnvState :=
  {| lesson_difficulty := lesson_difficulty s; student_accuracy := student_accuracy s;
     engagement_level := engagement_level s; hints_requested := hints_requested s;
     time_on_lesson := time_on_lesson s; interface_efficiency := interface_efficiency s;
     aac_button_usage := aac_button_usage s; step := Some n |}.

(** The arguments of a call of [render], as a call. *)
Definition as_call (env_state : EnvState) (action : option Z) (reward : option float)
    (episode : option Z) (total_reward : option float) (events : list Event) : Call :=
  {| call_env_state := env_state; call_action := action; call_reward := reward;
     call_episode := episode; call_total_reward := total_reward; call_events := events |}.

(** * Properties *)

(** Closes the side condition of [filter_aac_panel] below: none of the
    commands of a button at one of the six grid positions passes the test. *)
Ltac no_button_passes :=
  intros position symbol usage Hin; cbv in Hin;
  repeat (destruct Hin as [<- | Hin]; [reflexivity|]); contradiction.

(** ** Python builtins and the drawing monad *)

Example format_samples :
  format_float false 2 0.39 = "0.39" /\
  format_float false 1 (0.17 * 100) = "17.0" /\
  format_float false 1 (1 / 6 * 100) = "16.7" /\
  format_float false 1 0.25 = "0.2" /\
  format_float false 1 0.35 = "0.3" /\
  format_float false 1 0.75 = "0.8" /\
  format_float true 1 0 = "+0.0" /\
  format_float true 1 (-0.04) = "-0.0" /\
  format_float true 1 (-3.96) = "-4.0" /\
  format_float false 1 1234.56 = "1234.6" /\
  format_float false 2 nan = "nan" /\
  format_float true 1 infinity = "+inf".
Proof. vm_compute. repeat split. Qed.

Example int_samples :
  int_of_float (400 * 0.7) = Return 280 /\
  int_of_float (400 * 0.29) = Return 115 /\
  int_of_float (400 * 1.5) = Return 600 /\
  int_of_float (400 * (-0.5)) = Return (-200) /\
  int_of_float (400 * (-0.001)) = Return 0 /\
  int_of_float (400 * 1e306) = Raise OverflowError /\
  int_of_float (400 * nan) = Raise ValueError /\
  float_of_int 400 = Return 400%float /\
  getitem [1; 2; 3] (-1) = Return 3 /\
  getitem [1; 2; 3] 3 = Raise IndexError.
Proof. vm_compute. repeat split. Qed.

Example str_samples :
  str 15 = Return "15" /\
  str (-3) = Return "-3" /\
  str 0 = Return "0" /\
  within_str_digits (10 ^ 4300 - 1) = true /\
  str (10 ^ 4300) = Raise ValueError /\
  str (- 10 ^ 4300) = Raise ValueError.
Proof. vm_compute. repeat split. Qed.

Example pygame_samples :
  new_Rect 700 170 280 30 = Return (Rect 700 170 280 30) /\
  new_Rect 700 170 (-200) 30 = Return (Rect 700 170 (-200) 30) /\
  new_Rect 700 170 (2 ^ 31) 30 = Return (Rect 700 170 (- 2 ^ 31) 30) /\
  new_Rect 700 170 (2 ^ 32 + 5) 30 = Return (Rect 700 170 5 30) /\
  new_Rect 700 170 (- 2 ^ 63) 30 = Return (Rect 700 170 0 30) /\
  new_Rect 700 170 (2 ^ 63) 30 = Raise TypeError /\
  new_Rect 700 170 400000000000000000000 30 = Raise TypeError /\
  position 70 120 = Return (topleft 70 120) /\
  get_rect_center (2 ^ 63) 30 = Raise TypeError.
Proof. vm_compute. repeat split. Qed.

Lemma float_of_int_400 : float_of_int 400 = Return 400%float.
Proof. reflexivity. Qed.

Lemma int_of_float_finite (x : float) :
  finite x = true -> exists n, int_of_float x = Return n.
Proof.
  unfold finite, int_of_float.
  destruct (Prim2SF x); intros H; try discriminate; eauto.
Qed.

Lemma int_of_float_not_finite (x : float) :
  finite x = false -> exists e, int_of_float x = Raise e.
Proof.
  unfold finite, int_of_float.
  destruct (Prim2SF x); intros H; try discriminate; eauto.
Qed.

Lemma int_of_float_exception (x : float) (e : exn) :
  int_of_float x = Raise e -> e = ValueError \/ e = OverflowError.
Proof.
  unfold int_of_float. destruct (Prim2SF x); intros H; inversion H; auto.
Qed.

Lemma str_Return (n : Z) : within_str_digits n = true -> str n = Return (decimal n).
Proof. unfold str. now intros ->. Qed.

Lemma str_Raise (n : Z) : within_str_digits n = false -> str n = Raise ValueError.
Proof. unfold str. now intros ->. Qed.

Ltac c_ranges :=
  change (2 ^ 63) with 9223372036854775808 in *;
  change (2 ^ 32) with 4294967296 in *;
  change (2 ^ 31) with 2147483648 in *.

Lemma in_c_long_spec (n : Z) : in_c_long n = true <-> - 2 ^ 63 <= n < 2 ^ 63.
Proof.
  unfold in_c_long. rewrite andb_true_iff, Z.leb_le, Z.ltb_lt. reflexivity.
Qed.

Lemma fits_in_c_long (n : Z) : fits_c_int n -> in_c_long n = true.
Proof. unfold fits_c_int. rewrite in_c_long_spec. c_ranges. lia. Qed.

Lemma c_int_fits (n : Z) : fits_c_int n -> c_int n = n.
Proof.
  unfold fits_c_int, c_int. c_ranges. intros H. rewrite Z.mod_small; lia.
Qed.

Lemma c_int_range (n : Z) : fits_c_int (c_int n).
Proof.
  unfold fits_c_int, c_int. c_ranges.
  pose proof (Z.mod_pos_bound (n + 2147483648) 4294967296 eq_refl). lia.
Qed.

Lemma new_Rect_fits (x y w h : Z) :
  fits_c_int x -> fits_c_int y -> fits_c_int w -> fits_c_int h ->
  new_Rect x y w h = Return (Rect x y w h).
Proof.
  intros Hx Hy Hw Hh. unfold new_Rect.
  now rewrite !fits_in_c_long, !c_int_fits.
Qed.

Lemma position_fits (x y : Z) :
  fits_c_int x -> fits_c_int y -> position x y = Return (topleft x y).
Proof.
  intros Hx Hy. unfold position. now rewrite !fits_in_c_long, !c_int_fits.
Qed.

Lemma get_rect_center_fits (x y : Z) :
  fits_c_int x -> fits_c_int y -> get_rect_center x y = Return (center x y).
Proof.
  intros Hx Hy. unfold get_rect_center. now rewrite !fits_in_c_long, !c_int_fits.
Qed.

Lemma bind_Return {A B : Type} (m : Draw A) (k : A -> Draw B) (a : A) (out : list command) :
  m = (Return a, out) ->
  bind m k = (fst (k a), (out ++ snd (k a))%list).
Proof. intros ->. unfold bind. destruct (k a); reflexivity. Qed.

Lemma bind_Raise {A B : Type} (m : Draw A) (k : A -> Draw B) (e : exn) (out : list command) :
  m = (Raise e, out) -> bind m k = (Raise e, out).
Proof. intros ->. reflexivity. Qed.

(** ** The panels *)

Lemma _draw_header_commands (self : ELearningVisualizer) :
  in_c_long (width self) = true ->
  _draw_header self = (Return tt, header_commands self).
Proof.
  intros H.
  assert (H2 : in_c_long (width self / 2) = true).
  { apply in_c_long_spec in H. apply in_c_long_spec. c_ranges.
    pose proof (Z.div_mod (width self) 2 ltac:(lia)).
    pose proof (Z.mod_pos_bound (width self) 2 eq_refl). lia. }
  unfold _draw_header, new_Rect, get_rect_center, lift.
  cbn [in_c_long andb]. change (in_c_long 0) with true. change (in_c_long 30) with true.
  change (in_c_long 60) with true. change (in_c_long 80) with true.
  rewrite H, H2. reflexivity.
Qed.

Lemma _draw_header_raises (self : ELearningVisualizer) :
  in_c_long (width self) = false ->
  _draw_header self = (Raise TypeError, []).
Proof.
  intros H. unfold _draw_header, new_Rect, lift.
  change (in_c_long 0) with true. rewrite H. reflexivity.
Qed.

Lemma _draw_lesson_panel_commands (self : ELearningVisualizer) (env_state : EnvState) :
  within_str_digits (get (hints_requested env_state) 0) = true ->
  within_str_digits (get (time_on_lesson env_state) 0) = true ->
  _draw_lesson_panel self env_state = (Return tt, lesson_panel_commands self env_state).
Proof.
  intros Hh Ht. unfold _draw_lesson_panel, lift.
  rewrite (str_Return _ Hh), (str_Return _ Ht). reflexivity.
Qed.

Lemma _draw_lesson_panel_raises (self : ELearningVisualizer) (env_state : EnvState) :
  within_str_digits (get (hints_requested env_state) 0) &&
  within_str_digits (get (time_on_lesson env_state) 0) = false ->
  exists out, _draw_lesson_panel self env_state = (Raise ValueError, out).
Proof.
  intros H. unfold _draw_lesson_panel, lift.
  destruct (within_str_digits (get (hints_requested env_state) 0)) eqn:Hh.
  - cbn [andb] in H. rewrite (str_Return _ Hh), (str_Raise _ H). eexists. reflexivity.
  - rewrite (str_Raise _ Hh). eexists. reflexivity.
Qed.

Lemma bar_geometry_fits (x y width height : Z) :
  bar_geometry x y width height ->
  fits_c_int x /\ fits_c_int y /\ fits_c_int (y - 25) /\ fits_c_int width /\
  fits_c_int height /\ fits_c_int (x + width + 40) /\ fits_c_int (y + height / 2).
Proof.
  unfold bar_geometry, fits_c_int. c_ranges. intros (Hx & Hy & Hw & Hh & Hxw & Hyh).
  pose proof (Z.div_mod height 2 ltac:(lia)).
  pose proof (Z.mod_pos_bound height 2 eq_refl).
  repeat split; lia.
Qed.

Lemma bar_geometry_400 (y : Z) : 25 <= y <= 1000 -> bar_geometry 700 y 400 30.
Proof. unfold bar_geometry. c_ranges. lia. Qed.

Lemma _draw_metric_bar_commands (self : ELearningVisualizer) (label : string) (value : float)
    (x y width height : Z) (color : Color) (width_f : float) (filled_width : Z) :
  bar_geometry x y width height ->
  float_of_int width = Return width_f ->
  int_of_float (width_f * value) = Return filled_width ->
  in_c_long filled_width = true ->
  _draw_metric_bar self label value x y width height color =
  (Return tt,
   [ blit (Text (font_small self) label true (COLORS text)) (topleft x (y - 25));
     draw_rect (60, 60, 70) (Rect x y width height) None (Some 5);
     draw_rect color (Rect x y (c_int filled_width) height) None (Some 5);
     draw_rect (COLORS text) (Rect x y width height) (Some 2) (Some 5);
     blit (Text (font_small self) (format_float false 1 (value * 100) ++ "%") true (COLORS text))
          (center (x + width + 40) (y + height / 2)) ]).
Proof.
  intros Hg Hw Hn Hc.
  destruct (bar_geometry_fits _ _ _ _ Hg) as (Fx & Fy & Fy' & Fw & Fh & Fc & Fm).
  unfold _draw_metric_bar, screen_blit, lift.
  rewrite (position_fits _ _ Fx Fy'), (new_Rect_fits _ _ _ _ Fx Fy Fw Fh), Hw.
  rewrite (get_rect_center_fits _ _ Fc Fm).
  cbv beta iota delta [bind emit]. rewrite Hn.
  unfold new_Rect. rewrite (fits_in_c_long _ Fx), (fits_in_c_long _ Fy), Hc,
    (fits_in_c_long _ Fh), (c_int_fits _ Fx), (c_int_fits _ Fy), (c_int_fits _ Fh).
  reflexivity.
Qed.

Lemma _draw_metric_bar_raises (self : ELearningVisualizer) (label : string) (value : float)
    (x y width height : Z) (color : Color) (width_f : float) (e : exn) :
  bar_geometry x y width height ->
  float_of_int width = Return width_f ->
  int_of_float (width_f * value) = Raise e ->
  _draw_metric_bar self label value x y width height color =
  (Raise e,
   [ blit (Text (font_small self) label true (COLORS text)) (topleft x (y - 25));
     draw_rect (60, 60, 70) (Rect x y width height) None (Some 5) ]).
Proof.
  intros Hg Hw Hn.
  destruct (bar_geometry_fits _ _ _ _ Hg) as (Fx & Fy & Fy' & Fw & Fh & Fc & Fm).
  unfold _draw_metric_bar, screen_blit, lift.
  rewrite (position_fits _ _ Fx Fy'), (new_Rect_fits _ _ _ _ Fx Fy Fw Fh), Hw.
  cbv beta iota delta [bind emit]. rewrite Hn. reflexivity.
Qed.

Lemma _draw_metric_bar_too_wide (self : ELearningVisualizer) (label : string) (value : float)
    (x y width height : Z) (color : Color) (width_f : float) (filled_width : Z) :
  bar_geometry x y width height ->
  float_of_int width = Return width_f ->
  int_of_float (width_f * value) = Return filled_width ->
  in_c_long filled_width = false ->
  _draw_metric_bar self label value x y width height color =
  (Raise TypeError,
   [ blit (Text (font_small self) label true (COLORS text)) (topleft x (y - 25));
     draw_rect (60, 60, 70) (Rect x y width height) None (Some 5) ]).
Proof.
  intros Hg Hw Hn Hc.
  destruct (bar_geometry_fits _ _ _ _ Hg) as (Fx & Fy & Fy' & Fw & Fh & Fc & Fm).
  unfold _draw_metric_bar, screen_blit, lift.
  rewrite (position_fits _ _ Fx Fy'), (new_Rect_fits _ _ _ _ Fx Fy Fw Fh), Hw.
  cbv beta iota delta [bind emit]. rewrite Hn.
  unfold new_Rect. rewrite (fits_in_c_long _ Fx), (fits_in_c_long _ Fy), Hc.
  reflexivity.
Qed.

Lemma metric_bar_400 (self : ELearningVisualizer) (label : string) (value : float)
    (y : Z) (color : Color) :
  25 <= y <= 1000 ->
  bar_drawable value = true ->
  exists filled_width,
    int_of_float (400 * value) = Return filled_width /\
    in_c_long filled_width = true /\
    _draw_metric_bar self label value 700 y 400 30 color =
    (Return tt, metric_bar_commands self label value y color (c_int filled_width)).
Proof.
  intros Hy Hd. unfold bar_drawable in Hd.
  destruct (int_of_float (400 * value)) as [n|e] eqn:Hn; [|discriminate].
  exists n. split; [reflexivity|]. split; [exact Hd|].
  now rewrite (_draw_metric_bar_commands self label value 700 y 400 30 color 400 n
                 (bar_geometry_400 y Hy)).
Qed.

Lemma metric_bar_400_raises (self : ELearningVisualizer) (label : string) (value : float)
    (y : Z) (color : Color) :
  25 <= y <= 1000 ->
  bar_drawable value = false ->
  exists e out,
    e <> IndexError /\
    _draw_metric_bar self label value 700 y 400 30 color = (Raise e, out).
Proof.
  intros Hy Hd. unfold bar_drawable in Hd.
  destruct (int_of_float (400 * value)) as [n|e] eqn:Hn.
  - exists TypeError. eexists. split; [discriminate|].
    now apply (_draw_metric_bar_too_wide self label value 700 y 400 30 color 400 n
                 (bar_geometry_400 y Hy)).
  - exists e. eexists. split.
    + destruct (int_of_float_exception _ _ Hn) as [-> | ->]; discriminate.
    + now apply (_draw_metric_bar_raises self label value 700 y 400 30 color 400 e
                   (bar_geometry_400 y Hy)).
Qed.

Lemma _draw_metrics_panel_commands (self : ELearningVisualizer) (env_state : EnvState)
    (reward total_reward : option float) :
  bars_drawable env_state = true ->
  within_str_digits (get (step env_state) 0) = true ->
  exists n1 n2 n3,
    int_of_float (400 * get (student_accuracy env_state) 0.7%float) = Return n1 /\
    int_of_float (400 * get (engagement_level env_state) 0.8%float) = Return n2 /\
    int_of_float (400 * get (interface_efficiency env_state) 0.5%float) = Return n3 /\
    in_c_long n1 = true /\ in_c_long n2 = true /\ in_c_long n3 = true /\
    _draw_metrics_panel self env_state reward total_reward =
    (Return tt,
     metrics_panel_commands self env_state reward total_reward
                            (c_int n1) (c_int n2) (c_int n3)).
Proof.
  unfold bars_drawable. intros H Hs.
  apply andb_prop in H as [H H3]. apply andb_prop in H as [H1 H2].
  destruct (metric_bar_400 self "Student Accuracy" _ 170 (COLORS success)
              ltac:(lia) H1) as (n1 & Hn1 & Hc1 & E1).
  destruct (metric_bar_400 self "Engagement" _ 220
              (engagement_color (get (engagement_level env_state) 0.8%float))
              ltac:(lia) H2) as (n2 & Hn2 & Hc2 & E2).
  destruct (metric_bar_400 self "Interface Efficiency" _ 270 (COLORS button)
              ltac:(lia) H3) as (n3 & Hn3 & Hc3 & E3).
  exists n1, n2, n3. repeat split; trivial.
  unfold _draw_metrics_panel, lift. rewrite E1, E2, E3, (str_Return _ Hs).
  destruct reward, total_reward; reflexivity.
Qed.

Lemma _draw_metrics_panel_raises (self : ELearningVisualizer) (env_state : EnvState)
    (reward total_reward : option float) :
  bars_drawable env_state && within_str_digits (get (step env_state) 0) = false ->
  exists e out,
    e <> IndexError /\
    _draw_metrics_panel self env_state reward total_reward = (Raise e, out).
Proof.
  unfold bars_drawable. intros H.
  destruct (bar_drawable (get (student_accuracy env_state) 0.7%float)) eqn:H1.
  - destruct (metric_bar_400 self "Student Accuracy" _ 170 (COLORS success)
                ltac:(lia) H1) as (n1 & _ & _ & E1).
    destruct (bar_drawable (get (engagement_level env_state) 0.8%float)) eqn:H2.
    + destruct (metric_bar_400 self "Engagement" _ 220
                  (engagement_color (get (engagement_level env_state) 0.8%float))
                  ltac:(lia) H2) as (n2 & _ & _ & E2).
      destruct (bar_drawable (get (interface_efficiency env_state) 0.5%float)) eqn:H3.
      * destruct (metric_bar_400 self "Interface Efficiency" _ 270 (COLORS button)
                    ltac:(lia) H3) as (n3 & _ & _ & E3).
        cbn [andb] in H.
        exists ValueError.
        unfold _draw_metrics_panel, lift. rewrite E1, E2, E3, (str_Raise _ H).
        destruct reward, total_reward; eexists; (split; [discriminate | reflexivity]).
      * destruct (metric_bar_400_raises self "Interface Efficiency" _ 270 (COLORS button)
                    ltac:(lia) H3) as (e & out & He & E3).
        exists e. eexists. split; [exact He|].
        unfold _draw_metrics_panel. rewrite E1, E2, E3. reflexivity.
    + destruct (metric_bar_400_raises self "Engagement" _ 220
                  (engagement_color (get (engagement_level env_state) 0.8%float))
                  ltac:(lia) H2) as (e & out & He & E2).
      exists e. eexists. split; [exact He|].
      unfold _draw_metrics_panel. rewrite E1, E2. reflexivity.
  - destruct (metric_bar_400_raises self "Student Accuracy" _ 170 (COLORS success)
                ltac:(lia) H1) as (e & out & He & E1).
    exists e. eexists. split; [exact He|].
    unfold _draw_metrics_panel. rewrite E1. reflexivity.
Qed.

Lemma checked_action_Some (action : option Z) (a : Z) :
  checked_action action = Some a <-> action = Some a /\ 0 <= a < 7.
Proof.
  unfold checked_action. change (Z.of_nat (List.length action_names)) with 7.
  destruct action as [a'|].
  - destruct (Z.leb_spec 0 a') as [Hl|Hl], (Z.ltb_spec a' 7) as [Hu|Hu]; simpl;
      (split; [intros Hx | intros [Hx Hr]]); inversion Hx; subst;
      try reflexivity; try (split; [reflexivity | lia]); lia.
  - split; [discriminate | intros [Hx _]; discriminate].
Qed.

Lemma checked_action_None (action : option Z) :
  checked_action action = None <->
  action = None \/ exists a, action = Some a /\ (a < 0 \/ 7 <= a).
Proof.
  unfold checked_action. change (Z.of_nat (List.length action_names)) with 7.
  destruct action as [a'|].
  - destruct (Z.leb_spec 0 a') as [Hl|Hl], (Z.ltb_spec a' 7) as [Hu|Hu]; simpl;
      (split; [intros Hx | intros [Hx | (a & Hx & Hr)]]);
      try discriminate; try reflexivity;
      try (right; exists a'; split; [reflexivity | lia]).
    inversion Hx; subst. lia.
  - split; auto.
Qed.

Lemma getitem_action_names (a : Z) :
  0 <= a < 7 ->
  exists name, getitem action_names a = Return name /\
               nth_error action_names (Z.to_nat a) = Some name.
Proof.
  intros H.
  assert (a = 0 \/ a = 1 \/ a = 2 \/ a = 3 \/ a = 4 \/ a = 5 \/ a = 6) as Ha by lia.
  destruct Ha as [-> | [-> | [-> | [-> | [-> | [-> | ->]]]]]];
    eexists; split; reflexivity.
Qed.

Lemma _draw_agent_info_panel_callout (self : ELearningVisualizer) (action episode : option Z)
    (a : Z) (name : string) :
  episode_printable episode = true ->
  checked_action action = Some a ->
  getitem action_names a = Return name ->
  _draw_agent_info_panel self action episode =
  (Return tt, agent_info_commands self (Some name) episode).
Proof.
  intros He Hc Hn. unfold _draw_agent_info_panel. rewrite Hc. unfold lift. rewrite Hn.
  destruct episode as [n|]; [|reflexivity].
  cbn [episode_printable] in He. rewrite (str_Return _ He). reflexivity.
Qed.

Lemma _draw_agent_info_panel_placeholder (self : ELearningVisualizer)
    (action episode : option Z) :
  episode_printable episode = true ->
  checked_action action = None ->
  _draw_agent_info_panel self action episode =
  (Return tt, agent_info_commands self None episode).
Proof.
  intros He Hc. unfold _draw_agent_info_panel. rewrite Hc.
  destruct episode as [n|]; [|reflexivity].
  cbn [episode_printable] in He. unfold lift. rewrite (str_Return _ He). reflexivity.
Qed.

Lemma _draw_agent_info_panel_raises (self : ELearningVisualizer)
    (action episode : option Z) :
  episode_printable episode = false ->
  _draw_agent_info_panel self action episode =
  (Raise ValueError,
   [ draw_rect (COLORS panel) (Rect 680 470 470 280) None (Some 10);
     blit (Text (font_medium self) "Agent Actions" true (COLORS accent)) (topleft 700 485) ]).
Proof.
  intros He. destruct episode as [n|]; [|discriminate].
  cbn [episode_printable] in He.
  unfold _draw_agent_info_panel, lift. rewrite (str_Raise _ He). reflexivity.
Qed.

Lemma _draw_aac_panel_commands (self : ELearningVisualizer) (env_state : EnvState) :
  configured self ->
  _draw_aac_panel self env_state =
  (Return tt,
   aac_panel_commands self (get (aac_button_usage env_state) (repeat 0.17%float 6))).
Proof.
  intros (_ & Hs & Hp).
  unfold _draw_aac_panel, aac_panel_commands. rewrite Hs, Hp.
  destruct (aac_button_usage env_state) as [l|]; [|reflexivity].
  do 6 (destruct l as [|? l]; [reflexivity|]). reflexivity.
Qed.

Lemma _draw_agent_info_panel_commands (self : ELearningVisualizer)
    (action episode : option Z) :
  episode_printable episode = true ->
  _draw_agent_info_panel self action episode =
  (Return tt, agent_info_commands self (shown_name action) episode).
Proof.
  intros He. unfold shown_name. destruct (checked_action action) as [a|] eqn:Hc.
  - pose proof (proj1 (checked_action_Some _ _) Hc) as [_ Hr].
    destruct (getitem_action_names a Hr) as (name & Hg & ->).
    now apply _draw_agent_info_panel_callout with (a := a).
  - now apply _draw_agent_info_panel_placeholder.
Qed.

(** ** A whole call of [render] *)

Lemma configured_update (self : ELearningVisualizer) (action : option Z) (v : list command) :
  configured self -> configured (update_action_display (set_screen v self) action).
Proof.
  unfold configured, update_action_display.
  intros H. destruct action; cbn;
    match goal with |- context [if ?b then _ else _] => destruct b end; exact H.
Qed.

Lemma screen_update (self : ELearningVisualizer) (action : option Z) :
  screen (update_action_display self action) = screen self.
Proof.
  unfold update_action_display.
  destruct action; cbn;
    match goal with |- context [if ?b then _ else _] => destruct b end; reflexivity.
Qed.

Lemma width_update (self : ELearningVisualizer) (action : option Z) (v : list command) :
  width (update_action_display (set_screen v self) action) = width self.
Proof.
  unfold update_action_display.
  destruct action; cbn;
    match goal with |- context [if ?b then _ else _] => destruct b end; reflexivity.
Qed.

Lemma drawable_parts (width : Z) (env_state : EnvState) (episode : option Z) :
  drawable width env_state episode = true ->
  within_str_digits (get (hints_requested env_state) 0) = true /\
  within_str_digits (get (time_on_lesson env_state) 0) = true /\
  within_str_digits (get (step env_state) 0) = true /\
  episode_printable episode = true /\
  bars_drawable env_state = true /\
  in_c_long width = true.
Proof.
  unfold drawable, texts_printable, episode_printable. intros H.
  apply andb_prop in H as [H Hw]. apply andb_prop in H as [H Hb].
  apply andb_prop in H as [H He]. apply andb_prop in H as [H Hs].
  apply andb_prop in H as [Hh Ht]. auto 6.
Qed.

Lemma render_returns (self : ELearningVisualizer) (env_state : EnvState)
    (action : option Z) (reward : option float) (episode : option Z)
    (total_reward : option float) (events : list Event) :
  configured self ->
  drawable (width self) env_state episode = true ->
  let self1 := update_action_display (set_screen [fill (COLORS background)] self) action in
  exists n1 n2 n3,
    int_of_float (400 * get (student_accuracy env_state) 0.7%float) = Return n1 /\
    int_of_float (400 * get (engagement_level env_state) 0.8%float) = Return n2 /\
    int_of_float (400 * get (interface_efficiency env_state) 0.5%float) = Return n3 /\
    let frame :=
      frame_commands self1 env_state reward episode total_reward
                     (c_int n1) (c_int n2) (c_int n3) in
    render self env_state action reward episode total_reward events =
    (set_frame_count (frame_count self1 + 1) (set_display frame (set_screen frame self1)),
     Return (handle_events events)).
Proof.
  intros Hconf Hd self1.
  destruct (drawable_parts _ _ _ Hd) as (Hh & Ht & Hs & He & Hb & Hw).
  destruct (_draw_metrics_panel_commands self1 env_state reward total_reward Hb Hs)
    as (n1 & n2 & n3 & H1 & H2 & H3 & _ & _ & _ & Hm).
  exists n1, n2, n3. repeat split; trivial.
  unfold render. fold self1.
  rewrite (_draw_aac_panel_commands self1 env_state) by now apply configured_update.
  rewrite Hm. fold (visible_action self1).
  rewrite (_draw_agent_info_panel_commands self1 _ _ He).
  rewrite (_draw_lesson_panel_commands self1 _ Hh Ht).
  rewrite (_draw_header_commands self1)
    by (unfold self1; now rewrite width_update).
  cbv beta iota delta [bind].
  unfold frame_commands.
  assert (screen self1 = [fill (COLORS background)]) as Hscr by apply screen_update.
  cbn [screen set_screen set_display frame_count set_frame_count].
  rewrite Hscr. reflexivity.
Qed.

Lemma render_raises (self : ELearningVisualizer) (env_state : EnvState)
    (action : option Z) (reward : option float) (episode : option Z)
    (total_reward : option float) (events : list Event) :
  configured self ->
  drawable (width self) env_state episode = false ->
  exists e,
    e <> IndexError /\
    snd (render self env_state action reward episode total_reward events) = Raise e.
Proof.
  intros Hconf Hd.
  set (self1 := update_action_display (set_screen [fill (COLORS background)] self) action).
  assert (Hconf1 : configured self1) by now apply configured_update.
  unfold render. fold self1.
  rewrite (_draw_aac_panel_commands self1 env_state Hconf1).
  destruct (within_str_digits (get (hints_requested env_state) 0) &&
            within_str_digits (get (time_on_lesson env_state) 0)) eqn:Hl.
  - apply andb_prop in Hl as [Hh Ht].
    rewrite (_draw_lesson_panel_commands self1 _ Hh Ht).
    destruct (bars_drawable env_state && within_str_digits (get (step env_state) 0)) eqn:Hm.
    + apply andb_prop in Hm as [Hb Hs].
      destruct (_draw_metrics_panel_commands self1 env_state reward total_reward Hb Hs)
        as (n1 & n2 & n3 & _ & _ & _ & _ & _ & _ & Em).
      rewrite Em.
      destruct (episode_printable episode) eqn:He.
      * rewrite (_draw_agent_info_panel_commands self1 _ _ He).
        assert (Hw : in_c_long (width self1) = false).
        { unfold self1. rewrite width_update.
          unfold drawable, texts_printable in Hd. fold (episode_printable episode) in Hd.
          rewrite Hh, Ht, Hs, He, Hb in Hd. exact Hd. }
        rewrite (_draw_header_raises self1 Hw).
        exists TypeError. split; [discriminate | reflexivity].
      * rewrite (_draw_agent_info_panel_raises self1 _ _ He).
        exists ValueError. split; [discriminate | reflexivity].
    + destruct (_draw_metrics_panel_raises self1 env_state reward total_reward Hm)
        as (e & out & He & Em).
      rewrite Em. exists e. split; [exact He | reflexivity].
  - destruct (_draw_lesson_panel_raises self1 env_state Hl) as (out & El).
    rewrite El. exists ValueError. split; [discriminate | reflexivity].
Qed.

(** A call returns exactly when its snapshot and episode are drawable in
    the visualizer's window. *)
Lemma returns_drawable (self : ELearningVisualizer) (c : Call) :
  configured self ->
  returns self c = drawable (width self) (call_env_state c) (call_episode c).
Proof.
  intros Hconf. unfold returns, render_call.
  destruct (drawable (width self) (call_env_state c) (call_episode c)) eqn:Hd.
  - destruct (render_returns self (call_env_state c) (call_action c) (call_reward c)
                (call_episode c) (call_total_reward c) (call_events c) Hconf Hd)
      as (n1 & n2 & n3 & _ & _ & _ & Hr).
    cbv zeta in Hr. now rewrite Hr.
  - destruct (render_raises self (call_env_state c) (call_action c) (call_reward c)
                (call_episode c) (call_total_reward c) (call_events c) Hconf Hd)
      as (e & _ & Hr).
    now rewrite Hr.
Qed.

(** The fields [render] leaves alone, and the two it updates before drawing:
    they do not depend on whether the drawing raises. *)
Lemma render_fields (self : ELearningVisualizer) (env_state : EnvState)
    (action : option Z) (reward : option float) (episode : option Z)
    (total_reward : option float) (events : list Event) :
  let self' := fst (render self env_state action reward episode total_reward events) in
  let self1 := update_action_display self action in
  width self' = width self /\
  height self' = height self /\
  fps self' = fps self /\
  aac_symbols self' = aac_symbols self /\
  button_positions self' = button_positions self /\
  font_small self' = font_small self /\
  font_medium self' = font_medium self /\
  last_action self' = last_action self1 /\
  action_display_timer self' = action_display_timer self1.
Proof.
  unfold render.
  match goal with |- context [let '(_, _) := ?m in _] => destruct m as [drawn commands] end.
  unfold update_action_display.
  destruct drawn, action; cbn;
    match goal with |- context [if ?b then _ else _] => destruct b end;
    cbn; repeat split; reflexivity.
Qed.

(** A call that raises presents nothing and is not counted. *)
Lemma render_raise_keeps (self : ELearningVisualizer) (env_state : EnvState)
    (action : option Z) (reward : option float) (episode : option Z)
    (total_reward : option float) (events : list Event) (e : exn) :
  snd (render self env_state action reward episode total_reward events) = Raise e ->
  let self' := fst (render self env_state action reward episode total_reward events) in
  display self' = display self /\ frame_count self' = frame_count self.
Proof.
  unfold render.
  match goal with |- context [let '(_, _) := ?m in _] => destruct m as [drawn commands] end.
  destruct drawn; [discriminate|]. intros _.
  unfold update_action_display.
  destruct action; cbn;
    match goal with |- context [if ?b then _ else _] => destruct b end;
    split; reflexivity.
Qed.

Lemma update_timer (self : ELearningVisualizer) (action : option Z) :
  action_display_timer (update_action_display self action) =
  match action with
  | Some _ => if 2 * fps self >? 0 then 2 * fps self - 1 else 2 * fps self
  | None =>
      if action_display_timer self >? 0
      then action_display_timer self - 1
      else action_display_timer self
  end.
Proof.
  unfold update_action_display.
  destruct action; cbn;
    match goal with |- context [if ?b then _ else _] => destruct b end; reflexivity.
Qed.

Lemma update_last_action (self : ELearningVisualizer) (action : option Z) :
  last_action (update_action_display self action) =
  match action with
  | Some a => Some a
  | None => last_action self
  end.
Proof.
  unfold update_action_display.
  destruct action; cbn;
    match goal with |- context [if ?b then _ else _] => destruct b end; reflexivity.
Qed.

Lemma after_calls_snoc (self : ELearningVisualizer) (calls : list Call) (c : Call) :
  after_calls self (calls ++ [c]) = fst (render_call (after_calls self calls) c).
Proof. unfold after_calls. now rewrite fold_left_app. Qed.

Lemma render_configured (self : ELearningVisualizer) (c : Call) :
  configured self -> configured (fst (render_call self c)).
Proof.
  unfold configured, render_call. intros (Hf & Hs & Hp).
  destruct (render_fields self (call_env_state c) (call_action c) (call_reward c)
              (call_episode c) (call_total_reward c) (call_events c))
    as (_ & _ & Hf' & Hs' & Hp' & _).
  rewrite Hf', Hs', Hp'. auto.
Qed.

Lemma after_calls_configured (self : ELearningVisualizer) (calls : list Call) :
  configured self -> configured (after_calls self calls).
Proof.
  intros H. induction calls as [|c calls IH] using rev_ind; [exact H|].
  rewrite after_calls_snoc. now apply render_configured.
Qed.

Lemma __init___configured (w h : Z) : configured (__init__ w h).
Proof. repeat split. Qed.

Lemma render_call_width (self : ELearningVisualizer) (c : Call) :
  width (fst (render_call self c)) = width self.
Proof.
  unfold render_call.
  now destruct (render_fields self (call_env_state c) (call_action c) (call_reward c)
                  (call_episode c) (call_total_reward c) (call_events c)) as (Hw & _).
Qed.

Lemma after_calls_width (self : ELearningVisualizer) (calls : list Call) :
  width (after_calls self calls) = width self.
Proof.
  induction calls as [|c calls IH] using rev_ind; [reflexivity|].
  now rewrite after_calls_snoc, render_call_width.
Qed.

Lemma after_calls_width_init (w h : Z) (calls : list Call) :
  width (after_calls (__init__ w h) calls) = w.
Proof. now rewrite after_calls_width. Qed.

(** On a visualizer made by [__init__] and any calls, a call returns exactly
    when it is drawable in the window's width. *)
Lemma returns_after_calls (w h : Z) (calls : list Call) (c : Call) :
  returns (after_calls (__init__ w h) calls) c =
  drawable w (call_env_state c) (call_episode c).
Proof.
  rewrite returns_drawable by apply after_calls_configured, __init___configured.
  now rewrite after_calls_width_init.
Qed.

Lemma render_as_call (self : ELearningVisualizer) (env_state : EnvState)
    (action : option Z) (reward : option float) (episode : option Z)
    (total_reward : option float) (events : list Event) :
  render self env_state action reward episode total_reward events =
  render_call self (as_call env_state action reward episode total_reward events).
Proof. reflexivity. Qed.

Lemma all_return_cons (self : ELearningVisualizer) (c : Call) (calls : list Call) :
  all_return self (c :: calls) =
  returns self c && all_return (fst (render_call self c)) calls.
Proof. reflexivity. Qed.

(** Whether every call of a sequence returns is a matter of the calls, not
    of what the visualizer has drawn before. *)
Lemma all_return_drawable (calls : list Call) (self : ELearningVisualizer) :
  configured self ->
  all_return self calls =
  forallb (fun c => drawable (width self) (call_env_state c) (call_episode c)) calls.
Proof.
  induction calls as [|c calls IH] in self |- *; intros Hconf; [reflexivity|].
  rewrite all_return_cons, (returns_drawable self c Hconf).
  rewrite IH by now apply render_configured.
  now rewrite render_call_width.
Qed.

Lemma all_return_Forall (calls : list Call) (self : ELearningVisualizer) :
  configured self ->
  all_return self calls = true ->
  Forall (fun c => drawable (width self) (call_env_state c) (call_episode c) = true) calls.
Proof.
  intros Hconf H. rewrite (all_return_drawable calls self Hconf) in H.
  apply Forall_forall. intros c Hin.
  now apply (proj1 (forallb_forall _ _) H).
Qed.

Lemma handle_events_exit (events : list Event) :
  handle_events events = negb (existsb exit_requested events).
Proof.
  induction events as [|event rest IH]; [reflexivity|].
  destruct event; simpl; trivial.
  destruct ((key =? K_ESCAPE) || (key =? K_q)); simpl; trivial.
Qed.

(** The set-up of a visualizer: window size, fonts, frame rate, symbols and
    button grid. *)
Lemma update_setup (self : ELearningVisualizer) (action : option Z) (v : list command) :
  let self1 := update_action_display (set_screen v self) action in
  font_small self1 = font_small self.
Proof.
  unfold update_action_display.
  destruct action; cbn;
    match goal with |- context [if ?b then _ else _] => destruct b end; reflexivity.
Qed.

Lemma render_setup (self : ELearningVisualizer) (c : Call) :
  let self' := fst (render_call self c) in
  width self' = width self /\ height self' = height self /\
  font_large self' = font_large self /\ font_medium self' = font_medium self /\
  font_small self' = font_small self /\ font_tiny self' = font_tiny self /\
  fps self' = fps self /\ aac_symbols self' = aac_symbols self /\
  button_positions self' = button_positions self.
Proof.
  unfold render_call, render.
  match goal with |- context [let '(_, _) := ?m in _] => destruct m as [drawn commands] end.
  unfold update_action_display.
  destruct drawn, (call_action c); cbn;
    match goal with |- context [if ?b then _ else _] => destruct b end;
    cbn; repeat split; reflexivity.
Qed.

Lemma after_calls_setup (w h : Z) (calls : list Call) :
  let self := after_calls (__init__ w h) calls in
  width self = w /\ height self = h /\
  font_large self = Font 48 /\ font_medium self = Font 36 /\
  font_small self = Font 28 /\ font_tiny self = Font 20 /\
  fps self = 4 /\ aac_symbols self = aac_symbols (__init__ w h) /\
  button_positions self = _initialize_button_positions.
Proof.
  induction calls as [|c calls IH] using rev_ind; [repeat split|].
  rewrite after_calls_snoc. cbv zeta in IH |- *.
  destruct (render_setup (after_calls (__init__ w h) calls) c)
    as (H1 & H2 & H3 & H4 & H5 & H6 & H7 & H8 & H9).
  rewrite H1, H2, H3, H4, H5, H6, H7, H8, H9. exact IH.
Qed.

(** ** Comparisons of floats *)

Lemma SFcompare_antisym (a b : spec_float) :
  SFcompare b a = option_map CompOpp (SFcompare a b).
Proof.
  destruct a as [s1| s1| | s1 m1 e1], b as [s2| s2| | s2 m2 e2]; simpl; trivial;
    try (destruct s1; reflexivity); try (destruct s2; reflexivity);
    try (destruct s1, s2; reflexivity).
  destruct s1, s2; simpl; trivial;
    rewrite (Z.compare_antisym e1 e2); destruct (e1 ?= e2); simpl; trivial;
    change (PosDef.Pos.compare_cont Eq) with Pos.compare;
    rewrite (Pos.compare_antisym m1 m2); destruct (m1 ?= m2)%positive; reflexivity.
Qed.

(** [x <= y] excludes [x > y]. *)
Lemma leb_not_gtb (x y : float) : PrimFloat.leb x y = true -> gtb x y = false.
Proof.
  unfold gtb. rewrite leb_spec, ltb_spec. unfold SFleb, SFltb.
  rewrite (SFcompare_antisym (Prim2SF x) (Prim2SF y)).
  destruct (SFcompare (Prim2SF x) (Prim2SF y)) as [[]|]; simpl; congruence.
Qed.

(** [x < y] excludes [x >= y]. *)
Lemma ltb_not_geb (x y : float) : PrimFloat.ltb x y = true -> geb x y = false.
Proof.
  unfold geb. rewrite leb_spec, ltb_spec. unfold SFleb, SFltb.
  rewrite (SFcompare_antisym (Prim2SF x) (Prim2SF y)).
  destruct (SFcompare (Prim2SF x) (Prim2SF y)) as [[]|]; simpl; congruence.
Qed.

(** When [x] and [y] can be compared (neither is a NaN), [x > y] or [x <= y]. *)
Lemma not_gtb_leb (x y : float) :
  SFcompare (Prim2SF x) (Prim2SF y) <> None -> gtb x y = false -> PrimFloat.leb x y = true.
Proof.
  unfold gtb. rewrite leb_spec, ltb_spec. unfold SFleb, SFltb.
  rewrite (SFcompare_antisym (Prim2SF x) (Prim2SF y)).
  destruct (SFcompare (Prim2SF x) (Prim2SF y)) as [[]|]; simpl; congruence.
Qed.

(** A float that compares with some float compares with every float that is
    not a NaN. *)
Lemma comparable (x y z : float) :
  SFcompare (Prim2SF x) (Prim2SF z) <> None ->
  Prim2SF y <> S754_nan ->
  SFcompare (Prim2SF x) (Prim2SF y) <> None.
Proof.
  destruct (Prim2SF x), (Prim2SF y), (Prim2SF z); simpl; congruence.
Qed.

Lemma gtb_comparable (x z : float) :
  gtb x z = true -> SFcompare (Prim2SF x) (Prim2SF z) <> None.
Proof.
  unfold gtb. rewrite ltb_spec. unfold SFltb.
  rewrite (SFcompare_antisym (Prim2SF x) (Prim2SF z)).
  destruct (SFcompare (Prim2SF x) (Prim2SF z)); simpl; congruence.
Qed.

(** Below or at a positive threshold is not above one with a larger
    exponent. *)
Lemma SFleb_SFltb_by_exponent (a : spec_float) (m1 m2 : positive) (e1 e2 : Z) :
  e1 < e2 ->
  SFleb a (S754_finite false m1 e1) = true ->
  SFltb (S754_finite false m2 e2) a = false.
Proof.
  intros He. destruct a as [s | s | | s m e]; unfold SFleb, SFltb, SFcompare;
    try discriminate; try (destruct s; (reflexivity || discriminate)).
  destruct s; [reflexivity|].
  destruct (Z.compare_spec e e1), (Z.compare_spec e2 e);
    try discriminate; try reflexivity; lia.
Qed.

Lemma leb_04_not_gtb_07 (x : float) : PrimFloat.leb x 0.4 = true -> gtb x 0.7 = false.
Proof.
  unfold gtb. rewrite leb_spec, ltb_spec.
  now apply SFleb_SFltb_by_exponent.
Qed.

Lemma leb_015_not_gtb_025 (x : float) : PrimFloat.leb x 0.15 = true -> gtb x 0.25 = false.
Proof.
  unfold gtb. rewrite leb_spec, ltb_spec.
  now apply SFleb_SFltb_by_exponent.
Qed.

(** ** The agent panel *)

Lemma agent_info_callout (self : ELearningVisualizer) (name : string) (episode : option Z) :
  callout_drawn self name (agent_info_commands self (Some name) episode).
Proof. destruct episode; repeat split. Qed.

Lemma agent_info_placeholder (self : ELearningVisualizer) (episode : option Z) :
  placeholder_drawn self (agent_info_commands self None episode).
Proof. destruct episode; repeat split. Qed.

Lemma shown_name_in_range (a : Z) :
  0 <= a < 7 ->
  exists name, nth_error action_names (Z.to_nat a) = Some name /\
               getitem action_names a = Return name /\
               shown_name (Some a) = Some name.
Proof.
  intros H. destruct (getitem_action_names a H) as (name & Hg & Hn).
  exists name. repeat split; trivial.
  unfold shown_name.
  now rewrite (proj2 (checked_action_Some (Some a) a) (conj eq_refl H)).
Qed.

Lemma shown_name_out_of_range (a : Z) : a < 0 \/ 7 <= a -> shown_name (Some a) = None.
Proof.
  intros H. unfold shown_name.
  rewrite (proj2 (checked_action_None (Some a))); [reflexivity|].
  right. exists a. auto.
Qed.

(** C7: an action index outside [0, 7), negative or 7 and more, makes the
    agent panel show the waiting placeholder and no callout: the table of
    seven action names is not indexed, and the panel never raises
    IndexError.  An index inside [0, 7) is looked up in the table and its
    name is shown in the callout box.  The one exception the panel can raise
    is the ValueError of an episode number of more than 4300 digits, which
    [str] refuses before the action is looked at. *)
Theorem action_index_guard (self : ELearningVisualizer) (action episode : option Z) :
  fst (_draw_agent_info_panel self action episode) <> Raise IndexError /\
  (episode_printable episode = false ->
   fst (_draw_agent_info_panel self action episode) = Raise ValueError) /\
  (episode_printable episode = true ->
   fst (_draw_agent_info_panel self action episode) = Return tt /\
   (forall a, action = Some a -> a < 0 \/ 7 <= a ->
      placeholder_drawn self (snd (_draw_agent_info_panel self action episode))) /\
   (forall a, action = Some a -> 0 <= a < 7 ->
      exists name,
        getitem action_names a = Return name /\
        callout_drawn self name (snd (_draw_agent_info_panel self action episode))) /\
   (action = None ->
      placeholder_drawn self (snd (_draw_agent_info_panel self action episode)))).
Proof.
  destruct (episode_printable episode) eqn:He.
  - rewrite (_draw_agent_info_panel_commands self action episode He). cbn [fst snd].
    split; [discriminate|]. split; [discriminate|]. intros _.
    split; [reflexivity|]. split; [|split].
    + intros a -> Ha. rewrite (shown_name_out_of_range a Ha). apply agent_info_placeholder.
    + intros a -> Ha. destruct (shown_name_in_range a Ha) as (name & _ & Hg & ->).
      exists name. split; [exact Hg | apply agent_info_callout].
    + intros ->. apply agent_info_placeholder.
  - rewrite (_draw_agent_info_panel_raises self action episode He). cbn [fst].
    split; [discriminate|]. split; [reflexivity | discriminate].
Qed.

Lemma action_index_guard_witness :
  episode_printable (Some 1) = true /\
  placeholder_drawn (__init__ 1200 800)
    (snd (_draw_agent_info_panel (__init__ 1200 800) (Some 7) (Some 1))) /\
  placeholder_drawn (__init__ 1200 800)
    (snd (_draw_agent_info_panel (__init__ 1200 800) (Some (-1)) (Some 1))) /\
  exists name,
    getitem action_names 6 = Return name /\
    callout_drawn (__init__ 1200 800) name
      (snd (_draw_agent_info_panel (__init__ 1200 800) (Some 6) None)).
Proof.
  split; [reflexivity|]. split; [|split].
  - apply (proj1 (proj2 (proj2 (proj2 (action_index_guard (__init__ 1200 800) (Some 7)
                                         (Some 1))) eq_refl)) 7 eq_refl).
    right. discriminate.
  - apply (proj1 (proj2 (proj2 (proj2 (action_index_guard (__init__ 1200 800) (Some (-1))
                                         (Some 1))) eq_refl)) (-1) eq_refl).
    left. reflexivity.
  - apply (proj1 (proj2 (proj2 (proj2 (proj2 (action_index_guard (__init__ 1200 800) (Some 6)
                                                None)) eq_refl))) 6 eq_refl).
    split; [discriminate | reflexivity].
Defined.

(** ** How long the callout stays *)

Lemma filter_flat_map_nil {A : Type} (p : command -> bool) (f : A -> list command)
    (l : list A) :
  (forall x, In x l -> filter p (f x) = []) -> filter p (flat_map f l) = [].
Proof.
  induction l as [|x l IH]; intros H; [reflexivity|].
  cbn [flat_map]. rewrite filter_app, (H x (or_introl eq_refl)).
  apply IH. intros y Hy. apply H. now right.
Qed.

(** A test that no button command passes selects nothing of the buttons. *)
Lemma filter_aac_panel (p : command -> bool) (self : ELearningVisualizer)
    (button_usage : list float) :
  configured self ->
  (forall position symbol usage,
     In position _initialize_button_positions ->
     filter p (button_commands self position symbol usage) = []) ->
  filter p (aac_panel_commands self button_usage) =
  filter p
    [ draw_rect (COLORS panel) (Rect 50 470 600 280) None (Some 10);
      blit (Text (font_medium self) "AAC Communication" true (COLORS accent))
           (topleft 70 485) ].
Proof.
  intros (_ & _ & Hp) H. unfold aac_panel_commands. rewrite Hp, filter_app.
  rewrite filter_flat_map_nil; [apply app_nil_r|].
  intros [position [symbol usage]] Hin. apply H.
  now apply in_combine_l in Hin.
Qed.

(** In a frame, the places of the callout and of the placeholder belong to
    the agent panel alone. *)
Lemma frame_agent_places (self : ELearningVisualizer) (env_state : EnvState)
    (reward : option float) (episode : option Z) (total_reward : option float)
    (w1 w2 w3 : Z) :
  configured self ->
  let frame := frame_commands self env_state reward episode total_reward w1 w2 w3 in
  let agent := agent_info_commands self (shown_name (visible_action self)) episode in
  rects_at 700 570 frame = rects_at 700 570 agent /\
  drawn_at (topleft 720 585) frame = drawn_at (topleft 720 585) agent /\
  drawn_at (center 910 620) frame = drawn_at (center 910 620) agent.
Proof.
  intros Hconf frame agent. subst frame agent.
  unfold frame_commands, rects_at, drawn_at.
  cbn [filter]. rewrite !filter_app.
  rewrite !(filter_aac_panel _ self _ Hconf) by no_button_passes.
  repeat split; destruct reward, total_reward; cbn; now rewrite app_nil_r.
Qed.

(** What a call that returns leaves on the window: the callout for the
    visible action when it names one of the seven actions, the placeholder
    otherwise. *)
Lemma render_call_shows (self : ELearningVisualizer) (c : Call) :
  configured self ->
  drawable (width self) (call_env_state c) (call_episode c) = true ->
  let self' := fst (render_call self c) in
  match shown_name (visible_action self') with
  | Some name => callout_drawn self' name (display self')
  | None => placeholder_drawn self' (display self')
  end.
Proof.
  intros Hconf Hfin. unfold render_call.
  destruct (render_returns self (call_env_state c) (call_action c) (call_reward c)
              (call_episode c) (call_total_reward c) (call_events c) Hconf Hfin)
    as (w1 & w2 & w3 & _ & _ & _ & Hr).
  cbv zeta in Hr. rewrite Hr. clear Hr. cbv zeta. cbn [fst].
  set (self1 := update_action_display (set_screen [fill (COLORS background)] self)
                  (call_action c)).
  assert (Hconf1 : configured self1) by now apply configured_update.
  destruct (frame_agent_places self1 (call_env_state c) (call_reward c) (call_episode c)
              (call_total_reward c) (c_int w1) (c_int w2) (c_int w3) Hconf1)
    as (Hr & Ht & Hn).
  set (frame := frame_commands self1 (call_env_state c) (call_reward c) (call_episode c)
                  (call_total_reward c) (c_int w1) (c_int w2) (c_int w3)) in *.
  change (visible_action (set_frame_count (frame_count self1 + 1)
                            (set_display frame (set_screen frame self1))))
    with (visible_action self1).
  unfold callout_drawn, placeholder_drawn.
  cbn [display set_frame_count set_display set_screen font_small font_medium].
  rewrite Hr, Ht, Hn.
  destruct (shown_name (visible_action self1)) as [name|].
  - apply (agent_info_callout self1).
  - apply (agent_info_placeholder self1).
Qed.

Lemma after_calls_cons (self : ELearningVisualizer) (c : Call) (calls : list Call) :
  after_calls self (c :: calls) = after_calls (fst (render_call self c)) calls.
Proof. reflexivity. Qed.

(** Calls that supply no action keep the last action and count down to 0. *)
Lemma after_calls_without_action (calls : list Call) (self : ELearningVisualizer) :
  Forall (fun c => call_action c = None) calls ->
  0 <= action_display_timer self ->
  last_action (after_calls self calls) = last_action self /\
  action_display_timer (after_calls self calls) =
  Z.max 0 (action_display_timer self - Z.of_nat (List.length calls)).
Proof.
  induction calls as [|c calls IH] in self |- *; intros Hall Ht.
  - cbn. split; [reflexivity | lia].
  - inversion Hall as [|? ? Hc Hrest]; subst.
    rewrite after_calls_cons.
    destruct (render_fields self (call_env_state c) (call_action c) (call_reward c)
                (call_episode c) (call_total_reward c) (call_events c))
      as (_ & _ & _ & _ & _ & _ & _ & Hl & Htimer).
    fold (render_call self c) in Hl, Htimer.
    rewrite update_last_action, Hc in Hl. rewrite update_timer, Hc in Htimer.
    assert (Ht' : action_display_timer (fst (render_call self c)) =
                  Z.max 0 (action_display_timer self - 1)).
    { rewrite Htimer. destruct (Z.gtb_spec (action_display_timer self) 0); lia. }
    destruct (IH (fst (render_call self c)) Hrest) as (IHl & IHt); [lia|].
    rewrite IHl, IHt, Hl, Ht'. split; [reflexivity|].
    cbn [List.length]. lia.
Qed.

Lemma firstn_snoc {A : Type} (l : list A) (k : nat) :
  (k < List.length l)%nat ->
  exists x, nth_error l k = Some x /\ firstn (S k) l = (firstn k l ++ [x])%list.
Proof.
  induction l as [|y l IH] in k |- *; cbn [List.length]; intros Hk; [lia|].
  destruct k as [|k].
  - exists y. split; reflexivity.
  - destruct (IH k) as (x & Hx & Hf); [lia|].
    exists x. split; [exact Hx|].
    change (firstn (S (S k)) (y :: l)) with (y :: firstn (S k) l).
    rewrite Hf. reflexivity.
Qed.

(** After a call that supplies the action [a], the [k]-th later call
    without action shows the callout while [k <= 2 * fps - 2] and the
    placeholder from [k = 2 * fps - 1] on. *)
Lemma callout_countdown (self : ELearningVisualizer) (c : Call) (later : list Call)
    (a : Z) (name : string) (k : nat) :
  configured self ->
  call_action c = Some a ->
  shown_name (Some a) = Some name ->
  drawable (width self) (call_env_state c) (call_episode c) = true ->
  Forall (fun c' => call_action c' = None /\
                    drawable (width self) (call_env_state c') (call_episode c') = true)
         later ->
  (k <= List.length later)%nat ->
  let self0 := fst (render_call self c) in
  let selfk := after_calls self0 (firstn k later) in
  (Z.of_nat k <= 6 -> callout_drawn selfk name (display selfk)) /\
  (7 <= Z.of_nat k -> placeholder_drawn selfk (display selfk)).
Proof.
  intros Hconf Hc Hname Hfin Hlater Hk self0 selfk.
  assert (Hconf0 : configured self0) by now apply render_configured.
  destruct (render_fields self (call_env_state c) (call_action c) (call_reward c)
              (call_episode c) (call_total_reward c) (call_events c))
    as (_ & _ & _ & _ & _ & _ & _ & Hl0 & Ht0).
  fold (render_call self c) in Hl0, Ht0. fold self0 in Hl0, Ht0.
  rewrite update_last_action, Hc in Hl0.
  rewrite update_timer, Hc, (proj1 Hconf) in Ht0. cbn in Ht0.
  assert (Hnone : Forall (fun c' => call_action c' = None) (firstn k later)).
  { pose proof Hlater as Hsplit. rewrite <- (firstn_skipn k later) in Hsplit.
    apply Forall_app in Hsplit as [Hfirst _].
    eapply Forall_impl; [|exact Hfirst]. now intros c' [Hc' _]. }
  destruct (after_calls_without_action (firstn k later) self0 Hnone) as (Hl & Ht); [lia|].
  fold selfk in Hl, Ht. rewrite Hl0 in Hl. rewrite Ht0, length_firstn in Ht.
  replace (Init.Nat.min k (List.length later)) with k in Ht by lia.
  assert (Hshown : match shown_name (visible_action selfk) with
                   | Some name' => callout_drawn selfk name' (display selfk)
                   | None => placeholder_drawn selfk (display selfk)
                   end).
  { destruct k as [|k].
    - subst selfk. cbn [firstn after_calls fold_left].
      now apply render_call_shows.
    - destruct (firstn_snoc later k) as (c' & Hnth & Hf); [lia|].
      subst selfk. rewrite Hf, after_calls_snoc.
      apply render_call_shows.
      + now apply after_calls_configured.
      + rewrite after_calls_width. unfold self0. rewrite render_call_width.
        apply nth_error_In in Hnth.
        now apply (proj1 (Forall_forall _ _) Hlater). }
  unfold visible_action in Hshown. rewrite Hl, Ht in Hshown.
  split; intros Hle.
  - destruct (Z.gtb_spec (Z.max 0 (7 - Z.of_nat k)) 0); [|lia].
    now rewrite Hname in Hshown.
  - destruct (Z.gtb_spec (Z.max 0 (7 - Z.of_nat k)) 0); [lia|].
    exact Hshown.
Qed.

(** The frames after a call with action 0 and [k] calls without, for
    [k = 0 .. 9]: the callout box is there seven times, then gone. *)
Example callout_trace :
  map (fun k =>
         List.length
           (rects_at 700 570
              (display (after_calls (__init__ 1200 800)
                          (action_call 0 :: repeat idle_call k)))))
      (seq 0 10)
  = [1; 1; 1; 1; 1; 1; 1; 0; 0; 0]%nat.
Proof. vm_compute. reflexivity. Qed.

(** C1 (as amended): on a visualizer made by [__init__] and any earlier
    calls, a call of [render] that supplies an action index in [0, 7) draws
    the "current action" callout with that action's name; the callout is
    drawn again on each of the next [2 * fps - 2] (six) calls that supply no
    action, and from the [2 * fps]-th (eighth) such call on the waiting
    placeholder is drawn instead.  This is for calls that return: a call
    that raises presents no frame. *)
Theorem callout_visibility (w h : Z) (earlier : list Call) (c : Call) (later : list Call)
    (a : Z) (k : nat) :
  call_action c = Some a ->
  0 <= a < 7 ->
  Forall (fun c' => call_action c' = None) later ->
  all_return (after_calls (__init__ w h) earlier) (c :: later) = true ->
  (1 <= k <= List.length later)%nat ->
  let self0 := fst (render_call (after_calls (__init__ w h) earlier) c) in
  let selfk := after_calls self0 (firstn k later) in
  exists name,
    getitem action_names a = Return name /\
    callout_drawn self0 name (display self0) /\
    (Z.of_nat k <= 2 * fps self0 - 2 -> callout_drawn selfk name (display selfk)) /\
    (2 * fps self0 <= Z.of_nat k -> placeholder_drawn selfk (display selfk)).
Proof.
  intros Hc Ha Hnone Hret Hk self0 selfk.
  assert (Hconf : configured (after_calls (__init__ w h) earlier))
    by apply after_calls_configured, __init___configured.
  assert (Hfps : fps self0 = 4) by now apply render_configured.
  apply (all_return_Forall _ _ Hconf) in Hret.
  inversion Hret as [|? ? Hfin Hdraw]; subst.
  assert (Hlater : Forall (fun c' => call_action c' = None /\
                     drawable (width (after_calls (__init__ w h) earlier))
                              (call_env_state c') (call_episode c') = true) later).
  { apply Forall_forall. intros c' Hin. split.
    - now apply (proj1 (Forall_forall _ _) Hnone).
    - now apply (proj1 (Forall_forall _ _) Hdraw). }
  destruct (shown_name_in_range a Ha) as (name & _ & Hg & Hname).
  exists name. split; [exact Hg|]. rewrite Hfps.
  destruct (callout_countdown _ c later a name 0 Hconf Hc Hname Hfin Hlater)
    as (H0 & _); [lia|].
  destruct (callout_countdown _ c later a name k Hconf Hc Hname Hfin Hlater)
    as (Hcall & Hwait); [lia|].
  split; [apply H0; lia|]. split; intros Hle.
  - apply Hcall. lia.
  - apply Hwait. lia.
Qed.

Lemma callout_visibility_witness :
  call_action (action_call 2) = Some 2 /\
  Forall (fun c' => call_action c' = None) (repeat idle_call 9) /\
  all_return (after_calls (__init__ 1200 800) []) (action_call 2 :: repeat idle_call 9)
  = true /\
  exists name,
    getitem action_names 2 = Return name /\
    callout_drawn
      (fst (render_call (after_calls (__init__ 1200 800) []) (action_call 2))) name
      (display (fst (render_call (after_calls (__init__ 1200 800) []) (action_call 2)))) /\
    (Z.of_nat 6 <=
       2 * fps (fst (render_call (after_calls (__init__ 1200 800) []) (action_call 2))) - 2 ->
     callout_drawn
       (after_calls (fst (render_call (after_calls (__init__ 1200 800) []) (action_call 2)))
                    (firstn 6 (repeat idle_call 9)))
       name
       (display
          (after_calls (fst (render_call (after_calls (__init__ 1200 800) []) (action_call 2)))
                       (firstn 6 (repeat idle_call 9))))) /\
    (2 * fps (fst (render_call (after_calls (__init__ 1200 800) []) (action_call 2))) <=
       Z.of_nat 6 ->
     placeholder_drawn
       (after_calls (fst (render_call (after_calls (__init__ 1200 800) []) (action_call 2)))
                    (firstn 6 (repeat idle_call 9)))
       (display
          (after_calls (fst (render_call (after_calls (__init__ 1200 800) []) (action_call 2)))
                       (firstn 6 (repeat idle_call 9))))).
Proof.
  assert (Hlater : Forall (fun c' => call_action c' = None) (repeat idle_call 9)).
  { repeat constructor. }
  split; [reflexivity|]. split; [exact Hlater|]. split; [vm_compute; reflexivity|].
  apply (callout_visibility 1200 800 [] (action_call 2) (repeat idle_call 9) 2 6).
  - reflexivity.
  - lia.
  - exact Hlater.
  - vm_compute. reflexivity.
  - cbn. lia.
Defined.

(** C1, counterexample: after a call with action 0, the eighth call without
    action shows the waiting placeholder and no callout. *)
Lemma callout_gone_by_eighth_call :
  placeholder_drawn (__init__ 1200 800)
    (display (after_calls (__init__ 1200 800) (action_call 0 :: repeat idle_call 8))).
Proof. vm_compute. repeat split. Qed.

(** ** The countdown of the action display *)

(** C9: the action-display countdown is a non-negative integer after any
    sequence of [render] calls on a fresh visualizer, whatever their
    arguments.  The frame rate stays 4 and the countdown stays within
    [0, 2 * fps - 1]; a call that supplies an action sets it to [2 * fps] and,
    that being positive, takes one off; a call without action takes one
    off only when the countdown is strictly positive. *)
Theorem action_display_timer_invariant (w h : Z) (calls : list Call) :
  let self := after_calls (__init__ w h) calls in
  fps self = 4 /\
  0 <= action_display_timer self <= 2 * fps self - 1 /\
  forall c : Call,
    action_display_timer (fst (render_call self c)) =
    match call_action c with
    | Some _ => 2 * fps self - 1
    | None =>
        if action_display_timer self >? 0
        then action_display_timer self - 1
        else action_display_timer self
    end.
Proof.
  assert (Hstep : forall self c, fps self = 4 ->
            action_display_timer (fst (render_call self c)) =
            match call_action c with
            | Some _ => 2 * fps self - 1
            | None =>
                if action_display_timer self >? 0
                then action_display_timer self - 1
                else action_display_timer self
            end).
  { intros self c Hf. unfold render_call.
    destruct (render_fields self (call_env_state c) (call_action c) (call_reward c)
                (call_episode c) (call_total_reward c) (call_events c))
      as (_ & _ & _ & _ & _ & _ & _ & _ & Ht).
    rewrite Ht, update_timer, Hf. destruct (call_action c); reflexivity. }
  induction calls as [|c calls IH] using rev_ind.
  - cbn. repeat split; try lia. intros c. apply Hstep. reflexivity.
  - rewrite after_calls_snoc. cbv zeta in IH |- *.
    destruct IH as (Hf & Hrange & _).
    set (self := after_calls (__init__ w h) calls) in *.
    assert (Hf' : fps (fst (render_call self c)) = 4).
    { destruct (after_calls_configured (__init__ w h) (calls ++ [c])
                  (__init___configured w h)) as (H4 & _).
      rewrite after_calls_snoc in H4. exact H4. }
    split; [exact Hf'|]. split.
    + rewrite Hf', (Hstep self c Hf), Hf.
      destruct (call_action c); [lia|].
      destruct (Z.gtb_spec (action_display_timer self) 0); lia.
    + intros c'. apply Hstep. exact Hf'.
Qed.

(** ** The value [render] returns *)

Lemma render_value (self : ELearningVisualizer) (env_state : EnvState)
    (action : option Z) (reward : option float) (episode : option Z)
    (total_reward : option float) (events : list Event) (b : bool) :
  snd (render self env_state action reward episode total_reward events) = Return b ->
  b = handle_events events.
Proof.
  unfold render.
  match goal with |- context [let '(_, _) := ?m in _] => destruct m as [drawn commands] end.
  destruct drawn; cbn [snd]; congruence.
Qed.

(** C6 (as amended): whenever [render] returns, it returns [False] exactly
    when the pending events contain a window-close event or a key press of
    Escape or Q, and [True] otherwise.  On a visualizer made by [__init__]
    and any earlier calls it does return for every drawable snapshot: the
    ints to write out (hints, time, step, episode) have at most 4300 digits,
    each of the three metric values times 400 is a finite float whose
    integer part fits a C long, and so does the window's width.  For any
    other snapshot it raises and returns nothing.  Another drawable
    snapshot, other optional arguments and other earlier calls give the same
    value for the same events. *)
Theorem render_result_by_events (w h : Z) (calls : list Call) (env_state : EnvState)
    (action : option Z) (reward : option float) (episode : option Z)
    (total_reward : option float) (events : list Event) :
  let self := after_calls (__init__ w h) calls in
  let result := snd (render self env_state action reward episode total_reward events) in
  (forall b, result = Return b -> b = negb (existsb exit_requested events)) /\
  (drawable w env_state episode = true ->
   result = Return (negb (existsb exit_requested events))) /\
  (drawable w env_state episode = false -> exists e, result = Raise e) /\
  forall (calls' : list Call) (env_state' : EnvState) (action' : option Z)
         (reward' : option float) (episode' : option Z) (total_reward' : option float),
    drawable w env_state episode = true ->
    drawable w env_state' episode' = true ->
    snd (render (after_calls (__init__ w h) calls') env_state' action' reward' episode'
                total_reward' events)
    = result.
Proof.
  assert (Hany : forall calls env_state action reward episode total_reward,
            drawable w env_state episode = true ->
            snd (render (after_calls (__init__ w h) calls) env_state action reward episode
                        total_reward events)
            = Return (negb (existsb exit_requested events))).
  { clear. intros calls env_state action reward episode total_reward Hd.
    rewrite <- (after_calls_width_init w h calls) in Hd.
    destruct (render_returns (after_calls (__init__ w h) calls) env_state action reward
                episode total_reward events
                (after_calls_configured _ calls (__init___configured w h)) Hd)
      as (n1 & n2 & n3 & _ & _ & _ & Hr).
    cbv zeta in Hr. rewrite Hr. cbn [snd]. now rewrite handle_events_exit. }
  intros self result. split; [|split; [|split]].
  - intros b Hb. rewrite <- handle_events_exit. now apply render_value in Hb.
  - intros Hd. now apply Hany.
  - intros Hd. rewrite <- (after_calls_width_init w h calls) in Hd.
    destruct (render_raises self env_state action reward episode total_reward events
                (after_calls_configured _ calls (__init___configured w h)) Hd)
      as (e & _ & Hr).
    now exists e.
  - intros calls' env_state' action' reward' episode' total_reward' Hd Hd'.
    subst result self. now rewrite !Hany.
Qed.

Lemma render_result_by_events_witness :
  drawable 1200 test_state_1 (Some 1) = true /\
  snd (render (after_calls (__init__ 1200 800) []) test_state_1 (Some 0)
              (Some 1.5%float) (Some 1) (Some 1.5%float)
              [MOUSEMOTION; KEYDOWN 113; QUIT])
  = Return false.
Proof.
  split; [reflexivity|].
  exact (proj1 (proj2 (render_result_by_events 1200 800 [] test_state_1 (Some 0)
                         (Some 1.5%float) (Some 1) (Some 1.5%float)
                         [MOUSEMOTION; KEYDOWN 113; QUIT])) eq_refl).
Defined.

(** C6, counterexample: with an accuracy of 1e306 the bar width
    [int(400 * 1e306)] is [int(inf)]; [render] raises OverflowError and
    returns neither [False] (a window-close event is pending) nor [True]
    (no event is pending). *)
Lemma render_raises_on_overflow :
  snd (render (__init__ 1200 800) overflowing_state None None None None [QUIT])
  = Raise OverflowError /\
  snd (render (__init__ 1200 800) overflowing_state None None None None [])
  = Raise OverflowError.
Proof. split; vm_compute; reflexivity. Qed.

(** Other snapshots that are not drawn: an accuracy of 1e18 gives a bar
    width of 4e20, which [pygame.Rect] refuses; so it is when a NaN comes
    after it, the accuracy bar being drawn first; a NaN alone stops [int];
    and a step of 4301 digits stops the f-string of the step text. *)
Example render_exceptions :
  snd (render (__init__ 1200 800) (with_accuracy 1e18 empty_state) None None None None [])
  = Raise TypeError /\
  snd (render (__init__ 1200 800) (with_engagement nan (with_accuracy 1e18 empty_state))
              None None None None [])
  = Raise TypeError /\
  snd (render (__init__ 1200 800) (with_engagement nan empty_state) None None None None [])
  = Raise ValueError /\
  snd (render (__init__ 1200 800) (with_step (10 ^ 4300) empty_state) None None None None [])
  = Raise ValueError /\
  snd (render (__init__ 1200 800) empty_state None None (Some (10 ^ 4300)) None [])
  = Raise ValueError /\
  frame_count (fst (render (__init__ 1200 800) (with_accuracy 1e18 empty_state)
                           None None None None [])) = 0.
Proof. vm_compute. repeat split. Qed.

(** The two snapshots of the module's self-test, one after the other: the
    step text follows the snapshot of the call. *)
Example step_text_follows_snapshot :
  let call (s : EnvState) (a : Z) :=
    {| call_env_state := s; call_action := Some a; call_reward := Some 1.5%float;
       call_episode := Some 1; call_total_reward := Some 1.5%float; call_events := [] |} in
  let first := after_calls (__init__ 1200 800) [call test_state_1 0] in
  let second := after_calls first [call test_state_2 1] in
  drawn_at (topleft 700 410) (display first) =
    [ blit (Text (Font 28) "Step: 15/200" true (COLORS text_secondary)) (topleft 700 410) ] /\
  drawn_at (topleft 700 410) (display second) =
    [ blit (Text (Font 28) "Step: 20/200" true (COLORS text_secondary)) (topleft 700 410) ] /\
  frame_count second = 2.
Proof. vm_compute. repeat split. Qed.

(** ** The difficulty label of the lesson panel *)

Lemma difficulty_label_drawn (self : ELearningVisualizer) (env_state : EnvState) :
  let difficulty := get (lesson_difficulty env_state) 0.5%float in
  drawn_at (topleft 70 160) (snd (_draw_lesson_panel self env_state)) =
  [ blit (Text (font_small self)
               ("Difficulty: " ++ diff_text difficulty ++ " (" ++
                format_float false 2 difficulty ++ ")")
               true (diff_color difficulty))
         (topleft 70 160) ].
Proof.
  cbv zeta. unfold _draw_lesson_panel, lift, str.
  destruct (within_str_digits (get (hints_requested env_state) 0));
    destruct (within_str_digits (get (time_on_lesson env_state) 0)); reflexivity.
Qed.

(** C2 (as amended): the difficulty label of the lesson panel reads "Easy"
    in the warning colour for 0.39, "Medium" in the success colour for 0.40,
    "Hard" in the success colour for 0.70 and "Hard" in the warning colour
    for 0.71: the text uses the buckets < 0.4 and < 0.7, the colour the band
    [0.4, 0.7], and at 0.70 the two disagree. *)
Theorem difficulty_label_boundaries (self : ELearningVisualizer) (env_state : EnvState) :
  let label (difficulty : float) :=
    drawn_at (topleft 70 160)
      (snd (_draw_lesson_panel self (with_difficulty difficulty env_state))) in
  let text_at (s : string) (c : Color) :=
    [ blit (Text (font_small self) s true c) (topleft 70 160) ] in
  label 0.39%float = text_at "Difficulty: Easy (0.39)" (COLORS warning) /\
  label 0.40%float = text_at "Difficulty: Medium (0.40)" (COLORS success) /\
  label 0.70%float = text_at "Difficulty: Hard (0.70)" (COLORS success) /\
  label 0.71%float = text_at "Difficulty: Hard (0.71)" (COLORS warning).
Proof.
  cbv zeta. repeat split.
  - exact (difficulty_label_drawn self (with_difficulty 0.39 env_state)).
  - exact (difficulty_label_drawn self (with_difficulty 0.40 env_state)).
  - exact (difficulty_label_drawn self (with_difficulty 0.70 env_state)).
  - exact (difficulty_label_drawn self (with_difficulty 0.71 env_state)).
Qed.

(** C2, counterexample: at difficulty 0.70 the test [difficulty < 0.7] is
    false, so the label reads "Hard", not "Medium", while the colour is
    still that of the band [0.4, 0.7]. *)
Lemma difficulty_070_is_hard :
  diff_text 0.70 = "Hard" /\
  diff_color 0.70 = COLORS success /\
  drawn_at (topleft 70 160)
    (snd (_draw_lesson_panel (__init__ 1200 800) (with_difficulty 0.70 empty_state))) =
  [ blit (Text (Font 28) "Difficulty: Hard (0.70)" true (COLORS success)) (topleft 70 160) ].
Proof. repeat split. Qed.

(** ** The default button usage *)

Lemma update_fonts (self : ELearningVisualizer) (action : option Z) (v : list command) :
  let self1 := update_action_display (set_screen v self) action in
  font_tiny self1 = font_tiny self /\ font_medium self1 = font_medium self.
Proof.
  unfold update_action_display.
  destruct action; cbn;
    match goal with |- context [if ?b then _ else _] => destruct b end; split; reflexivity.
Qed.

(** C3 (as amended): when the key [aac_button_usage] is absent, the AAC
    panel is drawn without error with a usage of 0.17 for each of the six
    buttons: every button is in the hover colour and labelled "17.0%".  The
    whole call of [render] returns, and presents a frame with these six
    buttons, whenever the rest of the snapshot is drawable: ints of at most
    4300 digits to write out, and metric values and a window width that give
    rectangles that fit a C long. *)
Theorem default_button_usage (w h : Z) (calls : list Call) (env_state : EnvState)
    (action : option Z) (reward : option float) (episode : option Z)
    (total_reward : option float) (events : list Event) :
  aac_button_usage env_state = None ->
  let self := after_calls (__init__ w h) calls in
  let self' := fst (render self env_state action reward episode total_reward events) in
  _draw_aac_panel self env_state =
  (Return tt,
   [ draw_rect (COLORS panel) (Rect 50 470 600 280) None (Some 10);
     blit (Text (font_medium self) "AAC Communication" true (COLORS accent)) (topleft 70 485) ]
   ++ flat_map
        (fun '(x, y, bw, bh, symbol) =>
           [ draw_rect (COLORS button_hover) (Rect x y bw bh) None (Some 8);
             draw_rect (COLORS text) (Rect x y bw bh) (Some 2) (Some 8);
             blit (Text (font_medium self) symbol true (COLORS text))
                  (center (x + bw / 2) (y + bh / 2 - 10));
             blit (Text (font_tiny self) "17.0%" true (COLORS text_secondary))
                  (center (x + bw / 2) (y + bh - 20)) ])
        (combine _initialize_button_positions
                 ["I want"; "Help"; "Yes"; "No"; "More"; "Stop"]))%list /\
  (drawable w env_state episode = true ->
   snd (render self env_state action reward episode total_reward events) =
   Return (handle_events events) /\
   Forall (fun '(x, y, bw, bh) =>
             rects_at x y (display self') =
               [ draw_rect (COLORS button_hover) (Rect x y bw bh) None (Some 8);
                 draw_rect (COLORS text) (Rect x y bw bh) (Some 2) (Some 8) ] /\
             drawn_at (center (x + bw / 2) (y + bh - 20)) (display self') =
               [ blit (Text (Font 20) "17.0%" true (COLORS text_secondary))
                      (center (x + bw / 2) (y + bh - 20)) ])
          _initialize_button_positions).
Proof.
  intros Hu self self'.
  assert (Hconf : configured self)
    by apply after_calls_configured, __init___configured.
  split.
  - rewrite (_draw_aac_panel_commands self env_state Hconf), Hu.
    destruct Hconf as (_ & Hs & Hp).
    unfold aac_panel_commands. rewrite Hs, Hp. reflexivity.
  - intros Hd. rewrite <- (after_calls_width_init w h calls) in Hd.
    destruct (render_returns self env_state action reward episode total_reward events
                Hconf Hd) as (n1 & n2 & n3 & _ & _ & _ & Hr).
    cbv zeta in Hr. subst self'. rewrite Hr. split; [reflexivity|].
    cbn [fst display set_frame_count set_display].
    set (self1 := update_action_display (set_screen [fill (COLORS background)] self) action).
    destruct (configured_update self action [fill (COLORS background)] Hconf)
      as (_ & Hs & Hp).
    fold self1 in Hs, Hp.
    assert (Htiny : font_tiny self1 = Font 20).
    { unfold self1. rewrite (proj1 (update_fonts self action _)). apply after_calls_setup. }
    unfold frame_commands, aac_panel_commands. rewrite Hu, Hs, Hp.
    unfold button_commands. cbn [get]. rewrite Htiny.
    unfold rects_at, drawn_at.
    repeat constructor;
      destruct reward, total_reward, episode, (shown_name (visible_action self1));
      reflexivity.
Qed.

Lemma default_button_usage_witness :
  aac_button_usage empty_state = None /\
  drawable 1200 empty_state None = true /\
  snd (render (after_calls (__init__ 1200 800) []) empty_state None None None None []) =
  Return true.
Proof.
  split; [reflexivity|]. split; [reflexivity|].
  exact (proj1 (proj2 (default_button_usage 1200 800 [] empty_state None None None None []
                         eq_refl) eq_refl)).
Defined.

(** C3, counterexample: without the key the usage label of the first button
    reads "17.0%", the default being 0.17; a usage of 1/6 would read
    "16.7%". *)
Lemma default_usage_is_not_a_sixth :
  aac_button_usage empty_state = None /\
  drawn_at (center 140 600) (snd (_draw_aac_panel (__init__ 1200 800) empty_state)) =
    [ blit (Text (Font 20) "17.0%" true (COLORS text_secondary)) (center 140 600) ] /\
  format_float false 1 (1 / 6 * 100) ++ "%" = "16.7%" /\
  PrimFloat.eqb 0.17 (1 / 6) = false.
Proof. repeat split. Qed.

(** ** The engagement bar *)

Lemma _draw_metrics_panel_returns (self : ELearningVisualizer) (env_state : EnvState)
    (reward total_reward : option float) :
  fst (_draw_metrics_panel self env_state reward total_reward) = Return tt ->
  bars_drawable env_state = true /\ within_str_digits (get (step env_state) 0) = true.
Proof.
  intros H.
  destruct (bars_drawable env_state && within_str_digits (get (step env_state) 0)) eqn:Hb.
  - now apply andb_prop in Hb.
  - destruct (_draw_metrics_panel_raises self env_state reward total_reward Hb)
      as (e & out & _ & E).
    rewrite E in H. discriminate H.
Qed.

Lemma engagement_bar_drawn (self : ELearningVisualizer) (env_state : EnvState)
    (reward total_reward : option float) :
  fst (_draw_metrics_panel self env_state reward total_reward) = Return tt ->
  let engagement := get (engagement_level env_state) 0.8%float in
  exists filled_width,
    int_of_float (400 * engagement) = Return filled_width /\
    in_c_long filled_width = true /\
    rects_at 700 220 (snd (_draw_metrics_panel self env_state reward total_reward)) =
    [ draw_rect (60, 60, 70) (Rect 700 220 400 30) None (Some 5);
      draw_rect (engagement_color engagement) (Rect 700 220 (c_int filled_width) 30)
                None (Some 5);
      draw_rect (COLORS text) (Rect 700 220 400 30) (Some 2) (Some 5) ].
Proof.
  intros Hret engagement.
  destruct (_draw_metrics_panel_returns self env_state reward total_reward Hret) as [Hb Hs].
  destruct (_draw_metrics_panel_commands self env_state reward total_reward Hb Hs)
    as (n1 & n2 & n3 & _ & H2 & _ & _ & Hc2 & _ & ->).
  exists n2. repeat split; trivial.
  destruct reward, total_reward; reflexivity.
Qed.

Example tier_colors_differ :
  COLORS engagement_high <> COLORS engagement_med /\
  COLORS engagement_med <> COLORS engagement_low /\
  COLORS engagement_high <> COLORS engagement_low /\
  COLORS button_active <> COLORS button_hover /\
  COLORS button_hover <> COLORS button /\
  COLORS button_active <> COLORS button /\
  COLORS success <> COLORS warning /\
  COLORS success <> COLORS error.
Proof. repeat split; discriminate. Qed.

(** C4: the colour of the engagement bar is the high tier when
    engagement > 0.7, the medium tier when 0.4 < engagement <= 0.7 and the
    low tier when engagement <= 0.4; so 0.71 is high, 0.70 and 0.41 are
    medium and 0.40 is low.  The bar that the metrics panel draws at
    (700, 220) is filled in that colour whenever the panel is drawn, that
    is, returns. *)
Theorem engagement_color_tiers (engagement : float) :
  (gtb engagement 0.7 = true -> engagement_color engagement = COLORS engagement_high) /\
  (gtb engagement 0.4 = true -> PrimFloat.leb engagement 0.7 = true ->
   engagement_color engagement = COLORS engagement_med) /\
  (PrimFloat.leb engagement 0.4 = true ->
   engagement_color engagement = COLORS engagement_low) /\
  engagement_color 0.71 = COLORS engagement_high /\
  engagement_color 0.70 = COLORS engagement_med /\
  engagement_color 0.41 = COLORS engagement_med /\
  engagement_color 0.40 = COLORS engagement_low /\
  forall (self : ELearningVisualizer) (env_state : EnvState)
         (reward total_reward : option float),
    fst (_draw_metrics_panel self (with_engagement engagement env_state)
                             reward total_reward) = Return tt ->
    exists filled_width,
      int_of_float (400 * engagement) = Return filled_width /\
      rects_at 700 220
        (snd (_draw_metrics_panel self (with_engagement engagement env_state)
                                  reward total_reward)) =
      [ draw_rect (60, 60, 70) (Rect 700 220 400 30) None (Some 5);
        draw_rect (engagement_color engagement) (Rect 700 220 (c_int filled_width) 30)
                  None (Some 5);
        draw_rect (COLORS text) (Rect 700 220 400 30) (Some 2) (Some 5) ].
Proof.
  unfold engagement_color at 1 2 3.
  split; [intros ->; reflexivity|].
  split; [intros H4 H7; rewrite (leb_not_gtb _ _ H7), H4; reflexivity|].
  split; [intros H4; rewrite (leb_04_not_gtb_07 _ H4), (leb_not_gtb _ _ H4); reflexivity|].
  do 4 (split; [reflexivity|]).
  intros self env_state reward total_reward Hret.
  destruct (engagement_bar_drawn self _ reward total_reward Hret) as (n & Hn & _ & Hr).
  exists n. split; [exact Hn | exact Hr].
Qed.

Lemma engagement_color_tiers_witness :
  gtb 0.71 0.7 = true /\
  engagement_color 0.71 = COLORS engagement_high /\
  fst (_draw_metrics_panel (__init__ 1200 800) (with_engagement 0.41 test_state_1)
                           None None) = Return tt /\
  exists filled_width,
    int_of_float (400 * 0.41) = Return filled_width /\
    rects_at 700 220
      (snd (_draw_metrics_panel (__init__ 1200 800) (with_engagement 0.41 test_state_1)
                                None None)) =
    [ draw_rect (60, 60, 70) (Rect 700 220 400 30) None (Some 5);
      draw_rect (engagement_color 0.41) (Rect 700 220 (c_int filled_width) 30)
                None (Some 5);
      draw_rect (COLORS text) (Rect 700 220 400 30) (Some 2) (Some 5) ].
Proof.
  split; [reflexivity|].
  split; [exact (proj1 (engagement_color_tiers 0.71) eq_refl)|].
  split; [reflexivity|].
  exact (proj2 (proj2 (proj2 (proj2 (proj2 (proj2 (proj2 (engagement_color_tiers 0.41)))))))
           (__init__ 1200 800) test_state_1 None None eq_refl).
Defined.

(** ** The AAC buttons *)

Lemma button_color_tiers (usage : float) :
  (gtb usage 0.25 = true -> button_color usage = COLORS button_active) /\
  (gtb usage 0.15 = true -> PrimFloat.leb usage 0.25 = true ->
   button_color usage = COLORS button_hover) /\
  (gtb usage 0.25 = false -> gtb usage 0.15 && PrimFloat.leb usage 0.25 = false ->
   button_color usage = COLORS button).
Proof.
  unfold button_color.
  split; [intros ->; reflexivity|].
  split; [intros H15 H25; rewrite (leb_not_gtb _ _ H25), H15; reflexivity|].
  intros H25 H. rewrite H25.
  destruct (gtb usage 0.15) eqn:H15; [|reflexivity].
  rewrite (not_gtb_leb usage 0.25) in H; [discriminate | | exact H25].
  apply (comparable usage 0.25 0.15); [now apply gtb_comparable | discriminate].
Qed.

Lemma button_rects (self : ELearningVisualizer) (env_state : EnvState)
    (button_usage : list float) (i : nat) (x y bw bh : Z) (usage : float) :
  configured self ->
  aac_button_usage env_state = Some button_usage ->
  List.length button_usage = 6%nat ->
  nth_error (button_positions self) i = Some (x, y, bw, bh) ->
  nth_error button_usage i = Some usage ->
  rects_at x y (snd (_draw_aac_panel self env_state)) =
    [ draw_rect (button_color usage) (Rect x y bw bh) None (Some 8);
      draw_rect (COLORS text) (Rect x y bw bh) (Some 2) (Some 8) ].
Proof.
  intros Hconf Hu Hlen Hpos Hnth.
  rewrite (_draw_aac_panel_commands self env_state Hconf), Hu.
  destruct Hconf as (_ & Hs & Hp).
  unfold aac_panel_commands. rewrite Hs, Hp. rewrite Hp in Hpos. cbn [snd get].
  do 6 (destruct button_usage as [|? button_usage]; [discriminate Hlen|]).
  destruct button_usage; [|discriminate Hlen].
  do 6 (destruct i as [|i];
        [ injection Hpos as <- <- <- <-; injection Hnth as <-; reflexivity |]).
  destruct i; discriminate Hpos.
Qed.

Lemma button_exists (self : ELearningVisualizer) (button_usage : list float) (i : nat) :
  configured self ->
  List.length button_usage = 6%nat ->
  (i < 6)%nat ->
  exists (x y bw bh : Z) (usage : float),
    nth_error (button_positions self) i = Some (x, y, bw, bh) /\
    nth_error button_usage i = Some usage.
Proof.
  intros (_ & _ & Hp) Hlen Hi. rewrite Hp.
  do 6 (destruct button_usage as [|? button_usage]; [discriminate Hlen|]).
  do 6 (destruct i as [|i]; [do 5 eexists; split; reflexivity|]).
  lia.
Qed.

Example test_state_1_button_colors :
  map button_color [0.25; 0.15; 0.20; 0.10; 0.20; 0.10]%float =
  [ COLORS button_hover; COLORS button; COLORS button_hover;
    COLORS button; COLORS button_hover; COLORS button ].
Proof. reflexivity. Qed.

(** C5: for a six-element [aac_button_usage], the button at each of the six
    grid positions is filled in the colour that its own usage value
    dictates, and in no other: the active tier when usage > 0.25, the hover
    tier when 0.15 < usage <= 0.25, the base tier otherwise.  Another
    six-element sequence with the same value for this button draws the same
    button, whatever its other five values. *)
Theorem button_tier_by_own_usage (w h : Z) (calls : list Call) (env_state : EnvState)
    (button_usage : list float) (i : nat) :
  aac_button_usage env_state = Some button_usage ->
  List.length button_usage = 6%nat ->
  (i < 6)%nat ->
  let self := after_calls (__init__ w h) calls in
  exists (x y bw bh : Z) (usage : float),
    nth_error (button_positions self) i = Some (x, y, bw, bh) /\
    nth_error button_usage i = Some usage /\
    fst (_draw_aac_panel self env_state) = Return tt /\
    rects_at x y (snd (_draw_aac_panel self env_state)) =
      [ draw_rect (button_color usage) (Rect x y bw bh) None (Some 8);
        draw_rect (COLORS text) (Rect x y bw bh) (Some 2) (Some 8) ] /\
    (gtb usage 0.25 = true -> button_color usage = COLORS button_active) /\
    (gtb usage 0.15 = true -> PrimFloat.leb usage 0.25 = true ->
     button_color usage = COLORS button_hover) /\
    (gtb usage 0.25 = false -> gtb usage 0.15 && PrimFloat.leb usage 0.25 = false ->
     button_color usage = COLORS button) /\
    (forall (env_state' : EnvState) (button_usage' : list float),
       aac_button_usage env_state' = Some button_usage' ->
       List.length button_usage' = 6%nat ->
       nth_error button_usage' i = Some usage ->
       rects_at x y (snd (_draw_aac_panel self env_state')) =
       rects_at x y (snd (_draw_aac_panel self env_state))).
Proof.
  intros Hu Hlen Hi self.
  assert (Hconf : configured self)
    by apply after_calls_configured, __init___configured.
  destruct (button_exists self button_usage i Hconf Hlen Hi)
    as (x & y & bw & bh & usage & Hpos & Hnth).
  exists x, y, bw, bh, usage.
  split; [exact Hpos|]. split; [exact Hnth|].
  split; [now rewrite (_draw_aac_panel_commands self env_state Hconf)|].
  split; [now apply button_rects with (button_usage := button_usage) (i := i)|].
  destruct (button_color_tiers usage) as (Ha & Hh & Hb).
  repeat (split; [assumption|]).
  intros env_state' button_usage' Hu' Hlen' Hnth'.
  rewrite (button_rects self env_state' button_usage' i x y bw bh usage Hconf Hu' Hlen' Hpos Hnth').
  symmetry. now apply button_rects with (button_usage := button_usage) (i := i).
Qed.

Lemma button_tier_by_own_usage_witness :
  aac_button_usage test_state_2 = Some [0.30; 0.15; 0.15; 0.10; 0.20; 0.10]%float /\
  exists (x y bw bh : Z) (usage : float),
    nth_error (button_positions (after_calls (__init__ 1200 800) [])) 4 = Some (x, y, bw, bh) /\
    nth_error [0.30; 0.15; 0.15; 0.10; 0.20; 0.10]%float 4 = Some usage /\
    rects_at x y (snd (_draw_aac_panel (after_calls (__init__ 1200 800) []) test_state_2)) =
      [ draw_rect (button_color usage) (Rect x y bw bh) None (Some 8);
        draw_rect (COLORS text) (Rect x y bw bh) (Some 2) (Some 8) ].
Proof.
  split; [reflexivity|].
  destruct (button_tier_by_own_usage 1200 800 [] test_state_2
              [0.30; 0.15; 0.15; 0.10; 0.20; 0.10]%float 4 eq_refl eq_refl)
    as (x & y & bw & bh & usage & Hpos & Hnth & _ & Hr & _); [lia|].
  exists x, y, bw, bh, usage. repeat split; assumption.
Defined.

(** ** The metric bar *)

Lemma floor_mantissa (m : positive) (e : Z) :
  Qfloor (inject_Z (Z.pos m) * 2 ^ e) = Z.shiftl (Z.pos m) e.
Proof.
  destruct (Z.le_gt_cases 0 e) as [He | He].
  - rewrite Z.shiftl_mul_pow2 by lia.
    rewrite <- (Qfloor_Z (Z.pos m * 2 ^ e)). apply Qfloor_comp.
    rewrite inject_Z_mult, (Zpower_Qpower 2 e) by lia. reflexivity.
  - rewrite Z.shiftl_div_pow2 by lia. rewrite Zdiv_Qdiv. apply Qfloor_comp.
    unfold Qdiv. rewrite (Zpower_Qpower 2 (- e)) by lia.
    rewrite Qpower_opp, Qinv_involutive. reflexivity.
Qed.

Lemma mantissa_positive (m : positive) (e : Z) : (0 < inject_Z (Z.pos m) * 2 ^ e)%Q.
Proof.
  apply Qmult_lt_0_compat; [reflexivity | now apply Qpower_0_lt].
Qed.

(** [int(x)] is the truncation toward zero of the number [x] stands for,
    and raises exactly when [x] stands for none. *)
Lemma int_of_float_truncates (x : float) :
  match exact_value x with
  | Some q => int_of_float x = Return (truncate q)
  | None => exists e, int_of_float x = Raise e
  end.
Proof.
  unfold exact_value, int_of_float.
  destruct (Prim2SF x) as [s | s | | s m e]; eauto.
  pose proof (mantissa_positive m e) as Hpos.
  f_equal. unfold truncate. destruct s.
  - destruct (Qle_bool 0 (- 1 * inject_Z (Z.pos m) * 2 ^ e)) eqn:Hle.
    + apply Qle_bool_iff in Hle. exfalso.
      apply (Qlt_irrefl 0). eapply Qlt_le_trans; [exact Hpos|].
      rewrite <- (Qplus_le_l _ _ (- 1 * inject_Z (Z.pos m) * 2 ^ e)).
      ring_simplify. exact Hle.
    + unfold Qceiling. f_equal. rewrite <- floor_mantissa. apply Qfloor_comp. ring.
  - rewrite (proj2 (Qle_bool_iff _ _)).
    + rewrite <- floor_mantissa. apply Qfloor_comp. ring.
    + apply Qlt_le_weak. now rewrite <- Qmult_assoc, Qmult_1_l.
Qed.

(** C8 (as amended): the filled part of a metric bar is [int(width * value)]
    wide.  Whenever that product is a finite float, [int] gives the
    truncation toward zero of the number the product stands for, and the
    width is not clamped to the track: 1.5 gives 600 pixels on a track of
    400, 1.001 gives 400, -0.5 gives -200 and -0.001 gives 0.  The bar is
    drawn without error with that width as long as the width fits a C int; a
    width beyond 32 bits that still fits a C long is drawn reduced to its low
    32 bits; a width outside a C long makes [pygame.Rect] raise TypeError.
    When the product is a NaN or an infinity, [int] raises ValueError or
    OverflowError.  A bar that raises is left unfinished, with its label and
    track only. *)
Theorem filled_width_truncates (self : ELearningVisualizer) (label : string) (value : float)
    (x y width height : Z) (color : Color) (width_f : float) :
  bar_geometry x y width height ->
  float_of_int width = Return width_f ->
  let bar := _draw_metric_bar self label value x y width height color in
  let drawn (w : Z) :=
    (Return tt,
     [ blit (Text (font_small self) label true (COLORS text)) (topleft x (y - 25));
       draw_rect (60, 60, 70) (Rect x y width height) None (Some 5);
       draw_rect color (Rect x y w height) None (Some 5);
       draw_rect (COLORS text) (Rect x y width height) (Some 2) (Some 5);
       blit (Text (font_small self) (format_float false 1 (value * 100) ++ "%") true
                  (COLORS text))
            (center (x + width + 40) (y + height / 2)) ]) in
  let unfinished (e : exn) :=
    (Raise e,
     [ blit (Text (font_small self) label true (COLORS text)) (topleft x (y - 25));
       draw_rect (60, 60, 70) (Rect x y width height) None (Some 5) ]) in
  match exact_value (width_f * value) with
  | Some product =>
      int_of_float (width_f * value) = Return (truncate product) /\
      (fits_c_int (truncate product) -> bar = drawn (truncate product)) /\
      (in_c_long (truncate product) = true -> bar = drawn (c_int (truncate product))) /\
      (in_c_long (truncate product) = false -> bar = unfinished TypeError)
  | None =>
      exists e, (e = ValueError \/ e = OverflowError) /\ bar = unfinished e
  end /\
  int_of_float (400 * 1.5) = Return 600 /\
  int_of_float (400 * 1.001) = Return 400 /\
  int_of_float (400 * (-0.5)) = Return (-200) /\
  int_of_float (400 * (-0.001)) = Return 0 /\
  int_of_float (400 * 1e18) = Return 400000000000000000000.
Proof.
  intros Hg Hw bar drawn unfinished. split; [|repeat split].
  pose proof (int_of_float_truncates (width_f * value)) as H.
  destruct (exact_value (width_f * value)) as [product|].
  - split; [exact H|]. split; [|split].
    + intros Hfits. unfold bar, drawn.
      rewrite <- (c_int_fits _ Hfits).
      apply _draw_metric_bar_commands with (width_f := width_f); trivial.
      now apply fits_in_c_long.
    + intros Hc. now apply _draw_metric_bar_commands with (width_f := width_f).
    + intros Hc.
      now apply _draw_metric_bar_too_wide
        with (width_f := width_f) (filled_width := truncate product).
  - destruct H as [e He]. exists e. split.
    + now apply int_of_float_exception in He.
    + now apply _draw_metric_bar_raises with (width_f := width_f).
Qed.

Lemma filled_width_truncates_witness :
  bar_geometry 700 170 400 30 /\
  float_of_int 400 = Return 400%float /\
  _draw_metric_bar (__init__ 1200 800) "Student Accuracy" 1.5 700 170 400 30 (COLORS success) =
  (Return tt,
   [ blit (Text (Font 28) "Student Accuracy" true (COLORS text)) (topleft 700 145);
     draw_rect (60, 60, 70) (Rect 700 170 400 30) None (Some 5);
     draw_rect (COLORS success) (Rect 700 170 600 30) None (Some 5);
     draw_rect (COLORS text) (Rect 700 170 400 30) (Some 2) (Some 5);
     blit (Text (Font 28) "150.0%" true (COLORS text)) (center 1140 185) ]).
Proof.
  assert (Hg : bar_geometry 700 170 400 30) by (apply bar_geometry_400; lia).
  split; [exact Hg|]. split; [reflexivity|].
  apply (proj1 (proj2 (proj1 (filled_width_truncates (__init__ 1200 800) "Student Accuracy"
                                1.5 700 170 400 30 (COLORS success) 400 Hg eq_refl)))).
  unfold fits_c_int. vm_compute. split; [discriminate | reflexivity].
Defined.

(** C8, counterexample: 1e306 is a finite float, but 400 * 1e306 overflows
    to infinity, and [int] of it raises OverflowError. *)
Lemma metric_bar_overflows :
  finite 1e306 = true /\
  finite (400 * 1e306) = false /\
  _draw_metric_bar (__init__ 1200 800) "Student Accuracy" 1e306 700 170 400 30
                   (COLORS success) =
  (Raise OverflowError,
   [ blit (Text (Font 28) "Student Accuracy" true (COLORS text)) (topleft 700 145);
     draw_rect (60, 60, 70) (Rect 700 170 400 30) None (Some 5) ]).
Proof. repeat split. Qed.

(** A value of 1e18 gives a width of 4e20, which no C long holds:
    [pygame.Rect] raises TypeError.  A value of 1e8 gives 4e10, which is
    drawn as its low 32 bits. *)
Example metric_bar_wide :
  _draw_metric_bar (__init__ 1200 800) "Student Accuracy" 1e18 700 170 400 30
                   (COLORS success) =
  (Raise TypeError,
   [ blit (Text (Font 28) "Student Accuracy" true (COLORS text)) (topleft 700 145);
     draw_rect (60, 60, 70) (Rect 700 170 400 30) None (Some 5) ]) /\
  rects_at 700 170
    (snd (_draw_metric_bar (__init__ 1200 800) "Student Accuracy" 1e8 700 170 400 30
                           (COLORS success))) =
  [ draw_rect (60, 60, 70) (Rect 700 170 400 30) None (Some 5);
    draw_rect (COLORS success) (Rect 700 170 1345294336 30) None (Some 5);
    draw_rect (COLORS text) (Rect 700 170 400 30) (Some 2) (Some 5) ].
Proof. vm_compute. repeat split. Qed.

(** ** The reward text *)

Lemma eqb_zero (x : float) :
  PrimFloat.eqb x 0 = true -> exists s, Prim2SF x = S754_zero s.
Proof.
  rewrite FloatAxioms.eqb_spec. change (Prim2SF 0) with (S754_zero false).
  destruct (Prim2SF x) as [s | s | | s m e]; unfold SFeqb, SFcompare;
    try discriminate; try (destruct s; discriminate).
  eauto.
Qed.

(** C10: a reward that is provided and equal to 0 is written in the error
    colour, as "+0.0" (or "-0.0" for the negative zero), whenever the metrics
    panel is drawn: the success colour is used for strictly positive rewards
    only. *)
Theorem zero_reward_in_error_color (self : ELearningVisualizer) (env_state : EnvState)
    (reward : float) (total_reward : option float) :
  fst (_draw_metrics_panel self env_state (Some reward) total_reward) = Return tt ->
  PrimFloat.eqb reward 0 = true ->
  drawn_at (topleft 700 330)
    (snd (_draw_metrics_panel self env_state (Some reward) total_reward)) =
    [ blit (Text (font_small self) ("Last Reward: " ++ format_float true 1 reward) true
                 (COLORS error))
           (topleft 700 330) ] /\
  (format_float true 1 reward = "+0.0" \/ format_float true 1 reward = "-0.0") /\
  forall r : float, reward_color r = COLORS success <-> gtb r 0 = true.
Proof.
  intros Hret Hz.
  destruct (_draw_metrics_panel_returns self env_state (Some reward) total_reward Hret)
    as [Hb Hstep].
  destruct (_draw_metrics_panel_commands self env_state (Some reward) total_reward Hb Hstep)
    as (n1 & n2 & n3 & _ & _ & _ & _ & _ & _ & ->).
  destruct (eqb_zero reward Hz) as [s Hs].
  assert (Hc : reward_color reward = COLORS error).
  { unfold reward_color, gtb. rewrite ltb_spec, Hs.
    change (Prim2SF 0) with (S754_zero false). reflexivity. }
  split; [|split].
  - rewrite <- Hc. destruct total_reward; reflexivity.
  - unfold format_float. rewrite Hs. destruct s; [right | left]; reflexivity.
  - intros r. unfold reward_color. destruct (gtb r 0); split; trivial; discriminate.
Qed.

Lemma zero_reward_in_error_color_witness :
  fst (_draw_metrics_panel (__init__ 1200 800) test_state_1 (Some 0%float) None) = Return tt /\
  PrimFloat.eqb 0 0 = true /\
  drawn_at (topleft 700 330)
    (snd (_draw_metrics_panel (__init__ 1200 800) test_state_1 (Some 0%float) None)) =
    [ blit (Text (Font 28) ("Last Reward: " ++ format_float true 1 0) true (COLORS error))
           (topleft 700 330) ].
Proof.
  split; [reflexivity|]. split; [reflexivity|].
  exact (proj1 (zero_reward_in_error_color (__init__ 1200 800) test_state_1 0%float
                  None eq_refl eq_refl)).
Defined.

(** * Further properties of the code *)

(** ** The button grid *)

(** X1: [_initialize_button_positions] lays out six buttons of 180 x 120
    pixels, button [i] in column [i mod 3] and row [i // 3], 200 pixels apart
    horizontally and 140 vertically.  Any two different buttons have at least
    20 pixels between them, every button lies between the left and right edges of
    the AAC panel (50 to 650), and the bottom row ends at 760, ten pixels
    below the panel's bottom edge at 750. *)
Theorem button_grid_layout (i j : Z) :
  0 <= i < 6 ->
  0 <= j < 6 ->
  exists xi yi xj yj,
    getitem _initialize_button_positions i = Return (xi, yi, 180, 120) /\
    getitem _initialize_button_positions j = Return (xj, yj, 180, 120) /\
    xi = 50 + (i mod 3) * 200 /\
    yi = 500 + (i / 3) * 140 /\
    50 <= xi /\ xi + 180 <= 650 /\
    (i < 3 -> yi + 120 <= 750) /\
    (3 <= i -> yi + 120 = 760) /\
    (i <> j -> apart 20 (xi, yi, 180, 120) (xj, yj, 180, 120)).
Proof.
  intros Hi Hj.
  assert (i = 0 \/ i = 1 \/ i = 2 \/ i = 3 \/ i = 4 \/ i = 5) as Ci by lia.
  assert (j = 0 \/ j = 1 \/ j = 2 \/ j = 3 \/ j = 4 \/ j = 5) as Cj by lia.
  destruct Ci as [-> | [-> | [-> | [-> | [-> | ->]]]]];
    destruct Cj as [-> | [-> | [-> | [-> | [-> | ->]]]]];
    do 4 eexists; (split; [reflexivity|]); (split; [reflexivity|]);
    cbn; repeat split; try lia.
Qed.

Lemma button_grid_layout_witness :
  exists xi yi xj yj,
    getitem _initialize_button_positions 1 = Return (xi, yi, 180, 120) /\
    getitem _initialize_button_positions 4 = Return (xj, yj, 180, 120) /\
    xi = 50 + (1 mod 3) * 200 /\
    yi = 500 + (1 / 3) * 140 /\
    50 <= xi /\ xi + 180 <= 650 /\
    (1 < 3 -> yi + 120 <= 750) /\
    (3 <= 1 -> yi + 120 = 760) /\
    (1 <> 4 -> apart 20 (xi, yi, 180, 120) (xj, yj, 180, 120)).
Proof. apply (button_grid_layout 1 4); lia. Defined.

(** ** Calls that raise *)

Lemma render_call_timer (self : ELearningVisualizer) (c : Call) :
  fps self = 4 ->
  0 <= action_display_timer self ->
  action_display_timer (fst (render_call self c)) =
  match call_action c with
  | Some _ => 7
  | None => Z.max 0 (action_display_timer self - 1)
  end.
Proof.
  intros Hf Ht. unfold render_call.
  destruct (render_fields self (call_env_state c) (call_action c) (call_reward c)
              (call_episode c) (call_total_reward c) (call_events c))
    as (_ & _ & _ & _ & _ & _ & _ & _ & Htimer).
  rewrite Htimer, update_timer, Hf. destruct (call_action c); [reflexivity|].
  destruct (Z.gtb_spec (action_display_timer self) 0); lia.
Qed.

Lemma action_display_timer_range (w h : Z) (calls : list Call) :
  0 <= action_display_timer (after_calls (__init__ w h) calls) <= 7.
Proof.
  induction calls as [|c calls IH] using rev_ind; [cbn; lia|].
  rewrite after_calls_snoc, render_call_timer.
  - destruct (call_action c); lia.
  - apply after_calls_configured, __init___configured.
  - lia.
Qed.

(** X2: a call of [render] that raises presents no frame: the window keeps
    showing the last presented frame and the frame counter stays, but the
    action supplied with the call is already recorded and the countdown has
    already run.  The exception is the ValueError or OverflowError of [int]
    or [str], or the TypeError of a rectangle that Pygame refuses; it is
    never an IndexError of the button grid or of the action table. *)
Theorem raising_call_keeps_window (w h : Z) (calls : list Call) (c : Call) :
  let self := after_calls (__init__ w h) calls in
  let self' := fst (render_call self c) in
  returns self c = false ->
  (snd (render_call self c) = Raise ValueError \/
   snd (render_call self c) = Raise OverflowError \/
   snd (render_call self c) = Raise TypeError) /\
  display self' = display self /\
  frame_count self' = frame_count self /\
  last_action self' =
    match call_action c with Some a => Some a | None => last_action self end /\
  action_display_timer self' =
    match call_action c with
    | Some _ => 2 * fps self - 1
    | None => Z.max 0 (action_display_timer self - 1)
    end.
Proof.
  intros self self' Hret.
  assert (Hconf : configured self)
    by apply after_calls_configured, __init___configured.
  rewrite (returns_drawable self c Hconf) in Hret.
  destruct (render_raises self (call_env_state c) (call_action c) (call_reward c)
              (call_episode c) (call_total_reward c) (call_events c) Hconf Hret)
    as (e & He & Hr).
  fold (render_call self c) in Hr.
  destruct (render_raise_keeps self (call_env_state c) (call_action c) (call_reward c)
              (call_episode c) (call_total_reward c) (call_events c) e Hr) as (Hd & Hf).
  destruct (render_fields self (call_env_state c) (call_action c) (call_reward c)
              (call_episode c) (call_total_reward c) (call_events c))
    as (_ & _ & _ & _ & _ & _ & _ & Hl & Ht).
  fold (render_call self c) in Hd, Hf, Hl, Ht. fold self' in Hd, Hf, Hl, Ht.
  assert (Ht0 : 0 <= action_display_timer self).
  { pose proof (action_display_timer_range w h calls) as Hrange. exact (proj1 Hrange). }
  split; [rewrite Hr; destruct e; auto; now contradiction He|].
  split; [exact Hd|]. split; [exact Hf|]. split.
  - now rewrite Hl, update_last_action.
  - rewrite Ht, update_timer, (proj1 Hconf). destruct (call_action c); [reflexivity|].
    destruct (Z.gtb_spec (action_display_timer self) 0); lia.
Qed.

Lemma raising_call_keeps_window_witness :
  returns (after_calls (__init__ 1200 800) [action_call 0]) overflowing_call = false /\
  let self := after_calls (__init__ 1200 800) [action_call 0] in
  let self' := fst (render_call self overflowing_call) in
  (snd (render_call self overflowing_call) = Raise ValueError \/
   snd (render_call self overflowing_call) = Raise OverflowError \/
   snd (render_call self overflowing_call) = Raise TypeError) /\
  display self' = display self /\
  frame_count self' = frame_count self /\
  last_action self' =
    match call_action overflowing_call with Some a => Some a | None => last_action self end /\
  action_display_timer self' =
    match call_action overflowing_call with
    | Some _ => 2 * fps self - 1
    | None => Z.max 0 (action_display_timer self - 1)
    end.
Proof.
  split; [reflexivity|].
  exact (raising_call_keeps_window 1200 800 [action_call 0] overflowing_call eq_refl).
Defined.

(** ** The frame counter *)

Lemma render_call_frame_count (self : ELearningVisualizer) (c : Call) :
  frame_count (fst (render_call self c)) =
  if returns self c then frame_count self + 1 else frame_count self.
Proof.
  unfold returns, render_call, render.
  match goal with |- context [let '(_, _) := ?m in _] => destruct m as [drawn commands] end.
  unfold update_action_display.
  destruct drawn, (call_action c); cbn;
    match goal with |- context [if ?b then _ else _] => destruct b end; reflexivity.
Qed.

Lemma results_snoc (calls : list Call) (self : ELearningVisualizer) (c : Call) :
  results self (calls ++ [c]) =
  (results self calls ++ [snd (render_call (after_calls self calls) c)])%list.
Proof.
  induction calls as [|c' calls IH] in self |- *; [reflexivity|].
  cbn [app results]. now rewrite IH.
Qed.

(** X3: the frame counter of a visualizer is the number of calls of
    [render] that returned, whether with [True] or [False]: a call that
    raises is not counted, and the counter never goes down. *)
Theorem frame_count_counts_returns (w h : Z) (calls : list Call) (c : Call) :
  let self := after_calls (__init__ w h) calls in
  frame_count self =
    Z.of_nat (List.length (filter is_Return (results (__init__ w h) calls))) /\
  frame_count (fst (render_call self c)) =
    (if is_Return (snd (render_call self c)) then frame_count self + 1 else frame_count self) /\
  frame_count self <= frame_count (fst (render_call self c)) <= frame_count self + 1.
Proof.
  assert (Hcount : forall calls,
            frame_count (after_calls (__init__ w h) calls) =
            Z.of_nat (List.length (filter is_Return (results (__init__ w h) calls)))).
  { clear. intros calls. induction calls as [|c calls IH] using rev_ind; [reflexivity|].
    rewrite after_calls_snoc, render_call_frame_count, results_snoc.
    rewrite filter_app, length_app, IH. cbn [filter]. unfold returns.
    destruct (is_Return (snd (render_call (after_calls (__init__ w h) calls) c)));
      cbn [List.length]; lia. }
  cbv zeta. split; [apply Hcount|].
  rewrite render_call_frame_count. unfold returns.
  destruct (is_Return (snd (render_call (after_calls (__init__ w h) calls) c)));
    split; (reflexivity || lia).
Qed.

(** ** Usage sequences of any length *)

(** X4: whatever the length of [aac_button_usage] and whatever its values
    (a NaN included), the AAC panel is drawn without error: [zip] pairs the
    six symbols with the values, so one button is drawn per value up to six
    (none for an empty sequence) and values beyond the sixth are ignored. *)
Theorem aac_panel_any_usage (w h : Z) (calls : list Call) (env_state : EnvState)
    (button_usage : list float) :
  aac_button_usage env_state = Some button_usage ->
  let self := after_calls (__init__ w h) calls in
  fst (_draw_aac_panel self env_state) = Return tt /\
  List.length (snd (_draw_aac_panel self env_state)) =
    (2 + 4 * Nat.min 6 (List.length button_usage))%nat /\
  _draw_aac_panel self env_state =
  _draw_aac_panel self (with_usage (firstn 6 button_usage) env_state).
Proof.
  intros Hu self.
  assert (Hconf : configured self)
    by apply after_calls_configured, __init___configured.
  rewrite !(_draw_aac_panel_commands self _ Hconf), Hu.
  destruct Hconf as (_ & Hs & Hp).
  unfold aac_panel_commands. rewrite Hs, Hp. cbn [fst snd get with_usage aac_button_usage].
  split; [reflexivity|].
  do 6 (destruct button_usage as [|? button_usage]; [repeat split|]).
  repeat split.
Qed.

Lemma aac_panel_any_usage_witness :
  aac_button_usage (with_usage [0.5; nan]%float empty_state) = Some [0.5; nan]%float /\
  List.length
    (snd (_draw_aac_panel (after_calls (__init__ 1200 800) [])
                          (with_usage [0.5; nan]%float empty_state))) =
    (2 + 4 * Nat.min 6 (List.length [0.5; nan]%float))%nat.
Proof.
  split; [reflexivity|].
  exact (proj1 (proj2 (aac_panel_any_usage 1200 800 [] (with_usage [0.5; nan]%float empty_state)
                         [0.5; nan]%float eq_refl))).
Defined.

(** ** The last action *)

(** X5: the visualizer's [last_action] is the action most recently supplied
    to [render], or [None] when none was ever supplied; it is kept when the
    countdown runs out, when later calls supply no action and when a call
    raises, and an index outside the action table is recorded like any
    other. *)
Theorem last_action_is_last_supplied (w h : Z) (calls : list Call) :
  last_action (after_calls (__init__ w h) calls) = last_supplied calls.
Proof.
  induction calls as [|c calls IH] using rev_ind; [reflexivity|].
  rewrite after_calls_snoc. unfold last_supplied. rewrite fold_left_app.
  fold (last_supplied calls). cbn [fold_left]. rewrite <- IH.
  unfold render_call.
  destruct (render_fields (after_calls (__init__ w h) calls) (call_env_state c)
              (call_action c) (call_reward c) (call_episode c) (call_total_reward c)
              (call_events c))
    as (_ & _ & _ & _ & _ & _ & _ & Hl & _).
  now rewrite Hl, update_last_action.
Qed.

(** ** What the agent panel shows *)

(** X6: after any call of [render] that returns, the window shows the
    "current action" callout exactly when the countdown is still positive
    and the last action is an index of the action table, with the name at
    that index; when the countdown is 0, no action was ever supplied, or the
    last action is outside [0, 7), it shows the waiting placeholder. *)
Theorem callout_rule (w h : Z) (calls : list Call) (c : Call) :
  returns (after_calls (__init__ w h) calls) c = true ->
  let self' := fst (render_call (after_calls (__init__ w h) calls) c) in
  (forall a, 0 < action_display_timer self' -> last_action self' = Some a -> 0 <= a < 7 ->
     exists name, getitem action_names a = Return name /\
                  callout_drawn self' name (display self')) /\
  (action_display_timer self' = 0 \/ last_action self' = None \/
   (exists a, last_action self' = Some a /\ (a < 0 \/ 7 <= a)) ->
   placeholder_drawn self' (display self')).
Proof.
  intros Hret self'.
  assert (Hconf : configured (after_calls (__init__ w h) calls))
    by apply after_calls_configured, __init___configured.
  rewrite (returns_drawable _ c Hconf) in Hret.
  pose proof (render_call_shows _ c Hconf Hret) as Hshown.
  cbv zeta in Hshown. fold self' in Hshown. unfold visible_action in Hshown.
  split.
  - intros a Ht Hl Ha. rewrite Hl in Hshown.
    destruct (Z.gtb_spec (action_display_timer self') 0); [|lia].
    destruct (shown_name_in_range a Ha) as (name & _ & Hg & Hname).
    rewrite Hname in Hshown. eauto.
  - intros [Ht | [Hl | (a & Hl & Ha)]].
    + rewrite Ht in Hshown. exact Hshown.
    + rewrite Hl in Hshown.
      destruct (action_display_timer self' >? 0); exact Hshown.
    + rewrite Hl in Hshown.
      destruct (action_display_timer self' >? 0); [|exact Hshown].
      now rewrite (shown_name_out_of_range a Ha) in Hshown.
Qed.

Lemma callout_rule_witness :
  returns (after_calls (__init__ 1200 800) [idle_call]) (action_call 5) = true /\
  let self' := fst (render_call (after_calls (__init__ 1200 800) [idle_call]) (action_call 5)) in
  (forall a, 0 < action_display_timer self' -> last_action self' = Some a -> 0 <= a < 7 ->
     exists name, getitem action_names a = Return name /\
                  callout_drawn self' name (display self')) /\
  (action_display_timer self' = 0 \/ last_action self' = None \/
   (exists a, last_action self' = Some a /\ (a < 0 \/ 7 <= a)) ->
   placeholder_drawn self' (display self')).
Proof.
  split; [reflexivity|].
  exact (callout_rule 1200 800 [idle_call] (action_call 5) eq_refl).
Defined.

(** The countdown after a call that supplies [a] and [k] calls that supply
    nothing, and what the window then shows. *)
Lemma countdown_shows (self : ELearningVisualizer) (c : Call) (later : list Call)
    (a : Z) (k : nat) :
  configured self ->
  call_action c = Some a ->
  drawable (width self) (call_env_state c) (call_episode c) = true ->
  Forall (fun c' => call_action c' = None /\
                    drawable (width self) (call_env_state c') (call_episode c') = true)
         later ->
  (k <= List.length later)%nat ->
  let selfk := after_calls (fst (render_call self c)) (firstn k later) in
  last_action selfk = Some a /\
  action_display_timer selfk = Z.max 0 (7 - Z.of_nat k) /\
  match shown_name (visible_action selfk) with
  | Some name => callout_drawn selfk name (display selfk)
  | None => placeholder_drawn selfk (display selfk)
  end.
Proof.
  intros Hconf Hc Hfin Hlater Hk selfk.
  set (self0 := fst (render_call self c)) in *.
  assert (Hconf0 : configured self0) by now apply render_configured.
  destruct (render_fields self (call_env_state c) (call_action c) (call_reward c)
              (call_episode c) (call_total_reward c) (call_events c))
    as (_ & _ & _ & _ & _ & _ & _ & Hl0 & Ht0).
  fold (render_call self c) in Hl0, Ht0. fold self0 in Hl0, Ht0.
  rewrite update_last_action, Hc in Hl0.
  rewrite update_timer, Hc, (proj1 Hconf) in Ht0. cbn in Ht0.
  assert (Hnone : Forall (fun c' => call_action c' = None) (firstn k later)).
  { pose proof Hlater as Hsplit. rewrite <- (firstn_skipn k later) in Hsplit.
    apply Forall_app in Hsplit as [Hfirst _].
    eapply Forall_impl; [|exact Hfirst]. now intros c' [Hc' _]. }
  destruct (after_calls_without_action (firstn k later) self0 Hnone) as (Hl & Ht); [lia|].
  fold selfk in Hl, Ht. rewrite Hl0 in Hl. rewrite Ht0, length_firstn in Ht.
  replace (Init.Nat.min k (List.length later)) with k in Ht by lia.
  split; [exact Hl|]. split; [exact Ht|].
  destruct k as [|k].
  - subst selfk. cbn [firstn after_calls fold_left]. now apply render_call_shows.
  - destruct (firstn_snoc later k) as (c' & Hnth & Hf); [lia|].
    subst selfk. rewrite Hf, after_calls_snoc.
    apply render_call_shows.
    + now apply after_calls_configured.
    + rewrite after_calls_width. unfold self0. rewrite render_call_width.
      apply nth_error_In in Hnth.
      now apply (proj1 (Forall_forall _ _) Hlater).
Qed.

(** X7: a call of [render] that supplies an action outside [0, 7) replaces
    whatever callout was visible by the waiting placeholder, on that call
    and on every later call that supplies no action (the calls being ones
    that return). *)
Theorem out_of_range_action_hides_callout (w h : Z) (earlier : list Call) (c : Call)
    (later : list Call) (a : Z) (k : nat) :
  call_action c = Some a ->
  a < 0 \/ 7 <= a ->
  Forall (fun c' => call_action c' = None) later ->
  all_return (after_calls (__init__ w h) earlier) (c :: later) = true ->
  (k <= List.length later)%nat ->
  let selfk :=
    after_calls (fst (render_call (after_calls (__init__ w h) earlier) c)) (firstn k later) in
  placeholder_drawn selfk (display selfk).
Proof.
  intros Hc Ha Hnone Hret Hk selfk.
  assert (Hconf : configured (after_calls (__init__ w h) earlier))
    by apply after_calls_configured, __init___configured.
  apply (all_return_Forall _ _ Hconf) in Hret.
  inversion Hret as [|? ? Hfin Hdraw]; subst.
  assert (Hlater : Forall (fun c' => call_action c' = None /\
                     drawable (width (after_calls (__init__ w h) earlier))
                              (call_env_state c') (call_episode c') = true) later).
  { apply Forall_forall. intros c' Hin. split.
    - now apply (proj1 (Forall_forall _ _) Hnone).
    - now apply (proj1 (Forall_forall _ _) Hdraw). }
  destruct (countdown_shows _ c later a k Hconf Hc Hfin Hlater Hk) as (Hl & Ht & Hshown).
  fold selfk in Hl, Ht, Hshown. unfold visible_action in Hshown. rewrite Hl in Hshown.
  destruct (action_display_timer selfk >? 0); [|exact Hshown].
  now rewrite (shown_name_out_of_range a Ha) in Hshown.
Qed.

Lemma out_of_range_action_hides_callout_witness :
  call_action (action_call 7) = Some 7 /\
  all_return (after_calls (__init__ 1200 800) [action_call 2])
             [action_call 7; idle_call; idle_call] = true /\
  let selfk :=
    after_calls (fst (render_call (after_calls (__init__ 1200 800) [action_call 2])
                                  (action_call 7)))
                (firstn 1 [idle_call; idle_call]) in
  placeholder_drawn selfk (display selfk).
Proof.
  split; [reflexivity|]. split; [vm_compute; reflexivity|].
  apply (out_of_range_action_hides_callout 1200 800 [action_call 2] (action_call 7)
           [idle_call; idle_call] 7 1).
  - reflexivity.
  - right. lia.
  - repeat constructor.
  - vm_compute. reflexivity.
  - cbn. lia.
Defined.

(** ** The optional arguments *)

Lemma frame_optional_places (self : ELearningVisualizer) (env_state : EnvState)
    (reward : option float) (episode : option Z) (total_reward : option float)
    (w1 w2 w3 : Z) :
  configured self ->
  let frame := frame_commands self env_state reward episode total_reward w1 w2 w3 in
  drawn_at (topleft 700 330) frame =
    match reward with
    | Some r =>
        [ blit (Text (font_small self) ("Last Reward: " ++ format_float true 1 r) true
                     (reward_color r))
               (topleft 700 330) ]
    | None => []
    end /\
  drawn_at (topleft 700 370) frame =
    match total_reward with
    | Some t =>
        [ blit (Text (font_small self) ("Episode Reward: " ++ format_float false 1 t) true
                     (COLORS text))
               (topleft 700 370) ]
    | None => []
    end /\
  drawn_at (topleft 700 530) frame =
    match episode with
    | Some n =>
        [ blit (Text (font_small self) ("Episode: " ++ decimal n) true (COLORS text_secondary))
               (topleft 700 530) ]
    | None => []
    end.
Proof.
  intros Hconf frame. subst frame.
  unfold frame_commands, drawn_at.
  cbn [filter]. rewrite !filter_app.
  rewrite !(filter_aac_panel _ self _ Hconf) by no_button_passes.
  repeat split;
    destruct reward, total_reward, episode, (shown_name (visible_action self));
    reflexivity.
Qed.

(** X8: in the frame that a returning call of [render] presents, the "Last
    Reward", "Episode Reward" and "Episode" texts are there exactly when the
    corresponding argument is supplied, each at its own place and with the
    supplied value; an argument left out leaves its place empty. *)
Theorem optional_texts (w h : Z) (calls : list Call) (env_state : EnvState)
    (action : option Z) (reward : option float) (episode : option Z)
    (total_reward : option float) (events : list Event) :
  is_Return (snd (render (after_calls (__init__ w h) calls) env_state action reward episode
                         total_reward events)) = true ->
  let self' :=
    fst (render (after_calls (__init__ w h) calls) env_state action reward episode
                total_reward events) in
  drawn_at (topleft 700 330) (display self') =
    match reward with
    | Some r =>
        [ blit (Text (Font 28) ("Last Reward: " ++ format_float true 1 r) true
                     (reward_color r))
               (topleft 700 330) ]
    | None => []
    end /\
  drawn_at (topleft 700 370) (display self') =
    match total_reward with
    | Some t =>
        [ blit (Text (Font 28) ("Episode Reward: " ++ format_float false 1 t) true
                     (COLORS text))
               (topleft 700 370) ]
    | None => []
    end /\
  drawn_at (topleft 700 530) (display self') =
    match episode with
    | Some n =>
        [ blit (Text (Font 28) ("Episode: " ++ decimal n) true (COLORS text_secondary))
               (topleft 700 530) ]
    | None => []
    end.
Proof.
  intros Hret self'.
  set (self := after_calls (__init__ w h) calls) in *.
  assert (Hconf : configured self)
    by apply after_calls_configured, __init___configured.
  assert (Hfont : font_small self = Font 28) by apply after_calls_setup.
  rewrite render_as_call in Hret. fold (returns self (as_call env_state action reward
    episode total_reward events)) in Hret.
  rewrite (returns_drawable self _ Hconf) in Hret. cbn [call_env_state call_episode] in Hret.
  destruct (render_returns self env_state action reward episode total_reward events
              Hconf Hret) as (w1 & w2 & w3 & _ & _ & _ & Hr).
  cbv zeta in Hr. subst self'. rewrite Hr. cbn [fst display set_frame_count set_display].
  set (self1 := update_action_display (set_screen [fill (COLORS background)] self) action).
  assert (Hconf1 : configured self1) by now apply configured_update.
  assert (Hfont1 : font_small self1 = Font 28).
  { rewrite <- Hfont. subst self1. apply update_setup. }
  rewrite <- Hfont1.
  now apply frame_optional_places.
Qed.

Lemma optional_texts_witness :
  is_Return (snd (render (after_calls (__init__ 1200 800) []) test_state_1 None None (Some 3)
                         (Some 2.5%float) [])) = true /\
  let self' :=
    fst (render (after_calls (__init__ 1200 800) []) test_state_1 None None (Some 3)
                (Some 2.5%float) []) in
  drawn_at (topleft 700 330) (display self') = [] /\
  drawn_at (topleft 700 370) (display self') =
    [ blit (Text (Font 28) ("Episode Reward: " ++ format_float false 1 2.5) true
                 (COLORS text))
           (topleft 700 370) ] /\
  drawn_at (topleft 700 530) (display self') =
    [ blit (Text (Font 28) ("Episode: " ++ decimal 3) true (COLORS text_secondary))
           (topleft 700 530) ].
Proof.
  split; [vm_compute; reflexivity|].
  exact (optional_texts 1200 800 [] test_state_1 None None (Some 3) (Some 2.5%float) []
           eq_refl).
Defined.

(** ** Frames do not depend on earlier frames *)

Lemma frame_commands_ext (self self' : ELearningVisualizer) (env_state : EnvState)
    (reward : option float) (episode : option Z) (total_reward : option float)
    (w1 w2 w3 : Z) :
  width self = width self' ->
  font_large self = font_large self' -> font_medium self = font_medium self' ->
  font_small self = font_small self' -> font_tiny self = font_tiny self' ->
  aac_symbols self = aac_symbols self' ->
  button_positions self = button_positions self' ->
  visible_action self = visible_action self' ->
  frame_commands self env_state reward episode total_reward w1 w2 w3 =
  frame_commands self' env_state reward episode total_reward w1 w2 w3.
Proof.
  intros Hw Hl Hm Hs Ht Hsym Hpos Hvis.
  unfold frame_commands. rewrite Hvis.
  unfold lesson_panel_commands, header_commands, aac_panel_commands,
    metrics_panel_commands, metric_bar_commands, agent_info_commands, button_commands.
  now rewrite Hw, Hl, Hm, Hs, Ht, Hsym, Hpos.
Qed.

Lemma render_call_display (w h : Z) (calls : list Call) (c : Call) :
  drawable w (call_env_state c) (call_episode c) = true ->
  let self1 :=
    update_action_display
      (set_screen [fill (COLORS background)] (after_calls (__init__ w h) calls))
      (call_action c) in
  exists w1 w2 w3,
    int_of_float (400 * get (student_accuracy (call_env_state c)) 0.7%float) = Return w1 /\
    int_of_float (400 * get (engagement_level (call_env_state c)) 0.8%float) = Return w2 /\
    int_of_float (400 * get (interface_efficiency (call_env_state c)) 0.5%float) = Return w3 /\
    display (fst (render_call (after_calls (__init__ w h) calls) c)) =
    frame_commands self1 (call_env_state c) (call_reward c) (call_episode c)
                   (call_total_reward c) (c_int w1) (c_int w2) (c_int w3).
Proof.
  intros Hfin self1.
  rewrite <- (after_calls_width_init w h calls) in Hfin.
  destruct (render_returns (after_calls (__init__ w h) calls) (call_env_state c)
              (call_action c) (call_reward c) (call_episode c) (call_total_reward c)
              (call_events c)
              (after_calls_configured _ calls (__init___configured w h)) Hfin)
    as (w1 & w2 & w3 & H1 & H2 & H3 & Hr).
  exists w1, w2, w3. repeat split; trivial.
  unfold render_call. cbv zeta in Hr. rewrite Hr. reflexivity.
Qed.

(** X9: every returning call of [render] redraws the whole frame: what the
    window then shows depends on the call's arguments and, through the
    action display only, on the last action and the countdown.  A call that
    supplies an action shows the same frame after any earlier calls; a call
    that supplies none shows the same frame after any two histories that
    left the same last action and countdown. *)
Theorem frame_has_no_memory (w h : Z) (calls calls' : list Call) (c : Call) :
  returns (after_calls (__init__ w h) calls) c = true ->
  let self := after_calls (__init__ w h) calls in
  let self' := after_calls (__init__ w h) calls' in
  call_action c <> None \/
  (last_action self = last_action self' /\
   action_display_timer self = action_display_timer self') ->
  display (fst (render_call self c)) = display (fst (render_call self' c)).
Proof.
  intros Hfin self self' Hsame.
  rewrite returns_after_calls in Hfin.
  destruct (render_call_display w h calls c Hfin) as (w1 & w2 & w3 & H1 & H2 & H3 & Hd).
  destruct (render_call_display w h calls' c Hfin) as (v1 & v2 & v3 & G1 & G2 & G3 & Hd').
  cbv zeta in Hd, Hd'. fold self in Hd. fold self' in Hd'. rewrite Hd, Hd'. clear Hd Hd'.
  rewrite H1 in G1. rewrite H2 in G2. rewrite H3 in G3.
  injection G1 as <-. injection G2 as <-. injection G3 as <-.
  destruct (after_calls_setup w h calls) as (A1 & _ & A3 & A4 & A5 & A6 & A7 & A8 & A9).
  destruct (after_calls_setup w h calls') as (B1 & _ & B3 & B4 & B5 & B6 & B7 & B8 & B9).
  fold self in A1, A3, A4, A5, A6, A7, A8, A9.
  fold self' in B1, B3, B4, B5, B6, B7, B8, B9.
  set (start := set_screen [fill (COLORS background)] self).
  set (start' := set_screen [fill (COLORS background)] self').
  assert (Hkeep : forall (s0 : ELearningVisualizer) a,
            let s1 := update_action_display s0 a in
            width s1 = width s0 /\ font_large s1 = font_large s0 /\
            font_medium s1 = font_medium s0 /\ font_small s1 = font_small s0 /\
            font_tiny s1 = font_tiny s0 /\ aac_symbols s1 = aac_symbols s0 /\
            button_positions s1 = button_positions s0).
  { intros s0 a. unfold update_action_display.
    destruct a; cbn;
      match goal with |- context [if ?b then _ else _] => destruct b end;
      repeat split; reflexivity. }
  destruct (Hkeep start (call_action c)) as (K1 & K2 & K3 & K4 & K5 & K6 & K7).
  destruct (Hkeep start' (call_action c)) as (L1 & L2 & L3 & L4 & L5 & L6 & L7).
  apply frame_commands_ext.
  - rewrite K1, L1. cbn. congruence.
  - rewrite K2, L2. cbn. congruence.
  - rewrite K3, L3. cbn. congruence.
  - rewrite K4, L4. cbn. congruence.
  - rewrite K5, L5. cbn. congruence.
  - rewrite K6, L6. cbn. congruence.
  - rewrite K7, L7. cbn. congruence.
  - unfold visible_action.
    rewrite !update_timer, !update_last_action.
    change (fps start) with (fps self). change (fps start') with (fps self').
    change (action_display_timer start) with (action_display_timer self).
    change (action_display_timer start') with (action_display_timer self').
    change (last_action start) with (last_action self).
    change (last_action start') with (last_action self').
    rewrite A7, B7.
    destruct (call_action c) as [a|]; [reflexivity|].
    destruct Hsame as [Hc | [Hl Ht]]; [congruence|].
    now rewrite Hl, Ht.
Qed.

Lemma frame_has_no_memory_witness :
  returns (after_calls (__init__ 1200 800) []) (action_call 1) = true /\
  display (fst (render_call (after_calls (__init__ 1200 800) []) (action_call 1))) =
  display (fst (render_call (after_calls (__init__ 1200 800) [action_call 4; idle_call])
                            (action_call 1))).
Proof.
  split; [reflexivity|].
  apply (frame_has_no_memory 1200 800 [] [action_call 4; idle_call] (action_call 1) eq_refl).
  left. discriminate.
Defined.

(** ** Label and colour of the difficulty *)

Lemma ltb_leb (x y : float) : PrimFloat.ltb x y = true -> PrimFloat.leb x y = true.
Proof.
  rewrite ltb_spec, leb_spec. unfold SFltb, SFleb.
  destruct (SFcompare (Prim2SF x) (Prim2SF y)) as [[]|]; congruence.
Qed.

Lemma leb_not_ltb_eqb (x y : float) :
  PrimFloat.leb x y = true -> PrimFloat.ltb x y = false -> PrimFloat.eqb x y = true.
Proof.
  rewrite ltb_spec, leb_spec, FloatAxioms.eqb_spec. unfold SFltb, SFleb, SFeqb.
  destruct (SFcompare (Prim2SF x) (Prim2SF y)) as [[]|]; congruence.
Qed.

Lemma ltb_comparable (x z : float) :
  PrimFloat.ltb x z = true -> Prim2SF x <> S754_nan.
Proof.
  rewrite ltb_spec. unfold SFltb. destruct (Prim2SF x); simpl; congruence.
Qed.

(** Not below a threshold is at or above it, for a float that is not a NaN. *)
Lemma not_ltb_geb (x c : float) :
  Prim2SF x <> S754_nan -> Prim2SF c <> S754_nan ->
  PrimFloat.ltb x c = false -> PrimFloat.leb c x = true.
Proof.
  intros Hx Hc. rewrite ltb_spec, leb_spec. unfold SFltb, SFleb.
  rewrite (SFcompare_antisym (Prim2SF x) (Prim2SF c)).
  destruct (Prim2SF x), (Prim2SF c); try congruence;
    destruct (SFcompare _ _) as [[]|] eqn:E; simpl in *; congruence.
Qed.

Lemma SFeqb_finite (a : spec_float) (m : positive) (e : Z) :
  SFeqb a (S754_finite false m e) = true -> a = S754_finite false m e.
Proof.
  destruct a as [s | s | | s m' e']; unfold SFeqb, SFcompare;
    try discriminate; try (destruct s; discriminate).
  destruct s; [discriminate|].
  destruct (Z.compare_spec e' e); try discriminate. subst e'.
  change (PosDef.Pos.compare_cont Eq) with Pos.compare.
  destruct (Pos.compare_spec m' m); try discriminate.
  now subst m'.
Qed.

Lemma eqb_07 (x : float) :
  PrimFloat.eqb x 0.7 = true -> Prim2SF x = Prim2SF 0.7.
Proof.
  rewrite FloatAxioms.eqb_spec. apply SFeqb_finite.
Qed.

(** X10: the text and the colour of the difficulty label come from two
    separate tests, and they agree except at one value: "Easy" is always in
    the warning colour and "Medium" always in the success colour, while
    "Hard" is in the success colour exactly for a difficulty equal to 0.7
    and in the warning colour for every other one (a NaN included). *)
Theorem difficulty_text_and_color (difficulty : float) :
  (diff_text difficulty = "Easy" -> diff_color difficulty = COLORS warning) /\
  (diff_text difficulty = "Medium" -> diff_color difficulty = COLORS success) /\
  (diff_text difficulty = "Hard" ->
   (diff_color difficulty = COLORS success <-> PrimFloat.eqb difficulty 0.7 = true)) /\
  (diff_text difficulty = "Hard" -> PrimFloat.eqb difficulty 0.7 = false ->
   diff_color difficulty = COLORS warning) /\
  (PrimFloat.eqb difficulty 0.7 = true -> diff_text difficulty = "Hard").
Proof.
  unfold diff_text, diff_color.
  destruct (PrimFloat.ltb difficulty 0.4) eqn:H4;
    [|destruct (PrimFloat.ltb difficulty 0.7) eqn:H7].
  - (* Easy *)
    pose proof (ltb_not_geb _ _ H4) as Hge. unfold geb in Hge. rewrite Hge.
    repeat split; try discriminate.
    intros He. apply eqb_07 in He. rewrite ltb_spec, He in H4. discriminate H4.
  - (* Medium *)
    assert (Hn : Prim2SF difficulty <> S754_nan) by exact (ltb_comparable _ _ H7).
    rewrite (not_ltb_geb difficulty 0.4 Hn) by (discriminate || exact H4).
    rewrite (ltb_leb _ _ H7).
    repeat split; try discriminate.
    intros He. apply eqb_07 in He. rewrite ltb_spec, He in H7. discriminate H7.
  - (* Hard *)
    assert (Hband : PrimFloat.leb 0.4 difficulty && PrimFloat.leb difficulty 0.7 = true ->
                    PrimFloat.eqb difficulty 0.7 = true).
    { intros Hband. apply andb_prop in Hband as [_ Hle]. now apply leb_not_ltb_eqb. }
    split; [discriminate|]. split; [discriminate|]. split; [|split; [|reflexivity]].
    + intros _. split.
      * destruct (PrimFloat.leb 0.4 difficulty && PrimFloat.leb difficulty 0.7);
          [|discriminate].
        intros _. now apply Hband.
      * intros He. apply eqb_07 in He.
        rewrite !leb_spec, He. reflexivity.
    + intros _ Hne.
      destruct (PrimFloat.leb 0.4 difficulty && PrimFloat.leb difficulty 0.7);
        [|reflexivity].
      rewrite Hband in Hne by reflexivity. discriminate Hne.
Qed.

(** ** The self-test *)

Lemma action_call_shows (self : ELearningVisualizer) (c : Call) (a : Z) (name : string) :
  configured self ->
  call_action c = Some a ->
  shown_name (Some a) = Some name ->
  drawable (width self) (call_env_state c) (call_episode c) = true ->
  let self' := fst (render_call self c) in
  callout_drawn self' name (display self') /\
  snd (render_call self c) = Return (handle_events (call_events c)) /\
  frame_count self' = frame_count self + 1.
Proof.
  intros Hconf Hc Hname Hfin self'.
  destruct (countdown_shows self c [] a 0 Hconf Hc Hfin (Forall_nil _) (Nat.le_refl _))
    as (Hl & Ht & Hshown).
  cbn [firstn after_calls fold_left] in Hl, Ht, Hshown. fold self' in Hl, Ht, Hshown.
  unfold visible_action in Hshown. rewrite Hl, Ht in Hshown. cbn in Hshown.
  rewrite Hname in Hshown. split; [exact Hshown|].
  subst self'. rewrite render_call_frame_count, (returns_drawable self c Hconf), Hfin.
  split; [|reflexivity].
  unfold render_call.
  destruct (render_returns self (call_env_state c) (call_action c) (call_reward c)
              (call_episode c) (call_total_reward c) (call_events c) Hconf Hfin)
    as (w1 & w2 & w3 & _ & _ & _ & Hr).
  cbv zeta in Hr. now rewrite Hr.
Qed.

(** X11: the module's self-test never raises, whatever rewards are drawn and
    whatever events arrive.  When a window-close event or a key press of
    Escape or Q arrives during the first frame, it stops after that frame,
    which shows the callout of action 0; otherwise it goes on to the second
    snapshot and ends with two frames drawn and the callout of action 1. *)
Theorem main_frames (reward_of : Z -> float) (events_of : Z -> list Event) :
  let visualizer := fst (main reward_of events_of) in
  snd (main reward_of events_of) = Return tt /\
  if existsb exit_requested (events_of 0)
  then frame_count visualizer = 1 /\
       callout_drawn visualizer "Keep current layout" (display visualizer)
  else frame_count visualizer = 2 /\
       callout_drawn visualizer "Optimize AAC buttons" (display visualizer).
Proof.
  unfold main.
  change (enumerate test_states) with [(0, test_state_1); (1, test_state_2)].
  cbn [test_loop]. rewrite render_as_call.
  match goal with |- context [render_call _ ?c] => set (c0 := c) end.
  destruct (action_call_shows (__init__ 1200 800) c0 0 "Keep current layout"
              (__init___configured 1200 800) eq_refl eq_refl eq_refl)
    as (Hshow0 & Hret0 & Hcount0).
  assert (Hconf0 : configured (fst (render_call (__init__ 1200 800) c0)))
    by apply render_configured, __init___configured.
  assert (Hw0 : width (fst (render_call (__init__ 1200 800) c0)) = 1200)
    by now rewrite render_call_width.
  destruct (render_call (__init__ 1200 800) c0) as [v0 r0].
  cbn [fst snd] in Hshow0, Hret0, Hcount0, Hconf0, Hw0. subst r0.
  change (call_events c0) with (events_of 0). rewrite handle_events_exit, negb_involutive.
  destruct (existsb exit_requested (events_of 0)).
  - cbn [fst snd]. split; [reflexivity|]. split; [exact Hcount0 | exact Hshow0].
  - rewrite render_as_call.
    match goal with |- context [render_call v0 ?c] => set (c1 := c) end.
    assert (Hd1 : drawable (width v0) (call_env_state c1) (call_episode c1) = true)
      by (rewrite Hw0; reflexivity).
    destruct (action_call_shows v0 c1 1 "Optimize AAC buttons" Hconf0 eq_refl eq_refl Hd1)
      as (Hshow1 & Hret1 & Hcount1).
    destruct (render_call v0 c1) as [v1 r1].
    cbn [fst snd] in Hshow1, Hret1, Hcount1. subst r1.
    destruct (negb (handle_events (call_events c1))); cbn [fst snd];
      (split; [reflexivity|]); (split; [rewrite Hcount1, Hcount0; reflexivity | exact Hshow1]).
Qed.

(** ** Metric values between 0 and 1 *)

(** *** Binary digits and shifts of the rounding of a product *)

Lemma digits2_pos_size (p : positive) : digits2_pos p = Pos.size p.
Proof. induction p; simpl; congruence. Qed.

Lemma digits2_pos_lower (p : positive) : 2 ^ (Z.pos (digits2_pos p) - 1) <= Z.pos p.
Proof.
  rewrite digits2_pos_size.
  pose proof (Pos.size_le p) as H.
  apply Pos2Z.pos_le_pos in H. rewrite Pos2Z.inj_pow in H.
  change (Z.pos p~0) with (2 * Z.pos p) in H.
  replace (Z.pos (Pos.size p)) with (Z.succ (Z.pos (Pos.size p) - 1)) in H by lia.
  rewrite Z.pow_succ_r in H by lia. lia.
Qed.

Lemma digits2_pos_upper (p : positive) : Z.pos p < 2 ^ Z.pos (digits2_pos p).
Proof.
  rewrite digits2_pos_size.
  pose proof (Pos.size_gt p) as H.
  apply Pos2Z.pos_lt_pos in H. now rewrite Pos2Z.inj_pow in H.
Qed.

(** A number below [2^k] has at most [k] binary digits. *)
Lemma Zdigits2_le (m k : Z) : 0 <= m < 2 ^ k -> 0 <= k -> Zdigits2 m <= k.
Proof.
  intros [Hm Hlt] Hk. destruct m as [|p|p]; simpl; [exact Hk | | lia].
  pose proof (digits2_pos_lower p) as Hl.
  assert (Hpow : 2 ^ (Z.pos (digits2_pos p) - 1) < 2 ^ k) by lia.
  apply Z.pow_lt_mono_r_iff in Hpow; lia.
Qed.

Lemma iter_pos_nat {A : Type} (f : A -> A) (p : positive) (x : A) :
  iter_pos f p x = Nat.iter (Pos.to_nat p) f x.
Proof.
  induction p as [p IH | p IH |] in x |- *; simpl iter_pos.
  - rewrite !IH, Pos2Nat.inj_xI, <- Nat.iter_succ_r, <- Nat.iter_add.
    f_equal. lia.
  - rewrite !IH, Pos2Nat.inj_xO, <- Nat.iter_add. f_equal. lia.
  - reflexivity.
Qed.

Lemma shr_1_spec (mrs : shr_record) :
  0 <= shr_m mrs ->
  shr_m (shr_1 mrs) = shr_m mrs / 2 /\
  shr_r (shr_1 mrs) = Z.odd (shr_m mrs) /\
  shr_s (shr_1 mrs) = shr_r mrs || shr_s mrs.
Proof.
  destruct mrs as [m r s]. simpl. intros Hm. rewrite <- Z.div2_div.
  destruct m as [|[p|p|]|]; simpl; auto. lia.
Qed.

(** [k] shifts of a non-negative mantissa divide it by [2^k]; the record
    tells whether the division was exact. *)
Lemma shr_iter (k : nat) (m : Z) :
  0 <= m ->
  let mrs := Nat.iter k shr_1 (Build_shr_record m false false) in
  shr_m mrs = m / 2 ^ Z.of_nat k /\
  (shr_r mrs || shr_s mrs = true -> m mod 2 ^ Z.of_nat k <> 0).
Proof.
  intros Hm. induction k as [|k IH].
  - simpl. rewrite Z.div_1_r. split; [reflexivity | discriminate].
  - cbv zeta in IH |- *. destruct IH as [IHm IHx].
    change (Nat.iter (S k) shr_1 (Build_shr_record m false false))
      with (shr_1 (Nat.iter k shr_1 (Build_shr_record m false false))).
    set (mrs := Nat.iter k shr_1 (Build_shr_record m false false)) in *.
    assert (Hpos : 0 < 2 ^ Z.of_nat k) by (apply Z.pow_pos_nonneg; lia).
    assert (Hnn : 0 <= shr_m mrs) by (rewrite IHm; apply Z.div_pos; lia).
    destruct (shr_1_spec mrs Hnn) as (H1 & H2 & H3).
    rewrite Nat2Z.inj_succ, Z.pow_succ_r by lia.
    split.
    + rewrite H1, IHm, Z.div_div by lia. f_equal. lia.
    + rewrite H2, H3. intros Hx Hdiv.
      apply Z.mod_divide in Hdiv; [|lia]. destruct Hdiv as [q Hq].
      apply orb_prop in Hx as [Hodd | Hrs].
      * rewrite IHm in Hodd. subst m.
        replace (q * (2 * 2 ^ Z.of_nat k)) with (2 * q * 2 ^ Z.of_nat k) in Hodd by ring.
        rewrite Z.div_mul in Hodd by lia.
        rewrite Z.odd_mul in Hodd. discriminate.
      * apply IHx; [exact Hrs|]. subst m.
        replace (q * (2 * 2 ^ Z.of_nat k)) with (2 * q * 2 ^ Z.of_nat k) by ring.
        apply Z.mod_mul. lia.
Qed.

(** One rounding stage of [binary_round_aux], on a mantissa and exponent
    that stand for a number of at most 400: the shifted and rounded mantissa
    still stands for at most 400, and the exponent stays non-positive. *)
Lemma round_stage (m e : Z) :
  0 <= m -> e <= 0 -> m <= 400 * 2 ^ (- e) ->
  let '(mrs, e') := shr_fexp prec emax m e loc_Exact in
  let m' := round_nearest_even (shr_m mrs) (loc_of_shr_record mrs) in
  e' <= 0 /\ 0 <= shr_m mrs <= m' /\ m' <= 400 * 2 ^ (- e').
Proof.
  intros Hm He Hb.
  assert (Hpe : 0 < 2 ^ (- e)) by (apply Z.pow_pos_nonneg; lia).
  assert (HD : Zdigits2 m <= 9 - e).
  { apply Zdigits2_le; [|lia]. split; [exact Hm|].
    replace (9 - e) with (9 + - e) by lia. rewrite Z.pow_add_r by lia.
    change (2 ^ 9) with 512. lia. }
  unfold shr_fexp, shr_record_of_loc, shr, fexp, emin, prec, emax.
  set (n := Z.max (Zdigits2 m + e - 53) (3 - 1024 - 53) - e).
  assert (Hn : e + n <= 0) by lia.
  destruct n as [|p|p] eqn:En.
  - cbn [shr_m loc_of_shr_record round_nearest_even]. lia.
  - rewrite iter_pos_nat.
    destruct (shr_iter (Pos.to_nat p) m Hm) as [Hshift Hexact].
    rewrite positive_nat_Z in Hshift, Hexact.
    set (mrs := Nat.iter (Pos.to_nat p) shr_1 (Build_shr_record m false false)) in *.
    cbv zeta.
    assert (Hpp : 0 < 2 ^ Z.pos p) by (apply Z.pow_pos_nonneg; lia).
    assert (Hsplit : 2 ^ (- e) = 2 ^ Z.pos p * 2 ^ (- (e + Z.pos p))).
    { rewrite <- Z.pow_add_r by lia. f_equal. lia. }
    assert (Hpg : 0 < 2 ^ (- (e + Z.pos p))) by (apply Z.pow_pos_nonneg; lia).
    assert (Hm1 : 0 <= shr_m mrs <= 400 * 2 ^ (- (e + Z.pos p))).
    { rewrite Hshift. split; [apply Z.div_pos; lia|].
      apply Z.div_le_upper_bound; [lia|]. rewrite Hsplit in Hb. lia. }
    assert (Hup : shr_r mrs || shr_s mrs = true ->
                  shr_m mrs + 1 <= 400 * 2 ^ (- (e + Z.pos p))).
    { intros Hx. specialize (Hexact Hx).
      pose proof (Z.div_mod m (2 ^ Z.pos p) ltac:(lia)) as Hdm.
      pose proof (Z.mod_pos_bound m (2 ^ Z.pos p) Hpp) as Hmod.
      rewrite <- Hshift in Hdm. rewrite Hsplit in Hb. nia. }
    split; [exact Hn|].
    destruct mrs as [m1 r s]. cbn [shr_m shr_r shr_s] in *.
    destruct r, s; cbn [loc_of_shr_record round_nearest_even];
      try destruct (Z.even m1); try specialize (Hup eq_refl); lia.
  - cbn [shr_m loc_of_shr_record round_nearest_even]. lia.
Qed.

Lemma binary_round_aux_bound (m e : Z) :
  0 <= m -> e <= 0 -> m <= 400 * 2 ^ (- e) ->
  binary_round_aux prec emax false m e loc_Exact = S754_zero false \/
  exists m' e',
    binary_round_aux prec emax false m e loc_Exact = S754_finite false m' e' /\
    e' <= 0 /\ Z.pos m' <= 400 * 2 ^ (- e').
Proof.
  intros Hm He Hb. unfold binary_round_aux.
  pose proof (round_stage m e Hm He Hb) as H1.
  destruct (shr_fexp prec emax m e loc_Exact) as [mrs1 e1].
  cbv zeta in H1. destruct H1 as (He1 & Hm1 & Hb1).
  set (m2 := round_nearest_even (shr_m mrs1) (loc_of_shr_record mrs1)) in *.
  pose proof (round_stage m2 e1 ltac:(lia) He1 Hb1) as H2.
  destruct (shr_fexp prec emax m2 e1 loc_Exact) as [mrs2 e2].
  cbv zeta in H2. destruct H2 as (He2 & Hm2 & Hb2).
  destruct (shr_m mrs2) as [|p|p] eqn:E; [now left | | lia].
  right. exists p, e2.
  replace (e2 <=? emax - prec) with true
    by (symmetry; apply Z.leb_le; unfold emax, prec; lia).
  repeat split; lia.
Qed.

(** The mantissa and exponent of a float between 0 and 1. *)
Lemma unit_interval_float (v : float) :
  PrimFloat.leb 0 v = true -> PrimFloat.leb v 1 = true ->
  (exists s, Prim2SF v = S754_zero s) \/
  exists m e, Prim2SF v = S754_finite false m e /\ e <= -52 /\ Z.pos m <= 2 ^ (- e).
Proof.
  intros H0 H1. pose proof (Prim2SF_valid v) as Hv.
  rewrite leb_spec in H0, H1.
  change (Prim2SF 0) with (S754_zero false) in H0.
  change (Prim2SF 1) with (S754_finite false 4503599627370496 (-52)) in H1.
  destruct (Prim2SF v) as [s | s | | s m e].
  - left. eauto.
  - destruct s; discriminate.
  - discriminate.
  - right. destruct s; [discriminate|]. exists m, e. split; [reflexivity|].
    unfold SFleb, SFcompare in H1.
    unfold valid_binary, bounded, canonical_mantissa, fexp, emin, prec, emax in Hv.
    apply andb_prop in Hv as [Hc _]. apply Z.eqb_eq in Hc.
    pose proof (digits2_pos_upper m) as Hup.
    assert (HD : Z.pos (digits2_pos m) <= 53) by lia.
    assert (Hm53 : Z.pos m < 2 ^ 53).
    { eapply Z.lt_le_trans; [exact Hup|]. apply Z.pow_le_mono_r; lia. }
    destruct (Z.compare_spec e (-52)) as [-> | Hlt | Hgt]; [| | discriminate].
    + split; [lia|]. clear Hc Hup HD Hm53.
      change (2 ^ (- -52)) with 4503599627370496.
      change (PosDef.Pos.compare_cont Eq) with Pos.compare in H1.
      apply Pos2Z.pos_le_pos. unfold Pos.le. intros Hgt.
      rewrite Hgt in H1. discriminate H1.
    + split; [lia|].
      assert (2 ^ 53 <= 2 ^ (- e)) by (apply Z.pow_le_mono_r; lia). lia.
Qed.

(** [int(400 * v)] for [v] between 0 and 1 is between 0 and 400. *)
Lemma mul_400_unit (v : float) :
  in_unit_interval v = true ->
  exists n, int_of_float (400 * v) = Return n /\ 0 <= n <= 400.
Proof.
  unfold in_unit_interval. intros H. apply andb_prop in H as [H0 H1].
  unfold int_of_float. rewrite mul_spec.
  change (Prim2SF 400) with (S754_finite false 7036874417766400 (-44)).
  destruct (unit_interval_float v H0 H1) as [[s ->] | (m & e & -> & He & Hm)].
  - simpl. exists 0. split; [reflexivity | lia].
  - unfold SF64mul, SFmul. cbn [xorb].
    destruct (binary_round_aux_bound (Z.pos (7036874417766400 * m)) (-44 + e))
      as [-> | (m' & e' & -> & He' & Hm')]; try lia.
    + rewrite Pos2Z.inj_mul.
      replace (- (-44 + e)) with (44 + - e) by lia. rewrite Z.pow_add_r by lia.
      change (2 ^ 44) with 17592186044416. lia.
    + exists 0. split; [reflexivity | lia].
    + eexists. split; [reflexivity|].
      rewrite Z.shiftl_div_pow2 by lia.
      assert (Hp : 0 < 2 ^ (- e')) by (apply Z.pow_pos_nonneg; lia).
      split; [apply Z.div_pos; lia|].
      apply Z.div_le_upper_bound; lia.
Qed.

Lemma unit_value_drawable (value : float) :
  in_unit_interval value = true -> bar_drawable value = true.
Proof.
  intros H. destruct (mul_400_unit value H) as (n & Hn & Hrange).
  unfold bar_drawable. rewrite Hn. apply fits_in_c_long.
  unfold fits_c_int. c_ranges. lia.
Qed.

Lemma metrics_in_range_bars_drawable (env_state : EnvState) :
  metrics_in_range env_state = true -> bars_drawable env_state = true.
Proof.
  unfold metrics_in_range, bars_drawable. intros H.
  apply andb_prop in H as [H H3]. apply andb_prop in H as [H1 H2].
  now rewrite !unit_value_drawable.
Qed.

(** X12: for a value between 0 and 1, the metric bar on a track of 400
    pixels is drawn without error, and its filled part is between 0 and 400
    pixels wide: it stays inside the track.  The bar is at a place that fits
    a C int. *)
Theorem unit_value_fills_within_track (self : ELearningVisualizer) (label : string)
    (value : float) (x y height : Z) (color : Color) :
  bar_geometry x y 400 height ->
  in_unit_interval value = true ->
  exists filled_width,
    0 <= filled_width <= 400 /\
    int_of_float (400 * value) = Return filled_width /\
    _draw_metric_bar self label value x y 400 height color =
    (Return tt,
     [ blit (Text (font_small self) label true (COLORS text)) (topleft x (y - 25));
       draw_rect (60, 60, 70) (Rect x y 400 height) None (Some 5);
       draw_rect color (Rect x y filled_width height) None (Some 5);
       draw_rect (COLORS text) (Rect x y 400 height) (Some 2) (Some 5);
       blit (Text (font_small self) (format_float false 1 (value * 100) ++ "%") true
                  (COLORS text))
            (center (x + 400 + 40) (y + height / 2)) ]).
Proof.
  intros Hg Hv. destruct (mul_400_unit value Hv) as (n & Hn & Hrange).
  exists n. split; [exact Hrange|]. split; [exact Hn|].
  assert (Hfits : fits_c_int n) by (unfold fits_c_int; c_ranges; lia).
  rewrite <- (c_int_fits n Hfits).
  apply _draw_metric_bar_commands with (width_f := 400%float); trivial.
  now apply fits_in_c_long.
Qed.

Lemma unit_value_fills_within_track_witness :
  bar_geometry 700 220 400 30 /\
  in_unit_interval 0.29 = true /\
  exists filled_width,
    0 <= filled_width <= 400 /\
    int_of_float (400 * 0.29) = Return filled_width /\
    _draw_metric_bar (__init__ 1200 800) "Engagement" 0.29 700 220 400 30
                     (engagement_color 0.29) =
    (Return tt,
     [ blit (Text (Font 28) "Engagement" true (COLORS text)) (topleft 700 (220 - 25));
       draw_rect (60, 60, 70) (Rect 700 220 400 30) None (Some 5);
       draw_rect (engagement_color 0.29) (Rect 700 220 filled_width 30) None (Some 5);
       draw_rect (COLORS text) (Rect 700 220 400 30) (Some 2) (Some 5);
       blit (Text (Font 28) (format_float false 1 (0.29 * 100) ++ "%") true (COLORS text))
            (center (700 + 400 + 40) (220 + 30 / 2)) ]).
Proof.
  assert (Hg : bar_geometry 700 220 400 30) by (apply bar_geometry_400; lia).
  split; [exact Hg|]. split; [reflexivity|].
  exact (unit_value_fills_within_track (__init__ 1200 800) "Engagement" 0.29 700 220 30
           (engagement_color 0.29) Hg eq_refl).
Defined.

Lemma frame_bar_places (self : ELearningVisualizer) (env_state : EnvState)
    (reward : option float) (episode : option Z) (total_reward : option float)
    (w1 w2 w3 : Z) :
  configured self ->
  let frame := frame_commands self env_state reward episode total_reward w1 w2 w3 in
  let bar (y : Z) (color : Color) (filled_width : Z) :=
    [ draw_rect (60, 60, 70) (Rect 700 y 400 30) None (Some 5);
      draw_rect color (Rect 700 y filled_width 30) None (Some 5);
      draw_rect (COLORS text) (Rect 700 y 400 30) (Some 2) (Some 5) ] in
  rects_at 700 170 frame = bar 170 (COLORS success) w1 /\
  rects_at 700 220 frame =
    bar 220 (engagement_color (get (engagement_level env_state) 0.8%float)) w2 /\
  rects_at 700 270 frame = bar 270 (COLORS button) w3.
Proof.
  intros Hconf frame bar. subst frame bar.
  unfold frame_commands, rects_at.
  cbn [filter]. rewrite !filter_app.
  rewrite !(filter_aac_panel _ self _ Hconf) by no_button_passes.
  repeat split;
    destruct reward, total_reward, episode, (shown_name (visible_action self));
    reflexivity.
Qed.

(** X13: a snapshot whose accuracy, engagement and interface efficiency are
    absent or lie between 0 and 1, and whose ints to write out (hints, time,
    step and the episode) have at most 4300 digits, is always drawn in a
    window whose width fits a C long: [render] returns the value that the
    events decide, and each of the three bars of the presented frame is
    filled to a width between 0 and the 400 pixels of its track. *)
Theorem in_range_snapshot_is_drawn (w h : Z) (calls : list Call) (env_state : EnvState)
    (action : option Z) (reward : option float) (episode : option Z)
    (total_reward : option float) (events : list Event) :
  in_c_long w = true ->
  metrics_in_range env_state = true ->
  texts_printable env_state episode = true ->
  let self := after_calls (__init__ w h) calls in
  let self' := fst (render self env_state action reward episode total_reward events) in
  let bar (y : Z) (color : Color) (filled_width : Z) :=
    [ draw_rect (60, 60, 70) (Rect 700 y 400 30) None (Some 5);
      draw_rect color (Rect 700 y filled_width 30) None (Some 5);
      draw_rect (COLORS text) (Rect 700 y 400 30) (Some 2) (Some 5) ] in
  snd (render self env_state action reward episode total_reward events) =
    Return (negb (existsb exit_requested events)) /\
  exists w1 w2 w3,
    0 <= w1 <= 400 /\ 0 <= w2 <= 400 /\ 0 <= w3 <= 400 /\
    rects_at 700 170 (display self') = bar 170 (COLORS success) w1 /\
    rects_at 700 220 (display self') =
      bar 220 (engagement_color (get (engagement_level env_state) 0.8%float)) w2 /\
    rects_at 700 270 (display self') = bar 270 (COLORS button) w3.
Proof.
  intros Hw Hrange Htexts self self' bar.
  assert (Hconf : configured self)
    by apply after_calls_configured, __init___configured.
  assert (Hd : drawable (width self) env_state episode = true).
  { unfold self. rewrite after_calls_width_init. unfold drawable.
    now rewrite Htexts, (metrics_in_range_bars_drawable _ Hrange), Hw. }
  destruct (render_returns self env_state action reward episode total_reward events
              Hconf Hd) as (w1 & w2 & w3 & H1 & H2 & H3 & Hr).
  cbv zeta in Hr. subst self'. rewrite Hr. cbn [fst snd display set_frame_count set_display].
  split; [now rewrite handle_events_exit|].
  unfold metrics_in_range in Hrange.
  apply andb_prop in Hrange as [Hrange R3]. apply andb_prop in Hrange as [R1 R2].
  destruct (mul_400_unit _ R1) as (n1 & E1 & B1).
  destruct (mul_400_unit _ R2) as (n2 & E2 & B2).
  destruct (mul_400_unit _ R3) as (n3 & E3 & B3).
  rewrite H1 in E1. rewrite H2 in E2. rewrite H3 in E3.
  injection E1 as <-. injection E2 as <-. injection E3 as <-.
  exists w1, w2, w3. do 3 (split; [assumption|]).
  rewrite (c_int_fits w1), (c_int_fits w2), (c_int_fits w3)
    by (unfold fits_c_int; c_ranges; lia).
  apply frame_bar_places. now apply configured_update.
Qed.

Lemma in_range_snapshot_is_drawn_witness :
  in_c_long 1200 = true /\
  metrics_in_range test_state_2 = true /\
  texts_printable test_state_2 None = true /\
  snd (render (after_calls (__init__ 1200 800) [idle_call]) test_state_2 (Some 1) None None
              None [KEYDOWN K_q]) =
  Return (negb (existsb exit_requested [KEYDOWN K_q])).
Proof.
  split; [reflexivity|]. split; [reflexivity|]. split; [reflexivity|].
  exact (proj1 (in_range_snapshot_is_drawn 1200 800 [idle_call] test_state_2 (Some 1) None
                  None None [KEYDOWN K_q] eq_refl eq_refl eq_refl)).
Defined.
